(** * json_scraper: the election scraper, embedded and verified

    A shallow embedding of [src/json_scraper.py]: the two-step document
    fetch, the normalisation of the lookup and election documents into the
    results and turnout tables, the Spanish views and the publishing run.

    Python values are an inductive type, a failing operation returns
    [Raise] with the exception the interpreter would raise, data frames that
    are shared between caller and callee live in a store of objects. *)

From Stdlib Require Import ZArith Ascii String DecimalString DecimalPos DecimalZ.
From stdpp Require Import base option list strings gmap.

Local Open Scope string_scope.
Local Open Scope list_scope.
Local Open Scope Z_scope.

Set Warnings "-register-all".
Set Default Proof Using "Type".

(** ** Python values *)

(** What [json.loads] produces, and what a cell of a data frame holds.
    Object keys are strings.  A float is named by its [repr] text, which
    identifies it; [nan] is the float whose text is ["nan"]. *)
Inductive value :=
| VNone
| VBool (b : bool)
| VInt (z : Z)
| VFloat (repr : string)
| VStr (s : string)
| VList (l : list value)
| VDict (kvs : list (string * value)).

Definition NaN : value := VFloat "nan".

Definition type_name (v : value) : string :=
  match v with
  | VNone => "NoneType"
  | VBool _ => "bool"
  | VInt _ => "int"
  | VFloat _ => "float"
  | VStr _ => "str"
  | VList _ => "list"
  | VDict _ => "dict"
  end.

Definition isinstance_dict (v : value) : bool :=
  match v with VDict _ => true | _ => false end.

(** ** Strings *)

Definition str_of_Z (z : Z) : string := NilZero.string_of_int (Z.to_int z).

Fixpoint join (sep : string) (l : list string) : string :=
  match l with
  | [] => ""
  | [s] => s
  | s :: l' => s +:+ sep +:+ join sep l'
  end.

Fixpoint str_contains (c : ascii) (s : string) : bool :=
  match s with
  | EmptyString => false
  | String d s' => if Ascii.eqb c d then true else str_contains c s'
  end.

Definition hex_digit (n : N) : ascii :=
  if (n <? 10)%N then ascii_of_N (48 + n) else ascii_of_N (87 + n).

(** [repr] of a [str]: single quotes unless the text has a single quote and
    no double quote; backslash, the quote and control characters escaped.
    Bytes above 127 (the UTF-8 of printable characters) stay as they are; a
    character above 127 that is not printable, which [repr] escapes, is
    outside the model. *)
Fixpoint repr_chars (q : ascii) (s : string) : string :=
  match s with
  | EmptyString => EmptyString
  | String c s' =>
      let n := N_of_ascii c in
      (if Ascii.eqb c "\" then "\\"
       else if Ascii.eqb c q then String "\" (String q "")
       else if (n =? 10)%N then "\n"
       else if (n =? 13)%N then "\r"
       else if (n =? 9)%N then "\t"
       else if ((n <? 32) || (n =? 127))%N
            then "\x" +:+ String (hex_digit (n / 16)) (String (hex_digit (n mod 16)) "")
       else String c "") +:+ repr_chars q s'
  end.

Definition double_quote : ascii := ascii_of_nat 34.

Definition repr_str (s : string) : string :=
  let q : ascii := if str_contains "'" s && negb (str_contains double_quote s)
                   then double_quote else "'"%char in
  String q (repr_chars q s) +:+ String q "".

Fixpoint py_repr (v : value) : string :=
  match v with
  | VNone => "None"
  | VBool true => "True"
  | VBool false => "False"
  | VInt z => str_of_Z z
  | VFloat r => r
  | VStr s => repr_str s
  | VList l => "[" +:+ join ", " (map py_repr l) +:+ "]"
  | VDict kvs =>
      "{" +:+ join ", " (map (fun kv => repr_str (fst kv) +:+ ": " +:+ py_repr (snd kv)) kvs)
          +:+ "}"
  end.

(** The builtin [str]. *)
Definition py_str (v : value) : string :=
  match v with
  | VStr s => s
  | _ => py_repr v
  end.

(** [str.replace(old, new)]: every match of [old] found scanning from the
    left, the scan resuming after the end of each match.  [skip] counts the
    characters of the current match that are still to be dropped. *)
Fixpoint replace_from (old new : string) (skip : nat) (s : string) : string :=
  match s with
  | EmptyString => EmptyString
  | String c s' =>
      match skip with
      | S k => replace_from old new k s'
      | O =>
          if String.prefix old s
          then new +:+ replace_from old new (Nat.pred (String.length old)) s'
          else String c (replace_from old new O s')
      end
  end.

Fixpoint intersperse (new s : string) : string :=
  match s with
  | EmptyString => new
  | String c s' => new +:+ String c (intersperse new s')
  end.

Definition str_replace (old new s : string) : string :=
  match old with
  | EmptyString => intersperse new s
  | _ => replace_from old new O s
  end.

(** A decimal integer literal: digits, with an optional minus sign. *)
Definition int_literal (s : string) : option Z :=
  Z.of_int <$> NilZero.int_of_string s.

(** ** Exceptions and fallible code *)

Inductive exn_class :=
| AttributeError | TypeError | KeyError
| RequestException | HTTPError | JSONDecodeError
| FileNotFoundError | SpreadsheetNotFound | WorksheetNotFound
| RuntimeError.

(** An exception: its class and its [str].  [RequestException] stands for
    the failures of a request that has no response. *)
Record exn := Exn { exn_kind : exn_class; exn_msg : string }.

Inductive result (A : Type) :=
| Ok (a : A)
| Raise (e : exn).
Arguments Ok {A} a.
Arguments Raise {A} e.

#[global] Instance result_ret : MRet result := fun A a => Ok a.
#[global] Instance result_bind : MBind result := fun A B k m =>
  match m with
  | Ok a => k a
  | Raise e => Raise e
  end.

Definition no_attribute {A} (v : value) (attr : string) : result A :=
  Raise (Exn AttributeError
           ("'" +:+ type_name v +:+ "' object has no attribute '" +:+ attr +:+ "'")).

Definition not_iterable {A} (v : value) : result A :=
  Raise (Exn TypeError ("'" +:+ type_name v +:+ "' object is not iterable")).

(** ** Dictionaries *)

(** A decoded JSON object keeps the order of its keys, which [items()]
    follows. *)
Fixpoint dict_get {A} (k : string) (kvs : list (string * A)) : option A :=
  match kvs with
  | [] => None
  | (k', v) :: kvs' => if String.eqb k k' then Some v else dict_get k kvs'
  end.

(** [obj.get(k, dflt)] *)
Definition py_get (obj : value) (k : string) (dflt : value) : result value :=
  match obj with
  | VDict kvs => Ok (default dflt (dict_get k kvs))
  | _ => no_attribute obj "get"
  end.

(** [obj.items()] *)
Definition py_items (obj : value) : result (list (string * value)) :=
  match obj with
  | VDict kvs => Ok kvs
  | _ => no_attribute obj "items"
  end.

Fixpoint chars (s : string) : list value :=
  match s with
  | EmptyString => []
  | String c s' => VStr (String c "") :: chars s'
  end.

(** [for x in obj]: the elements the loop visits. *)
Definition py_iter (obj : value) : result (list value) :=
  match obj with
  | VList l => Ok l
  | VDict kvs => Ok (map (fun kv => VStr (fst kv)) kvs)
  | VStr s => Ok (chars s)
  | _ => not_iterable obj
  end.

(** A [for] loop whose body updates an accumulator and may raise. *)
Fixpoint for_each {A S} (l : list A) (body : A -> S -> result S) (s : S) : result S :=
  match l with
  | [] => Ok s
  | x :: l' => s' ← body x s; for_each l' body s'
  end.

(** ** The office map *)

Definition build_office_map (lst : value) : result (gmap string value) :=
  items ← py_iter lst;
  for_each items
    (fun item out =>
       if negb (isinstance_dict item) then Ok out
       else
         kvs ← py_items item;
         for_each kvs
           (fun kv out =>
              nm ← py_get (snd kv) "NM" (VStr "");
              Ok (<[py_str (VStr (fst kv)) := nm]> out))
           out)
    ∅.

(** ** Data frames *)

(** A [pandas.DataFrame] with the default range index: the number of rows and
    the labelled columns, in order.  A [Series] is the list of its values.
    A cell holds the Python value put into it; the dtype pandas infers for a
    column is not part of the model. *)
Record DataFrame := Frame { index : nat; columns : list (string * list value) }.

Abbreviation Series := (list value).

(** A row as the parsers build it: a dict from column label to cell. *)
Abbreviation record := (list (string * value)).

Definition add_label (acc : list string) (k : string) : list string :=
  if bool_decide (k ∈ acc) then acc else acc ++ [k].

(** Column labels of a list of records, in order of first appearance. *)
Definition labels (rows : list record) : list string :=
  foldl (fun acc r => foldl add_label acc (map fst r)) [] rows.

(** [pd.DataFrame(rows)] for a list of dicts; a label a row lacks gives a
    missing cell. *)
Definition DataFrame_records (rows : list record) : DataFrame :=
  Frame (length rows)
        (map (fun k => (k, map (fun r => default NaN (dict_get k r)) rows)) (labels rows)).

(** [pd.DataFrame(columns=names)] *)
Definition DataFrame_columns (names : list string) : DataFrame :=
  Frame 0 (map (fun k => (k, [])) names).

(** Reindexing a series to [n] rows: cut, or fill with missing cells. *)
Definition reindex (n : nat) (s : Series) : Series :=
  take n (s ++ replicate (n - length s) NaN).

(** [pd.DataFrame({label: series, ...})]: the union of the range indexes. *)
Definition DataFrame_dict (d : list (string * Series)) : DataFrame :=
  let n := foldr Nat.max O (map (fun c => length (snd c)) d) in
  Frame n (map (fun c => (fst c, reindex n (snd c))) d).

(** [df.empty]: one of the two axes has length 0. *)
Definition empty (df : DataFrame) : bool :=
  (index df =? 0)%nat || match columns df with [] => true | _ => false end.

(** [len(df)] *)
Definition len (df : DataFrame) : nat := index df.

(** [df[k]] *)
Definition getitem (df : DataFrame) (k : string) : result Series :=
  match dict_get k (columns df) with
  | Some s => Ok s
  | None => Raise (Exn KeyError (repr_str k))
  end.

Fixpoint dict_set {A} (k : string) (v : A) (kvs : list (string * A)) : list (string * A) :=
  match kvs with
  | [] => [(k, v)]
  | (k', v') :: kvs' =>
      if String.eqb k k' then (k, v) :: kvs' else (k', v') :: dict_set k v kvs'
  end.

(** [df[k] = s] for a series [s]: the series is aligned to the frame's index;
    a frame with no rows takes the index of a non-empty series. *)
Definition setitem (df : DataFrame) (k : string) (s : Series) : DataFrame :=
  let n := if (index df =? 0)%nat && negb (length s =? 0)%nat then length s else index df in
  Frame n (dict_set k (reindex n s) (map (fun c => (fst c, reindex n (snd c))) (columns df))).

(** [df[k] = v] for a scalar [v], repeated on every row. *)
Definition setitem_scalar (df : DataFrame) (k : string) (v : value) : DataFrame :=
  Frame (index df) (dict_set k (replicate (index df) v) (columns df)).

(** [s.astype(str)] *)
Definition astype_str (s : Series) : list string := map py_str s.

(** [s.str.replace(old, new)] on a series of strings *)
Definition series_str_replace (old new : string) (s : list string) : list string :=
  map (str_replace old new) s.

(** ** Numeric coercion *)

Definition INT64_MIN : Z := - 2 ^ 63.
Definition INT64_MAX : Z := 2 ^ 63 - 1.
Definition UINT64_MAX : Z := 2 ^ 64 - 1.

(** The float64 nearest to an integer, a tie going to the even mantissa.
    The float is given by the integer it equals. *)
Definition round_float64 (z : Z) : Z :=
  let a := Z.abs z in
  let sh := Z.log2 a - 52 in
  if sh <=? 0 then z
  else
    let q := Z.shiftr a sh in
    let r := Z.land a (Z.ones sh) in
    let half := Z.shiftl 1 (sh - 1) in
    let q' := if (half <? r) || ((r =? half) && Z.odd q) then q + 1 else q in
    Z.sgn z * Z.shiftl q' sh.

(** [repr] of the float64 that equals the integer [r], for a magnitude of at
    most 10^16, where [repr] turns to the exponent form. *)
Definition float_repr (r : Z) : string :=
  if Z.abs r =? 10 ^ 16 then (if r <? 0 then "-1e+16" else "1e+16")
  else str_of_Z r +:+ ".0".

(** The column stays a column of integers: every text is a decimal integer
    literal that fits 64 bits, signed or unsigned, and no value above the
    signed range comes with a negative one. *)
Definition integer_column (texts : list string) : bool :=
  forallb (fun s => match int_literal s with
                    | Some z => (INT64_MIN <=? z) && (z <=? UINT64_MAX)
                    | None => false
                    end) texts
  && negb (existsb (fun s => match int_literal s with
                             | Some z => INT64_MAX <? z
                             | None => false
                             end) texts
           && existsb (fun s => match int_literal s with
                                | Some z => z <? 0
                                | None => false
                                end) texts).

(** One cell of a column of integers. *)
Definition int_cell (s : string) : value :=
  match int_literal s with
  | Some z => VInt z
  | None => NaN
  end.

Section Scraper.

(** How the reader of [pandas.to_numeric] reads a text as a float64: the
    float it denotes, or [None] when the text is not numeric.  It is asked
    for a text that is no decimal integer literal (a decimal point, an
    exponent, padding, infinities) and, in a float column, for an integer
    literal of seventeen digits and more, with leading zeros or with a signed
    zero, where the rounding is the reader's own.  The library's reader is
    not part of this repository. *)
Variable read_float : string -> option value.

(** One cell of a float64 column: the float of the text, a missing value
    when the text is no number.  An integer written without leading zeros
    and below 10^16 is read digit by digit, which rounds once, to the
    nearest float64. *)
Definition float_cell (s : string) : value :=
  match int_literal s with
  | Some z =>
      if String.eqb s (str_of_Z z) && (Z.abs z <? 10 ^ 16)
      then VFloat (float_repr (round_float64 z))
      else default NaN (read_float s)
  | None => default NaN (read_float s)
  end.

(** [pd.to_numeric(s, errors="coerce")] on a series of strings: the column
    gets one dtype.  It holds the integers when every text is one that fits;
    a text that is a float or no number at all, or an integer out of range,
    makes it a float64 column, in which the integers are floats too. *)
Definition to_numeric_coerce (s : list string) : Series :=
  if integer_column s then map int_cell s else map float_cell s.

(** The cleaning both parsers apply to a column:
    [pd.to_numeric(df[c].astype(str).str.replace(",", ""), errors="coerce")] *)
Definition clean_numeric (s : Series) : Series :=
  to_numeric_coerce (series_str_replace "," "" (astype_str s)).

(** [obj.get]: the attribute lookup alone, which comes before the arguments
    of the call are evaluated. *)
Definition get_method (obj : value) : result unit :=
  match obj with
  | VDict _ => Ok tt
  | _ => no_attribute obj "get"
  end.

(** ** The normaliser *)

Definition parse_results (lookup election : value) : result DataFrame :=
  towns ← py_get lookup "townIds" (VDict []);
  parties ← py_get lookup "partyIds" (VDict []);
  candidates ← py_get lookup "candidateIds" (VDict []);
  office_list ← py_get lookup "officeList" (VList []);
  offices ← build_office_map office_list;
  town_votes ← py_get election "townVotes" (VDict []);
  tv ← py_items town_votes;
  rows ← for_each tv (fun '(tid, contests) rows =>
    cs ← py_items contests;
    for_each cs (fun '(oid, cands) rows =>
      es ← py_iter cands;
      for_each es (fun entry rows =>
        kvs ← py_items entry;
        for_each kvs (fun '(cid, vals) rows =>
          cmeta ← py_get candidates (py_str (VStr cid)) (VDict []);
          _ ← get_method parties;
          p ← py_get cmeta "P" (VStr "");
          prec ← py_get parties (py_str p) (VDict []);
          pname ← py_get prec "NM" (VStr "");
          town_name ← py_get towns (py_str (VStr tid)) (VStr "");
          let office_name := default (VStr "") (offices !! py_str (VStr oid)) in
          candidate_name ← py_get cmeta "NM" (VStr "");
          votes ← py_get vals "V" (VStr "");
          percent ← py_get vals "TO" (VStr "");
          Ok (rows ++ [[("town_name", town_name);
                        ("office_name", office_name);
                        ("candidate_name", candidate_name);
                        ("party", pname);
                        ("votes", votes);
                        ("percent", percent);
                        ("town_id", VStr tid);
                        ("office_id", VStr oid);
                        ("candidate_id", VStr cid)]]))
        rows) rows) rows) [];
  let df := DataFrame_records rows in
  if negb (empty df) then
    votes ← getitem df "votes";
    Ok (setitem df "votes" (clean_numeric votes))
  else Ok df.

Definition parse_turnout (election : value) : result DataFrame :=
  vt ← py_get election "voterTurnout" (VDict []);
  town_status ← py_get election "townStatus" (VDict []);
  tvs ← py_items vt;
  rows ← for_each tvs (fun '(tid, d) rows =>
    status ← py_get town_status (py_str (VStr tid)) (VDict []);
    precincts_reported ← py_get status "PR" (VStr "");
    town_name ← py_get d "NM" (VStr "");
    electors ← py_get d "EV" (VStr "");
    votes_cast ← py_get d "VV" (VStr "");
    turnout_percent ← py_get d "TO" (VStr "");
    Ok (rows ++ [[("town_id", VStr tid);
                  ("town_name", town_name);
                  ("precincts_reported", precincts_reported);
                  ("electors", electors);
                  ("votes_cast", votes_cast);
                  ("turnout_percent", turnout_percent)]])) [];
  let df := DataFrame_records rows in
  if negb (empty df) then
    for_each ["electors"; "votes_cast"] (fun c df =>
      col ← getitem df c;
      Ok (setitem df c (clean_numeric col))) df
  else Ok df.

End Scraper.

(** ** The store *)

(** The part of the world a run reads and changes: the data frame objects
    (a reference is an address in [heap]), the URLs requested so far, the
    destination spreadsheet (a worksheet is blank or holds the table last
    written to it) and the lines printed. *)
Record world := World {
  heap : list DataFrame;
  requests : list string;
  workbook : option (list (string * option DataFrame));
  stdout : list string;
}.

(** A reference to a data frame: its address in the heap. *)
Definition ref := nat.

(** Code that reads and changes the world and may raise. *)
Definition M (A : Type) : Type := world -> result A * world.

#[global] Instance M_ret : MRet M := fun A a w => (Ok a, w).
#[global] Instance M_bind : MBind M := fun A B k m w =>
  match m w with
  | (Ok a, w') => k a w'
  | (Raise e, w') => (Raise e, w')
  end.

Definition lift {A} (r : result A) : M A := fun w => (r, w).

Definition set_heap (h : list DataFrame) (w : world) : world :=
  World h (requests w) (workbook w) (stdout w).

(** A new object. *)
Definition new (df : DataFrame) : M ref :=
  fun w => (Ok (length (heap w)), set_heap (heap w ++ [df]) w).

(** The object at an address.  Addresses come from [new], so the lookup
    succeeds in every run; the default is never read. *)
Definition deref (r : ref) : M DataFrame :=
  fun w => (Ok (default (Frame 0 []) (heap w !! r)), w).

(** Mutation in place: the object at the address is replaced. *)
Definition assign (r : ref) (df : DataFrame) : M unit :=
  fun w => (Ok tt, set_heap (<[r := df]> (heap w)) w).

(** [df.copy()] *)
Definition copy (r : ref) : M ref := d ← deref r; new d.

Definition getitem_ref (r : ref) (k : string) : M Series :=
  d ← deref r; lift (getitem d k).

Definition setitem_ref (r : ref) (k : string) (s : Series) : M unit :=
  d ← deref r; assign r (setitem d k s).

Definition setitem_scalar_ref (r : ref) (k : string) (v : value) : M unit :=
  d ← deref r; assign r (setitem_scalar d k v).

Fixpoint for_M {A} (l : list A) (body : A -> M unit) : M unit :=
  match l with
  | [] => mret tt
  | x :: l' => _ ← body x; for_M l' body
  end.

(** ** The Spanish views *)

Definition PARTY_ES : list (string * string) :=
  [("Democratic Party", "Partido Demócrata");
   ("Republican Party", "Partido Republicano");
   ("Working Families Party", "Partido de Familias Trabajadoras");
   ("Green Party", "Partido Verde");
   ("Independent Party", "Partido Independiente");
   ("Write In", "Candidato por escrito");
   ("Petitioning Candidate", "Candidato por petición");
   ("Conservative Party", "Partido Conservador")].

(** [lambda x: PARTY_ES.get(x, x)]: a list or a dict cannot be hashed; a key
    that is not a string equals no key of the table. *)
Definition party_es (x : value) : result value :=
  match x with
  | VStr s => Ok (VStr (default s (dict_get s PARTY_ES)))
  | VList _ | VDict _ => Raise (Exn TypeError ("unhashable type: '" +:+ type_name x +:+ "'"))
  | _ => Ok x
  end.

(** [s.map(f)] *)
Fixpoint series_map (f : value -> result value) (s : Series) : result Series :=
  match s with
  | [] => Ok []
  | x :: s' => y ← f x; ys ← series_map f s'; Ok (y :: ys)
  end.

Definition to_es_results (df : ref) : M ref :=
  d ← deref df;
  if empty d then
    new (DataFrame_columns ["Ciudad"; "Cargo"; "Candidato"; "Partido"; "Votos"; "Porcentaje"])
  else
    df2 ← copy df;
    party ← getitem_ref df2 "party";
    party' ← lift (series_map party_es party);
    _ ← setitem_ref df2 "party" party';
    town_name ← getitem_ref df2 "town_name";
    office_name ← getitem_ref df2 "office_name";
    candidate_name ← getitem_ref df2 "candidate_name";
    party ← getitem_ref df2 "party";
    votes ← getitem_ref df2 "votes";
    percent ← getitem_ref df2 "percent";
    new (DataFrame_dict [("Ciudad", town_name);
                         ("Cargo", office_name);
                         ("Candidato", candidate_name);
                         ("Partido", party);
                         ("Votos", votes);
                         ("Porcentaje", percent)]).

Definition to_es_turnout (df : ref) : M ref :=
  d ← deref df;
  if empty d then
    new (DataFrame_columns ["Ciudad"; "Precintos reportados"; "Habilitados"; "Votantes";
                            "% Participación"])
  else
    df2 ← copy df;
    precincts ← getitem_ref df2 "precincts_reported";
    _ ← setitem_ref df2 "Precintos reportados"
          (map VStr (series_str_replace " of " " de " (astype_str precincts)));
    town_name ← getitem_ref df2 "town_name";
    precintos ← getitem_ref df2 "Precintos reportados";
    electors ← getitem_ref df2 "electors";
    votes_cast ← getitem_ref df2 "votes_cast";
    turnout_percent ← getitem_ref df2 "turnout_percent";
    new (DataFrame_dict [("Ciudad", town_name);
                         ("Precintos reportados", precintos);
                         ("Habilitados", electors);
                         ("Votantes", votes_cast);
                         ("% Participación", turnout_percent)]).

(** ** Configuration *)

Definition ELECTION_ID : Z := 97.
Definition SERVICE_ACCOUNT_FILE : string := "credentials.json".
Definition SHEET_NAME : string := "municipal-elections-2025-angela".
Definition BASE : string := "https://ctemsmedia.tgstg.net/ng-app/data/election".
Definition TABS : list (string * string) :=
  [("Results_EN", "Results_EN");
   ("Turnout_EN", "Turnout_EN");
   ("Results_ES", "Results_ES");
   ("Turnout_ES", "Turnout_ES")].

(** [TABS[k]] *)
Definition tab (k : string) : result string :=
  match dict_get k TABS with
  | Some v => Ok v
  | None => Raise (Exn KeyError (repr_str k))
  end.

(** ** The fetcher *)

(** What one HTTP request comes to: no response at all (a failed
    connection, a timeout), or a response with its status line and a body
    that decodes to a JSON document ([inr]) or fails to decode ([inl], the
    decoder's message).  Without a response [requests] raises one of the
    subclasses of its [RequestException] ([ConnectionError], [ReadTimeout],
    ...), none of them an [HTTPError]; which one is not modelled. *)
Inductive response :=
| NoResponse (msg : string)
| Response (status : Z) (reason : string) (body : string + value).

(** [try: body except cls: handler] *)
Definition try_except {A} (body : M A) (catches : exn -> bool) (handler : exn -> M A) : M A :=
  fun w =>
    match body w with
    | (Raise e, w') => if catches e then handler e w' else (Raise e, w')
    | ok => ok
    end.

Definition is_HTTPError (e : exn) : bool :=
  match exn_kind e with HTTPError => true | _ => false end.

(** Every class of [exn_class] derives from [Exception]. *)
Definition is_Exception (e : exn) : bool := true.

(** [format(n, ",")] for a length. *)
Fixpoint group3 (digits : list ascii) (k : nat) : list ascii :=
  match digits with
  | [] => []
  | d :: ds =>
      match k with
      | O => match ds with
             | [] => [d]
             | _ => d :: ","%char :: group3 ds 2
             end
      | S k' => d :: group3 ds k'
      end
  end.

Definition format_thousands (n : nat) : string :=
  string_of_list_ascii
    (rev (group3 (rev (list_ascii_of_string (str_of_Z (Z.of_nat n)))) 2)).

Section Run.

Variable read_float : string -> option value.

(** The server: the response to the [n]-th request of the run, by URL. *)
Variable http : nat -> string -> response.

(** [pd.Timestamp.utcnow().isoformat(timespec="seconds")] *)
Variable utcnow : string.

(** Whether the service account file can be read. *)
Variable service_account : bool.

(** [r.raise_for_status()]: an [HTTPError] for a 4xx or 5xx status. *)
Definition raise_for_status (url : string) (status : Z) (reason : string) : result unit :=
  if (400 <=? status) && (status <? 500) then
    Raise (Exn HTTPError
             (str_of_Z status +:+ " Client Error: " +:+ reason +:+ " for url: " +:+ url))
  else if (500 <=? status) && (status <? 600) then
    Raise (Exn HTTPError
             (str_of_Z status +:+ " Server Error: " +:+ reason +:+ " for url: " +:+ url))
  else Ok tt.

(** One request: the URL is logged, the response of the server is the one
    for this request number. *)
Definition get_json (url : string) : M value :=
  fun w =>
    let w' := World (heap w) (requests w ++ [url]) (workbook w) (stdout w) in
    match http (length (requests w)) url with
    | NoResponse msg => (Raise (Exn RequestException msg), w')
    | Response status reason body =>
        (_ ← raise_for_status url status reason;
         match body with
         | inr doc => Ok doc
         | inl msg => Raise (Exn JSONDecodeError msg)
         end, w')
    end.

Definition fetch_lookup_election (eid : Z) : M (value * value * value) :=
  try_except
    (vdoc ← get_json (BASE +:+ "/" +:+ str_of_Z eid +:+ "/Version.json");
     ver ← lift (py_get vdoc "Version" VNone);
     try_except
       (lookup ← get_json (BASE +:+ "/" +:+ str_of_Z eid +:+ "/Lookup.json");
        election ← get_json (BASE +:+ "/" +:+ str_of_Z eid +:+ "/Election.json");
        mret (lookup, election, ver))
       is_HTTPError
       (fun _ =>
          lookup ← get_json (BASE +:+ "/" +:+ str_of_Z eid +:+ "/" +:+ py_str ver
                               +:+ "/Lookupdata.json");
          election ← get_json (BASE +:+ "/" +:+ str_of_Z eid +:+ "/" +:+ py_str ver
                                 +:+ "/Electiondata.json");
          mret (lookup, election, ver)))
    is_Exception
    (fun e =>
       lift (Raise (Exn RuntimeError
                      ("Could not fetch election " +:+ str_of_Z eid +:+ ": " +:+ exn_msg e)))).

(** ** The publisher *)

Definition set_workbook (b : option (list (string * option DataFrame))) (w : world) : world :=
  World (heap w) (requests w) b (stdout w).

(** [sh.worksheet(name)] *)
Definition worksheet (name : string) : M string :=
  fun w =>
    match dict_get name (default [] (workbook w)) with
    | Some _ => (Ok name, w)
    | None => (Raise (Exn WorksheetNotFound name), w)
    end.

Definition set_sheet (name : string) (content : option DataFrame) : M unit :=
  fun w => (Ok tt, set_workbook (Some (dict_set name content (default [] (workbook w)))) w).

Definition is_WorksheetNotFound (e : exn) : bool :=
  match exn_kind e with WorksheetNotFound => true | _ => false end.

Definition is_SpreadsheetNotFound (e : exn) : bool :=
  match exn_kind e with SpreadsheetNotFound => true | _ => false end.

Definition ensure_ws (name : string) : M string :=
  try_except
    (ws ← worksheet name;
     _ ← set_sheet ws None;
     mret ws)
    is_WorksheetNotFound
    (fun _ => _ ← set_sheet name None; mret name).

(** [set_with_dataframe(ws, df)] stores the table as it is at that moment. *)
Definition write_df (name : string) (df : ref) : M unit :=
  ws ← ensure_ws name;
  d ← deref df;
  set_sheet ws (Some d).

Definition from_service_account_file : M unit :=
  lift (if service_account then Ok tt
        else Raise (Exn FileNotFoundError
                      ("[Errno 2] No such file or directory: " +:+ repr_str SERVICE_ACCOUNT_FILE))).

(** [gc.open(SHEET_NAME)] *)
Definition open_sheet : M unit :=
  fun w =>
    match workbook w with
    | Some _ => (Ok tt, w)
    | None => (Raise (Exn SpreadsheetNotFound ""), w)
    end.

(** [gc.create(SHEET_NAME)]: a new spreadsheet has one blank worksheet. *)
Definition create_sheet : M unit :=
  fun w => (Ok tt, set_workbook (Some [("Sheet1", None)]) w).

Definition print (line : string) : M unit :=
  fun w => (Ok tt, World (heap w) (requests w) (workbook w) (stdout w ++ [line])).

(** ** The run *)

(** The version is the scalar the version marker holds; written into a
    column it is repeated on every row, as the other two values are. *)
Definition main : M unit :=
  '(lookup, election, ver) ← fetch_lookup_election ELECTION_ID;
  df_res ← (d ← lift (parse_results read_float lookup election); new d);
  df_turn ← (d ← lift (parse_turnout read_float election); new d);
  df_res_es ← to_es_results df_res;
  df_turn_es ← to_es_turnout df_turn;
  let meta := [("election_id", VInt ELECTION_ID);
               ("version", ver);
               ("scraped_at", VStr utcnow)] in
  _ ← for_M [df_res; df_turn; df_res_es; df_turn_es] (fun df =>
        for_M meta (fun kv => setitem_scalar_ref df (fst kv) (snd kv)));
  _ ← from_service_account_file;
  _ ← try_except open_sheet is_SpreadsheetNotFound (fun _ => create_sheet);
  t ← lift (tab "Results_EN"); _ ← write_df t df_res;
  t ← lift (tab "Turnout_EN"); _ ← write_df t df_turn;
  t ← lift (tab "Results_ES"); _ ← write_df t df_res_es;
  t ← lift (tab "Turnout_ES"); _ ← write_df t df_turn_es;
  _ ← print ("✅ Election " +:+ str_of_Z ELECTION_ID +:+ ", version " +:+ py_str ver);
  d_res ← deref df_res;
  d_turn ← deref df_turn;
  _ ← print ("Results_EN " +:+ format_thousands (len d_res) +:+ " rows  Turnout_EN "
               +:+ format_thousands (len d_turn) +:+ " rows");
  print ("Wrote to " +:+ SHEET_NAME).

End Run.

(** * Specification vocabulary *)

(** The definitions the properties below are stated with: the documents of
    the data model and their JSON, the rows and tables the parsers are
    compared with, the steps of the Spanish views, the shapes of tables, the
    outcomes of requests, and the sample inputs. *)

(** ** Office lists *)

(** The items of a dict, no item for another value. *)
Definition dict_items (v : value) : list (string * value) :=
  match v with VDict kvs => kvs | _ => [] end.

(** The (identifier, record) pairs of an office list, in the order the
    merge meets them. *)
Definition office_entries (l : list value) : list (string * value) :=
  flat_map dict_items l.

(** The display name of an office record, the empty string when it has none. *)
Definition office_name (v : value) : value :=
  match v with VDict r => default (VStr "") (dict_get "NM" r) | _ => VStr "" end.

(** One assignment [out[k] = name]. *)
Definition office_step (m : gmap string value) (kv : string * value) : gmap string value :=
  <[kv.1 := office_name kv.2]> m.

(** The body of the outer loop of [build_office_map]. *)
Definition office_body (item : value) (out : gmap string value) : result (gmap string value) :=
  if negb (isinstance_dict item) then Ok out
  else
    kvs ← py_items item;
    for_each kvs
      (fun kv out => nm ← py_get (snd kv) "NM" (VStr ""); Ok (<[py_str (VStr (fst kv)) := nm]> out))
      out.

(** ** The documents of the data model *)

(** The lookup document: town names, party and candidate records, and the
    office list, a sequence of mappings from office identifier to record. *)
Record LookupDocument := {
  townIds : list (string * value);
  partyIds : list (string * record);
  candidateIds : list (string * record);
  officeList : list (list (string * record));
}.

(** The election document: per town and office a sequence of mappings from
    candidate identifier to tally record; the turnout records; the status
    records. *)
Record ElectionDocument := {
  townVotes : list (string * list (string * list (list (string * record))));
  voterTurnout : list (string * record);
  townStatus : list (string * record);
}.

(** The decoded JSON of a mapping from identifier to record. *)
Definition records_json (d : list (string * record)) : value :=
  VDict (map (fun kv => (kv.1, VDict kv.2)) d).

Definition lookup_json (L : LookupDocument) : value :=
  VDict [("townIds", VDict (townIds L));
         ("partyIds", records_json (partyIds L));
         ("candidateIds", records_json (candidateIds L));
         ("officeList", VList (map records_json (officeList L)))].

Definition contests_json (cs : list (string * list (list (string * record)))) : value :=
  VDict (map (fun oc => (oc.1, VList (map records_json oc.2))) cs).

Definition election_json (E : ElectionDocument) : value :=
  VDict [("townVotes", VDict (map (fun tc => (tc.1, contests_json tc.2)) (townVotes E)));
         ("voterTurnout", records_json (voterTurnout E));
         ("townStatus", records_json (townStatus E))].

(** ** Resolution *)

(** A field of a record, the empty string when the record lacks it. *)
Definition field (k : string) (r : record) : value := default (VStr "") (dict_get k r).

(** The record an identifier resolves to, the empty record on a miss. *)
Definition resolve (id : string) (d : list (string * record)) : record :=
  default [] (dict_get id d).

(** The merged office map of a lookup document. *)
Definition office_map (L : LookupDocument) : gmap string value :=
  foldl office_step ∅ (office_entries (map records_json (officeList L))).

(** The candidate-tally entries of an election document: every town, every
    office under it, every element of its candidate sequence, every
    (candidate, tally) pair of that element. *)
Definition tallies (E : ElectionDocument) : list (string * string * string * record) :=
  flat_map (fun tc =>
    flat_map (fun oc =>
      flat_map (fun entry => map (fun ct => (tc.1, oc.1, ct.1, ct.2)) entry) oc.2) tc.2)
    (townVotes E).

(** The elements of the candidate sequences. *)
Definition tally_entries (E : ElectionDocument) : list (list (string * record)) :=
  flat_map (fun tc => flat_map (fun oc => oc.2) tc.2) (townVotes E).

(** The row of one tally, by resolution through the lookup document. *)
Definition result_record (L : LookupDocument) (t : string * string * string * record) : record :=
  let '(tid, oid, cid, tally) := t in
  [("town_name", default (VStr "") (dict_get tid (townIds L)));
   ("office_name", default (VStr "") (office_map L !! oid));
   ("candidate_name", field "NM" (resolve cid (candidateIds L)));
   ("party", field "NM" (resolve (py_str (field "P" (resolve cid (candidateIds L))))
                                 (partyIds L)));
   ("votes", field "V" tally);
   ("percent", field "TO" tally);
   ("town_id", VStr tid);
   ("office_id", VStr oid);
   ("candidate_id", VStr cid)].

(** The turnout row of one town: the precincts-reported field comes from the
    status record the town resolves to. *)
Definition turnout_record (E : ElectionDocument) (td : string * record) : record :=
  [("town_id", VStr td.1);
   ("town_name", field "NM" td.2);
   ("precincts_reported", field "PR" (resolve td.1 (townStatus E)));
   ("electors", field "EV" td.2);
   ("votes_cast", field "VV" td.2);
   ("turnout_percent", field "TO" td.2)].

(** ** Tables *)

(** The cells a list of rows has under one label. *)
Definition column (k : string) (rows : list record) : Series :=
  map (fun r => default NaN (dict_get k r)) rows.

(** The text of a cell that the numeric reader is given: [str], commas
    removed. *)
Definition cleaned_text (v : value) : string := str_replace "," "" (py_str v).



Definition result_labels : list string :=
  ["town_name"; "office_name"; "candidate_name"; "party"; "votes"; "percent";
   "town_id"; "office_id"; "candidate_id"].

Definition turnout_labels : list string :=
  ["town_id"; "town_name"; "precincts_reported"; "electors"; "votes_cast"; "turnout_percent"].

(** The results table of a list of rows: no columns at all when there is no
    row, else the nine columns with the vote counts cleaned. *)
Definition results_table (read_float : string -> option value) (rows : list record)
  : DataFrame :=
  match rows with
  | [] => Frame 0 []
  | _ =>
      Frame (length rows)
        [("town_name", column "town_name" rows);
         ("office_name", column "office_name" rows);
         ("candidate_name", column "candidate_name" rows);
         ("party", column "party" rows);
         ("votes", clean_numeric read_float (column "votes" rows));
         ("percent", column "percent" rows);
         ("town_id", column "town_id" rows);
         ("office_id", column "office_id" rows);
         ("candidate_id", column "candidate_id" rows)]
  end.

(** The turnout table of a list of rows: electors and votes cast cleaned. *)
Definition turnout_table (read_float : string -> option value) (rows : list record)
  : DataFrame :=
  match rows with
  | [] => Frame 0 []
  | _ =>
      Frame (length rows)
        [("town_id", column "town_id" rows);
         ("town_name", column "town_name" rows);
         ("precincts_reported", column "precincts_reported" rows);
         ("electors", clean_numeric read_float (column "electors" rows));
         ("votes_cast", clean_numeric read_float (column "votes_cast" rows));
         ("turnout_percent", column "turnout_percent" rows)]
  end.

(** Every column has one cell per row. *)
Definition well_formed (df : DataFrame) : Prop :=
  Forall (fun c => length c.2 = index df) (columns df).

Definition aligned (d : DataFrame) : bool :=
  forallb (fun c => (length c.2 =? index d)%nat) (columns d).

Definition has_column (k : string) (d : DataFrame) : bool :=
  match dict_get k (columns d) with Some _ => true | None => false end.

(** A value [dict.get] accepts as a key. *)
Definition hashable (v : value) : bool :=
  match v with VList _ | VDict _ => false | _ => true end.

(** An English results table with at least one row: columns as long as the
    index, the six columns the Spanish view reads, party cells that are
    scalars. *)
Definition is_results_table (d : DataFrame) : bool :=
  negb (index d =? 0)%nat && aligned d
  && forallb (fun k => has_column k d)
       ["town_name"; "office_name"; "candidate_name"; "party"; "votes"; "percent"]
  && forallb hashable (default [] (dict_get "party" (columns d))).

(** An English turnout table with at least one row. *)
Definition is_turnout_table (d : DataFrame) : bool :=
  negb (index d =? 0)%nat && aligned d
  && forallb (fun k => has_column k d)
       ["town_name"; "precincts_reported"; "electors"; "votes_cast"; "turnout_percent"].

(** [d'] is a Spanish view of the results table [d]: as many rows, and, when
    [d] has rows, the relabelled columns cell for cell, with one Partido
    cell per party cell. *)
Definition results_view_of (d d' : DataFrame) : Prop :=
  len d' = len d
  /\ (is_results_table d = true ->
      getitem d' "Ciudad" = getitem d "town_name"
      /\ getitem d' "Cargo" = getitem d "office_name"
      /\ getitem d' "Candidato" = getitem d "candidate_name"
      /\ getitem d' "Votos" = getitem d "votes"
      /\ getitem d' "Porcentaje" = getitem d "percent"
      /\ exists party partido,
           getitem d "party" = Ok party
           /\ getitem d' "Partido" = Ok partido
           /\ length partido = length party).

(** [d'] is a Spanish view of the turnout table [d]. *)
Definition turnout_view_of (d d' : DataFrame) : Prop :=
  len d' = len d
  /\ (is_turnout_table d = true ->
      getitem d' "Ciudad" = getitem d "town_name"
      /\ getitem d' "Habilitados" = getitem d "electors"
      /\ getitem d' "Votantes" = getitem d "votes_cast"
      /\ getitem d' "% Participación" = getitem d "turnout_percent"
      /\ exists precincts precintos,
           getitem d "precincts_reported" = Ok precincts
           /\ getitem d' "Precintos reportados" = Ok precintos
           /\ length precintos = length precincts).

(** ** The Spanish views, step by step *)

(** The frame a reference denotes. *)
Definition frame_at (w : world) (r : ref) : DataFrame := default (Frame 0 []) (heap w !! r).

(** The translation of one party cell. *)
Definition party_name_es (x : value) : value :=
  match x with
  | VStr s => VStr (default s (dict_get s PARTY_ES))
  | _ => x
  end.

(** The two steps of [to_es_results] on the copy: translating the party
    column, then collecting the six relabelled columns. *)
Definition translate_party (d : DataFrame) : result DataFrame :=
  party ← getitem d "party";
  party' ← series_map party_es party;
  Ok (setitem d "party" party').

Definition es_results_view (d2 : DataFrame) : result DataFrame :=
  town_name ← getitem d2 "town_name";
  office_name ← getitem d2 "office_name";
  candidate_name ← getitem d2 "candidate_name";
  party ← getitem d2 "party";
  votes ← getitem d2 "votes";
  percent ← getitem d2 "percent";
  Ok (DataFrame_dict [("Ciudad", town_name);
                      ("Cargo", office_name);
                      ("Candidato", candidate_name);
                      ("Partido", party);
                      ("Votos", votes);
                      ("Porcentaje", percent)]).

(** The Spanish text of one precincts-reported cell. *)
Definition es_precincts (v : value) : value :=
  VStr (str_replace " of " " de " (py_str v)).

(** The two steps of [to_es_turnout] on the copy. *)
Definition localize_precincts (d : DataFrame) : result DataFrame :=
  precincts ← getitem d "precincts_reported";
  Ok (setitem d "Precintos reportados" (map es_precincts precincts)).

Definition es_turnout_view (d2 : DataFrame) : result DataFrame :=
  town_name ← getitem d2 "town_name";
  precintos ← getitem d2 "Precintos reportados";
  electors ← getitem d2 "electors";
  votes_cast ← getitem d2 "votes_cast";
  turnout_percent ← getitem d2 "turnout_percent";
  Ok (DataFrame_dict [("Ciudad", town_name);
                      ("Precintos reportados", precintos);
                      ("Habilitados", electors);
                      ("Votantes", votes_cast);
                      ("% Participación", turnout_percent)]).

(** ** Strings *)

(** [p] occurs in [s]. *)
Definition occurs (p s : string) : Prop := exists a b, s = a +:+ p +:+ b.


(** ** Requests *)

Definition version_url (eid : Z) : string :=
  BASE +:+ "/" +:+ str_of_Z eid +:+ "/Version.json".
Definition lookup_url (eid : Z) : string :=
  BASE +:+ "/" +:+ str_of_Z eid +:+ "/Lookup.json".
Definition election_url (eid : Z) : string :=
  BASE +:+ "/" +:+ str_of_Z eid +:+ "/Election.json".
Definition versioned_lookup_url (eid : Z) (ver : value) : string :=
  BASE +:+ "/" +:+ str_of_Z eid +:+ "/" +:+ py_str ver +:+ "/Lookupdata.json".
Definition versioned_election_url (eid : Z) (ver : value) : string :=
  BASE +:+ "/" +:+ str_of_Z eid +:+ "/" +:+ py_str ver +:+ "/Electiondata.json".

(** The world after further requests. *)
Definition add_requests (urls : list string) (w : world) : world :=
  World (heap w) (requests w ++ urls) (workbook w) (stdout w).

(** The error the outer handler raises for a cause. *)
Definition fetch_error (eid : Z) (cause : exn) : exn :=
  Exn RuntimeError ("Could not fetch election " +:+ str_of_Z eid +:+ ": " +:+ exn_msg cause).

(** The response is an HTTP error: a status that [raise_for_status] rejects. *)
Definition http_failure (r : response) : bool :=
  match r with
  | Response status _ _ => (400 <=? status) && (status <? 600)
  | NoResponse _ => false
  end.

(** The document a response delivers, if it is a valid one. *)
Definition document (r : response) : option value :=
  match r with
  | Response status _ (inr doc) => if (400 <=? status) && (status <? 600) then None else Some doc
  | _ => None
  end.

Section FetchVocabulary.

Variable http : nat -> string -> response.

(** What [get_json] returns for the [n]-th request. *)
Definition get_json_result (n : nat) (url : string) : result value :=
  match http n url with
  | NoResponse msg => Raise (Exn RequestException msg)
  | Response status reason body =>
      _ ← raise_for_status url status reason;
      match body with
      | inr doc => Ok doc
      | inl msg => Raise (Exn JSONDecodeError msg)
      end
  end.

(** The retry on the version-qualified path, as the [k]-th and next request. *)
Definition versioned_retry (eid : Z) (ver : value) (k : nat) (done_ : list string)
    (w : world) : result (value * value * value) * world :=
  match get_json_result k (versioned_lookup_url eid ver) with
  | Raise e => (Raise (fetch_error eid e), add_requests (done_ ++ [versioned_lookup_url eid ver]) w)
  | Ok lookup =>
      match get_json_result (S k) (versioned_election_url eid ver) with
      | Raise e =>
          (Raise (fetch_error eid e),
           add_requests (done_ ++ [versioned_lookup_url eid ver;
                                   versioned_election_url eid ver]) w)
      | Ok election =>
          (Ok (lookup, election, ver),
           add_requests (done_ ++ [versioned_lookup_url eid ver;
                                   versioned_election_url eid ver]) w)
      end
  end.

End FetchVocabulary.

(** ** Sample inputs *)

Module Samples.

Definition mayor_entry : value := VDict [("10", VDict [("NM", VStr "Mayor")])].
Definition clerk_entry : value := VDict [("20", VDict [("NM", VStr "Clerk")])].
Definition mayor_renamed : value := VDict [("10", VDict [("NM", VStr "First Selectman")])].

(** The input of the worked example. *)
Definition example_lookup : value :=
  VDict [("townIds", VDict [("5", VStr "Hartford")]);
         ("officeList", VList [VDict [("10", VDict [("NM", VStr "Mayor")])]]);
         ("candidateIds", VDict [("100", VDict [("NM", VStr "Jane Doe"); ("P", VStr "1")])]);
         ("partyIds", VDict [("1", VDict [("NM", VStr "Democratic Party")])])].

Definition example_election : value :=
  VDict [("townVotes",
          VDict [("5", VDict [("10", VList [VDict [("100", VDict [("V", VStr "1,234");
                                                                 ("TO", VStr "55%")])]])])])].

(** The same election as documents of the data model, with a second town
    whose identifiers resolve to nothing. *)
Definition hartford_lookup : LookupDocument :=
  {| townIds := [("5", VStr "Hartford")];
     partyIds := [("1", [("NM", VStr "Democratic Party")])];
     candidateIds := [("100", [("NM", VStr "Jane Doe"); ("P", VStr "1")])];
     officeList := [[("10", [("NM", VStr "Mayor")])]] |}.

Definition hartford_election : ElectionDocument :=
  {| townVotes :=
       [("5", [("10", [[("100", [("V", VStr "1,234"); ("TO", VStr "55%")])]])]);
        ("6", [("11", [[("101", [("V", VStr "n/a")])]])])];
     voterTurnout :=
       [("5", [("NM", VStr "Hartford"); ("EV", VStr "12,345"); ("VV", VStr "6,789");
               ("TO", VStr "55%")]);
        ("6", [("NM", VStr "Avon"); ("EV", VStr "unknown"); ("VV", VStr "10")])];
     townStatus := [("5", [("PR", VStr "3 of 5")])] |}.

(** The English tables of the Hartford election, as the parsers build them. *)
Definition hartford_results : DataFrame :=
  Eval vm_compute in
    results_table (fun _ => None) (map (result_record hartford_lookup) (tallies hartford_election)).

Definition hartford_turnout : DataFrame :=
  Eval vm_compute in
    turnout_table (fun _ => None)
      (map (turnout_record hartford_election) (voterTurnout hartford_election)).

Definition new_world : world := World [] [] None [].

Definition hartford_world : world := World [hartford_results; hartford_turnout] [] None [].

(** A turnout table with a precincts text in which two matches would share
    a space. *)
Definition overlapping_turnout : DataFrame :=
  Frame 1 [("town_id", [VStr "5"]);
           ("town_name", [VStr "Hartford"]);
           ("precincts_reported", [VStr "3 of of 5"]);
           ("electors", [VInt 10]);
           ("votes_cast", [VInt 5]);
           ("turnout_percent", [VStr "50%"])].

(** A server after the election was finalised: the unversioned documents are
    gone, the versioned ones are served. *)
Definition finalized_server (n : nat) (url : string) : response :=
  if String.eqb url "https://ctemsmedia.tgstg.net/ng-app/data/election/97/Version.json"
  then Response 200 "OK" (inr (VDict [("Version", VStr "v7")]))
  else if String.eqb url
            "https://ctemsmedia.tgstg.net/ng-app/data/election/97/v7/Lookupdata.json"
  then Response 200 "OK" (inr (lookup_json hartford_lookup))
  else if String.eqb url
            "https://ctemsmedia.tgstg.net/ng-app/data/election/97/v7/Electiondata.json"
  then Response 200 "OK" (inr (election_json hartford_election))
  else Response 404 "Not Found" (inl "Expecting value: line 1 column 1 (char 0)").

(** A server whose election document is cut off: the body does not decode. *)
Definition truncated_election_server (n : nat) (url : string) : response :=
  if String.eqb url "https://ctemsmedia.tgstg.net/ng-app/data/election/97/Version.json"
  then Response 200 "OK" (inr (VDict [("Version", VStr "v7")]))
  else if String.eqb url "https://ctemsmedia.tgstg.net/ng-app/data/election/97/Lookup.json"
  then Response 200 "OK" (inr (lookup_json hartford_lookup))
  else Response 200 "OK" (inl "Unterminated string starting at: line 1 column 17 (char 16)").

(** A server that cannot be reached. *)
Definition unreachable_server (n : nat) (url : string) : response :=
  NoResponse "HTTPSConnectionPool(host='ctemsmedia.tgstg.net', port=443): Max retries exceeded".


End Samples.

Import Samples.

(** The class of an error is one of those listed. *)
Definition raises_one_of (classes : list exn_class) (e : exn) : Prop :=
  In (exn_kind e) classes.

(** The shape of a table a parser returns: no rows and no columns, or the
    given labels in order over at least one row, one cell per row in each
    column. *)
Definition parser_table (labels : list string) (df : DataFrame) : Prop :=
  (df = Frame 0 [] \/ (index df <> 0%nat /\ map fst (columns df) = labels))
  /\ well_formed df.

(** An election document in which a tally is a string, not a mapping. *)
Definition tally_not_a_mapping : value :=
  VDict [("townVotes", VDict [("5", VDict [("10", VList [VDict [("100", VStr "1,234")]])])])].

(** An election document in which a turnout record is a list. *)
Definition turnout_not_a_mapping : value :=
  VDict [("voterTurnout", VDict [("5", VList [VStr "Hartford"])])].

(** Every row has exactly these labels, in this order. *)
Definition uniform (labels : list string) (rows : list record) : Prop :=
  Forall (fun r => map fst r = labels) rows.


(** ** The Spanish views: inputs and outputs *)

Definition es_result_labels : list string :=
  ["Ciudad"; "Cargo"; "Candidato"; "Partido"; "Votos"; "Porcentaje"].

Definition es_turnout_labels : list string :=
  ["Ciudad"; "Precintos reportados"; "Habilitados"; "Votantes"; "% Participación"].

(** The columns [to_es_results] reads, in the order it reads them. *)
Definition results_view_columns : list string :=
  ["party"; "town_name"; "office_name"; "candidate_name"; "votes"; "percent"].

(** The columns [to_es_turnout] reads, in the order it reads them. *)
Definition turnout_view_columns : list string :=
  ["precincts_reported"; "town_name"; "electors"; "votes_cast"; "turnout_percent"].

(** A table with a row and a column that [to_es_results] accepts: the
    columns it reads are there and the party cells can be looked up. *)
Definition results_view_input (d : DataFrame) : bool :=
  forallb (fun k => has_column k d) results_view_columns
  && forallb hashable (default [] (dict_get "party" (columns d))).

Definition turnout_view_input (d : DataFrame) : bool :=
  forallb (fun k => has_column k d) turnout_view_columns.

(** The first label of a list that the table lacks. *)
Definition first_missing (ks : list string) (d : DataFrame) : option string :=
  List.find (fun k => negb (has_column k d)) ks.

(** A results table with one row, without the candidate's name. *)
Definition nameless_results : DataFrame :=
  Frame 1 [("town_name", [VStr "Hartford"]);
           ("office_name", [VStr "Mayor"]);
           ("party", [VStr "Green Party"]);
           ("votes", [VInt 7]);
           ("percent", [VStr "1%"])].

(** ** Servers *)

(** A server during the count: the unversioned documents are served. *)
Definition live_server (n : nat) (url : string) : response :=
  if String.eqb url "https://ctemsmedia.tgstg.net/ng-app/data/election/97/Version.json"
  then Response 200 "OK" (inr (VDict [("Version", VStr "v7")]))
  else if String.eqb url "https://ctemsmedia.tgstg.net/ng-app/data/election/97/Lookup.json"
  then Response 200 "OK" (inr (lookup_json hartford_lookup))
  else if String.eqb url "https://ctemsmedia.tgstg.net/ng-app/data/election/97/Election.json"
  then Response 200 "OK" (inr (election_json hartford_election))
  else Response 404 "Not Found" (inl "Expecting value: line 1 column 1 (char 0)").

(** A server whose version marker is a JSON array. *)
Definition array_marker_server (n : nat) (url : string) : response :=
  Response 200 "OK" (inr (VList [VStr "v7"])).

(** A server whose version marker has no ["Version"] field and that serves
    nothing else. *)
Definition unversioned_marker_server (n : nat) (url : string) : response :=
  if String.eqb url "https://ctemsmedia.tgstg.net/ng-app/data/election/97/Version.json"
  then Response 200 "OK" (inr (VDict [("Released", VStr "2025-11-04")]))
  else Response 404 "Not Found" (inl "Expecting value: line 1 column 1 (char 0)").

(** ** The publishing run *)

(** The worksheets of the destination, by name; no spreadsheet, no sheet. *)
Definition sheets (w : world) : list (string * option DataFrame) := default [] (workbook w).

(** The names of the worksheets, in tab order. *)
Definition sheet_names (w : world) : list string := map fst (sheets w).

(** The Spanish views as functions of the table they are given. *)
Definition es_results (d : DataFrame) : result DataFrame :=
  if empty d then Ok (DataFrame_columns es_result_labels)
  else d2 ← translate_party d; es_results_view d2.

Definition es_turnout (d : DataFrame) : result DataFrame :=
  if empty d then Ok (DataFrame_columns es_turnout_labels)
  else d2 ← localize_precincts d; es_turnout_view d2.

(** The three assignments [df[k] = v] of the run metadata. *)
Definition add_meta (ver : value) (utcnow : string) (d : DataFrame) : DataFrame :=
  setitem_scalar
    (setitem_scalar (setitem_scalar d "election_id" (VInt ELECTION_ID)) "version" ver)
    "scraped_at" (VStr utcnow).

(** The worksheets after the four writes. *)
Definition published (ver : value) (utcnow : string) (res tur res_es tur_es : DataFrame)
    (b : list (string * option DataFrame)) : list (string * option DataFrame) :=
  dict_set "Turnout_ES" (Some (add_meta ver utcnow tur_es))
    (dict_set "Results_ES" (Some (add_meta ver utcnow res_es))
       (dict_set "Turnout_EN" (Some (add_meta ver utcnow tur))
          (dict_set "Results_EN" (Some (add_meta ver utcnow res)) b))).

(** The three lines printed at the end of a run. *)
Definition report (ver : value) (res tur : DataFrame) : list string :=
  ["✅ Election " +:+ str_of_Z ELECTION_ID +:+ ", version " +:+ py_str ver;
   "Results_EN " +:+ format_thousands (len res) +:+ " rows  Turnout_EN "
     +:+ format_thousands (len tur) +:+ " rows";
   "Wrote to " +:+ SHEET_NAME].

(** The error of a missing service account file. *)
Definition no_credentials : exn :=
  Exn FileNotFoundError
    ("[Errno 2] No such file or directory: " +:+ repr_str SERVICE_ACCOUNT_FILE).

(** What a run comes to once the documents are fetched: the worksheets and
    the printed lines, or the error. *)
Definition main_outcome (read_float : string -> option value) (utcnow : string)
    (service_account : bool) (lookup election ver : value)
    (b : option (list (string * option DataFrame)))
  : result (list (string * option DataFrame) * list string) :=
  res ← parse_results read_float lookup election;
  tur ← parse_turnout read_float election;
  res_es ← es_results res;
  tur_es ← es_turnout tur;
  _ ← (if service_account then Ok tt else Raise no_credentials);
  Ok (published ver utcnow res tur res_es tur_es (default [("Sheet1", None)] b),
      report ver res tur).

(** A destination with an old results tab and a tab of notes. *)
Definition used_workbook : list (string * option DataFrame) :=
  [("Notes", Some (Frame 1 [("text", [VStr "keep"])]));
   ("Results_EN", Some (Frame 1 [("stale", [VInt 0])]))].

Definition used_world : world := World [hartford_results; hartford_turnout] [] (Some used_workbook) [].

(** A value that an assignment [df[k] = v] repeats on every row: no list,
    no mapping. *)
Definition is_scalar (v : value) : bool :=
  match v with VList _ | VDict _ => false | _ => true end.

(** The labels of the run metadata. *)
Definition meta_labels : list string := ["election_id"; "version"; "scraped_at"].

(** * Properties *)

(** ** Loops *)

Lemma for_each_foldl {A S} (l : list A) (body : A -> S -> result S) (f : S -> A -> S) (s : S) :
  (forall x s', x ∈ l -> body x s' = Ok (f s' x)) ->
  for_each l body s = Ok (foldl f s l).
Proof.
  revert s. induction l as [|x l IH]; intros s Hbody; simpl; [done|].
  rewrite Hbody by left. simpl. apply IH.
  intros y s' Hy. apply Hbody. by right.
Qed.

(** ** The office map: what the merge computes *)

Lemma office_inner_ok (kvs : list (string * value)) (out : gmap string value) :
  Forall (fun kv => isinstance_dict kv.2 = true) kvs ->
  for_each kvs
    (fun kv out => nm ← py_get (snd kv) "NM" (VStr ""); Ok (<[py_str (VStr (fst kv)) := nm]> out))
    out = Ok (foldl office_step out kvs).
Proof.
  intros Hd. apply for_each_foldl. intros [k v] s Hin.
  rewrite Forall_forall in Hd. specialize (Hd _ Hin). simpl in Hd.
  destruct v; try discriminate. reflexivity.
Qed.

Lemma office_inner_inv (kvs : list (string * value)) (out m : gmap string value) :
  for_each kvs
    (fun kv out => nm ← py_get (snd kv) "NM" (VStr ""); Ok (<[py_str (VStr (fst kv)) := nm]> out))
    out = Ok m ->
  Forall (fun kv => isinstance_dict kv.2 = true) kvs.
Proof.
  revert out. induction kvs as [|[k v] kvs IH]; intros out H; [constructor|].
  simpl in H. destruct v; try discriminate.
  constructor; [done|]. simpl in H. eapply IH, H.
Qed.

Lemma office_loop_ok (l : list value) (out : gmap string value) :
  Forall (fun kv => isinstance_dict kv.2 = true) (office_entries l) ->
  for_each l office_body out = Ok (foldl office_step out (office_entries l)).
Proof.
  revert out. induction l as [|item l IH]; intros out Hd; [done|].
  unfold office_entries in *. simpl in Hd. apply Forall_app in Hd as [Hi Hl].
  simpl. rewrite foldl_app.
  assert (office_body item out = Ok (foldl office_step out (dict_items item))) as ->.
  { unfold office_body. destruct item; try reflexivity. simpl. by apply office_inner_ok. }
  simpl. by apply IH.
Qed.

Lemma office_loop_inv (l : list value) (out m : gmap string value) :
  for_each l office_body out = Ok m ->
  Forall (fun kv => isinstance_dict kv.2 = true) (office_entries l).
Proof.
  revert out. induction l as [|item l IH]; intros out H; [constructor|].
  unfold office_entries. simpl. apply Forall_app.
  simpl in H. destruct (office_body item out) as [out'|e] eqn:Hb; [|discriminate].
  split; [|by eapply IH].
  unfold office_body in Hb. destruct item; try constructor.
  simpl in Hb. by eapply office_inner_inv.
Qed.

(** The merge succeeds exactly when every record of the list is a dict, and
    then folds the entries into the map from the left. *)
Lemma build_office_map_ok (l : list value) :
  Forall (fun kv => isinstance_dict kv.2 = true) (office_entries l) ->
  build_office_map (VList l) = Ok (foldl office_step ∅ (office_entries l)).
Proof. intros H. by apply office_loop_ok. Qed.

Lemma build_office_map_inv (l : list value) (m : gmap string value) :
  build_office_map (VList l) = Ok m ->
  Forall (fun kv => isinstance_dict kv.2 = true) (office_entries l)
  /\ m = foldl office_step ∅ (office_entries l).
Proof.
  intros H. assert (Hd := H). apply office_loop_inv in Hd. split; [done|].
  rewrite (build_office_map_ok _ Hd) in H. by inversion H.
Qed.

Lemma office_entries_perm (l l' : list value) :
  l ≡ₚ l' -> office_entries l ≡ₚ office_entries l'.
Proof.
  unfold office_entries. induction 1 as [|x l l' _ IH|x y l|l l' l'' _ IH1 _ IH2]; simpl.
  - done.
  - by rewrite IH.
  - rewrite !app_assoc. f_equiv. apply Permutation_app_comm.
  - by etrans.
Qed.

Lemma office_fold_perm (es es' : list (string * value)) (m : gmap string value) :
  es ≡ₚ es' -> NoDup es.*1 ->
  foldl office_step m es = foldl office_step m es'.
Proof.
  intros Hp. revert m.
  induction Hp as [|x l l' Hp IH|x y l|l l' l'' Hp1 IH1 Hp2 IH2]; intros m Hnd; simpl.
  - done.
  - apply IH. by inversion Hnd.
  - f_equal. unfold office_step. apply insert_insert_ne.
    simpl in Hnd. inversion Hnd as [|? ? Hnotin _]; subst.
    intros Heq. apply Hnotin. rewrite Heq. left.
  - rewrite IH1 by done. apply IH2. by rewrite <- Hp1.
Qed.

Lemma office_fold_last (es1 es2 : list (string * value)) (k : string) (v : value)
    (m : gmap string value) :
  k ∉ es2.*1 ->
  foldl office_step m (es1 ++ (k, v) :: es2) !! k = Some (office_name v).
Proof.
  intros Hk. rewrite foldl_app. simpl.
  generalize (foldl office_step m es1). intros m1.
  assert (office_step m1 (k, v) !! k = Some (office_name v)) as H.
  { unfold office_step. simpl. apply lookup_insert_eq. }
  revert H. generalize (office_step m1 (k, v)). clear m1.
  induction es2 as [|[k2 v2] es2 IH]; intros m1 H; simpl; [done|].
  apply IH.
  - intros Hin. apply Hk. simpl. by right.
  - unfold office_step. simpl. rewrite lookup_insert_ne; [done|].
    intros ->. apply Hk. simpl. left.
Qed.

(** ** C9: merging the office list *)

(** C9, as stated, fails: two entries for office "10" merged in the two
    possible orders give two different maps, so the merge is not
    order-independent for every office list. *)
Lemma build_office_map_order_matters :
  ~ (forall l l' : list value,
       l ≡ₚ l' -> build_office_map (VList l) = build_office_map (VList l')).
Proof.
  intros H.
  specialize (H [mayor_entry; mayor_renamed] [mayor_renamed; mayor_entry] (perm_swap _ _ _)).
  rewrite !build_office_map_ok in H
    by (repeat constructor).
  apply (f_equal (fun r : result (gmap string value) =>
                    match r with Ok m => m !! "10" | Raise _ => None end)) in H.
  vm_compute in H. discriminate.
Qed.

(** C9, amended: the merge is order-independent for an office list in which
    no office identifier occurs twice (a permutation of such a list merges to
    the same map); when an identifier occurs more than once, the name of its
    last entry is the one the map holds; and the merge succeeds whenever
    every office record is a dict. *)
Theorem build_office_map_merge :
  (forall (l l' : list value) (m : gmap string value),
     l ≡ₚ l' -> NoDup (office_entries l).*1 ->
     build_office_map (VList l) = Ok m -> build_office_map (VList l') = Ok m)
  /\ (forall (l1 l2 : list value) (k : string) (r : record) (m : gmap string value),
        k ∉ (office_entries l2).*1 ->
        build_office_map (VList (l1 ++ VDict [(k, VDict r)] :: l2)) = Ok m ->
        m !! k = Some (default (VStr "") (dict_get "NM" r)))
  /\ (forall l : list value,
        Forall (fun kv => isinstance_dict kv.2 = true) (office_entries l) ->
        exists m, build_office_map (VList l) = Ok m).
Proof.
  split; [|split].
  - intros l l' m Hp Hnd H.
    apply build_office_map_inv in H as [Hd ->].
    assert (Hp' := office_entries_perm _ _ Hp).
    rewrite build_office_map_ok by (by rewrite <- Hp').
    f_equal. symmetry. by apply office_fold_perm.
  - intros l1 l2 k r m Hk H.
    apply build_office_map_inv in H as [_ ->].
    unfold office_entries. rewrite flat_map_app. simpl.
    apply (office_fold_last _ _ k (VDict r)). exact Hk.
  - intros l Hd. eexists. by apply build_office_map_ok.
Qed.

Lemma build_office_map_merge_witness :
  build_office_map (VList [clerk_entry; mayor_entry])
  = Ok (<["20" := VStr "Clerk"]> (<["10" := VStr "Mayor"]> ∅))
  /\ (forall m, build_office_map (VList [mayor_entry; mayor_renamed; clerk_entry]) = Ok m ->
      m !! "10" = Some (VStr "First Selectman")).
Proof.
  destruct build_office_map_merge as (Hperm & Hlast & _).
  split.
  - apply (Hperm [mayor_entry; clerk_entry] [clerk_entry; mayor_entry]).
    + apply perm_swap.
    + apply (bool_decide_unpack _). vm_compute. reflexivity.
    + vm_compute. reflexivity.
  - intros m Hm.
    apply (Hlast [mayor_entry] [clerk_entry] "10" [("NM", VStr "First Selectman")] m).
    + apply (bool_decide_unpack _). vm_compute. reflexivity.
    + exact Hm.
Defined.

(** ** Resolution through encoded documents *)

Lemma dict_get_records (k : string) (d : list (string * record)) :
  dict_get k (map (fun kv => (kv.1, VDict kv.2)) d) = VDict <$> dict_get k d.
Proof.
  induction d as [|[k' r] d IH]; simpl; [done|].
  by destruct (String.eqb k k').
Qed.

Lemma py_get_records (d : list (string * record)) (k : string) :
  py_get (records_json d) k (VDict []) = Ok (VDict (resolve k d)).
Proof.
  unfold records_json, resolve. simpl. rewrite dict_get_records.
  by destruct (dict_get k d).
Qed.

Lemma office_entries_records (ol : list (list (string * record))) :
  Forall (fun kv => isinstance_dict kv.2 = true) (office_entries (map records_json ol)).
Proof.
  unfold office_entries. induction ol as [|item ol IH]; simpl; [constructor|].
  apply Forall_app. split; [|done].
  apply Forall_forall. intros kv Hin.
  apply list_elem_of_In, in_map_iff in Hin as [[k r] [<- _]]. done.
Qed.

Lemma build_office_map_records (L : LookupDocument) :
  build_office_map (VList (map records_json (officeList L))) = Ok (office_map L).
Proof. apply build_office_map_ok, office_entries_records. Qed.

(** A loop over encoded elements that appends the rows of each to the
    accumulator. *)
Lemma for_each_map_rows {A B R} (g : A -> B) (l : list A)
    (body : B -> list R -> result (list R)) (f : A -> list R) (rows : list R) :
  (forall x rows', x ∈ l -> body (g x) rows' = Ok (rows' ++ f x)) ->
  for_each (map g l) body rows = Ok (rows ++ flat_map f l).
Proof.
  revert rows. induction l as [|x l IH]; intros rows Hbody; simpl.
  - by rewrite app_nil_r.
  - rewrite Hbody by left. simpl. rewrite IH.
    + by rewrite app_assoc.
    + intros y rows' Hy. apply Hbody. by right.
Qed.

Lemma flat_map_singleton {A B} (f : A -> B) (l : list A) :
  flat_map (fun x => [f x]) l = map f l.
Proof. induction l; simpl; congruence. Qed.

Lemma map_flat_map {A B C} (f : B -> C) (g : A -> list B) (l : list A) :
  map f (flat_map g l) = flat_map (fun x => map f (g x)) l.
Proof. induction l as [|x l IH]; simpl; [done|]. by rewrite map_app, IH. Qed.

Lemma flat_map_ext' {A B} (f g : A -> list B) (l : list A) :
  (forall x, f x = g x) -> flat_map f l = flat_map g l.
Proof. intros H. induction l; simpl; congruence. Qed.

(** ** Tables of uniform records *)

Lemma column_length k rows : length (column k rows) = length rows.
Proof. unfold column. by rewrite length_map. Qed.

Lemma reindex_id (n : nat) (s : Series) : length s = n -> reindex n s = s.
Proof.
  intros <-. unfold reindex. rewrite Nat.sub_diag. simpl.
  rewrite app_nil_r. apply firstn_all.
Qed.

Lemma add_label_known (acc l : list string) :
  Forall (fun k => k ∈ acc) l -> foldl add_label acc l = acc.
Proof.
  induction 1 as [|k l Hk _ IH]; simpl; [done|].
  unfold add_label at 2. by rewrite bool_decide_eq_true_2.
Qed.

Lemma add_label_fresh (acc l : list string) :
  NoDup (acc ++ l) -> foldl add_label acc l = acc ++ l.
Proof.
  revert acc. induction l as [|k l IH]; intros acc Hnd; simpl.
  - by rewrite app_nil_r.
  - assert (k ∉ acc) as Hk.
    { apply NoDup_app in Hnd as (_ & Hdisj & _). intros Hin.
      apply (Hdisj _ Hin). left. }
    unfold add_label at 2. rewrite bool_decide_eq_false_2 by done.
    rewrite IH; rewrite <- app_assoc; done.
Qed.

Lemma labels_uniform (ks : list string) (rows : list record) :
  NoDup ks -> rows <> [] -> Forall (fun r => map fst r = ks) rows ->
  labels rows = ks.
Proof.
  intros Hnd Hne Hall. unfold labels.
  destruct rows as [|r rows]; [done|]. simpl.
  apply Forall_cons in Hall as [Hr Hall]. rewrite Hr.
  rewrite (add_label_fresh [] ks) by done. simpl.
  induction Hall as [|r' rows Hr' _ IH]; simpl; [done|].
  rewrite Hr'. rewrite add_label_known; [by apply IH|].
  by apply Forall_forall.
Qed.

Lemma DataFrame_records_uniform (ks : list string) (rows : list record) :
  NoDup ks -> rows <> [] -> Forall (fun r => map fst r = ks) rows ->
  DataFrame_records rows = Frame (length rows) (map (fun k => (k, column k rows)) ks).
Proof.
  intros. unfold DataFrame_records. by rewrite (labels_uniform ks).
Qed.

(** ** What the parsers compute *)

Lemma clean_numeric_texts read_float (s : Series) :
  clean_numeric read_float s = to_numeric_coerce read_float (map cleaned_text s).
Proof.
  unfold clean_numeric, series_str_replace, astype_str, cleaned_text.
  by rewrite map_map.
Qed.

Lemma length_clean_numeric read_float (s : Series) :
  length (clean_numeric read_float s) = length s.
Proof.
  rewrite clean_numeric_texts. unfold to_numeric_coerce.
  destruct (integer_column (map cleaned_text s)); by rewrite !length_map.
Qed.

Lemma py_get_field (r : record) (k : string) :
  py_get (VDict r) k (VStr "") = Ok (field k r).
Proof. reflexivity. Qed.

Lemma result_rows_flat (L : LookupDocument) (E : ElectionDocument) :
  flat_map (fun tc =>
    flat_map (fun oc =>
      flat_map (fun entry =>
        flat_map (fun ct => [result_record L (tc.1, oc.1, ct.1, ct.2)]) entry) oc.2) tc.2)
    (townVotes E)
  = map (result_record L) (tallies E).
Proof.
  unfold tallies. rewrite map_flat_map. apply flat_map_ext'. intros tc.
  rewrite map_flat_map. apply flat_map_ext'. intros oc.
  rewrite map_flat_map. apply flat_map_ext'. intros entry.
  rewrite flat_map_singleton, map_map. reflexivity.
Qed.

#[local] Arguments setitem : simpl never.

Lemma map_reindex_id (n : nat) (cols : list (string * Series)) :
  Forall (fun c => length c.2 = n) cols ->
  map (fun c => (c.1, reindex n c.2)) cols = cols.
Proof.
  induction 1 as [|[k s] cols Hs _ IH]; simpl; [done|].
  rewrite reindex_id by done. by rewrite IH.
Qed.

(** Assigning a series as long as the frame changes that column alone. *)
Lemma setitem_aligned (df : DataFrame) (k : string) (s : Series) :
  well_formed df -> length s = index df ->
  setitem df k s = Frame (index df) (dict_set k s (columns df)).
Proof.
  intros Hwf Hlen. unfold setitem. rewrite Hlen.
  replace (if (index df =? 0)%nat && negb (index df =? 0)%nat then index df else index df)
    with (index df) by (by destruct (index df =? 0)%nat).
  rewrite reindex_id by done. by rewrite map_reindex_id.
Qed.

Lemma getitem_frame (n : nat) (cols : list (string * Series)) (k : string) (s : Series) :
  dict_get k cols = Some s -> getitem (Frame n cols) k = Ok s.
Proof. intros H. unfold getitem. cbn [columns]. by rewrite H. Qed.

(** Evaluates the dictionary operations on literal keys, and nothing else. *)
Ltac eval_dict :=
  cbv beta iota delta [dict_set dict_get String.eqb Ascii.eqb Bool.eqb].

Lemma nonempty_length {A} (l : list A) : l <> [] -> (length l =? 0)%nat = false.
Proof. by destruct l. Qed.

Lemma results_table_rows read_float (rows : list record) :
  rows <> [] -> Forall (fun r => map fst r = result_labels) rows ->
  (let df := DataFrame_records rows in
   if negb (empty df) then
     votes ← getitem df "votes";
     Ok (setitem df "votes" (clean_numeric read_float votes))
   else Ok df) = Ok (results_table read_float rows).
Proof.
  intros Hne Hall. cbv zeta.
  rewrite (DataFrame_records_uniform result_labels); [|by apply (bool_decide_unpack _)|done..].
  unfold empty. cbn [index columns map result_labels].
  rewrite (nonempty_length _ Hne). cbn [orb negb].
  unfold getitem. simpl. rewrite setitem_aligned.
  - simpl. unfold results_table. by destruct rows.
  - unfold well_formed. simpl. repeat constructor; apply column_length.
  - simpl. by rewrite length_clean_numeric, column_length.
Qed.

Lemma parse_results_table read_float (L : LookupDocument) (E : ElectionDocument) :
  parse_results read_float (lookup_json L) (election_json E)
  = Ok (results_table read_float (map (result_record L) (tallies E))).
Proof.
  unfold parse_results.
  change (py_get (lookup_json L) "townIds" (VDict [])) with (Ok (VDict (townIds L))).
  change (py_get (lookup_json L) "partyIds" (VDict []))
    with (Ok (records_json (partyIds L))).
  change (py_get (lookup_json L) "candidateIds" (VDict []))
    with (Ok (records_json (candidateIds L))).
  change (py_get (lookup_json L) "officeList" (VList []))
    with (Ok (VList (map records_json (officeList L)))).
  cbn [mbind result_bind].
  rewrite build_office_map_records.
  change (py_get (election_json E) "townVotes" (VDict []))
    with (Ok (VDict (map (fun tc => (tc.1, contests_json tc.2)) (townVotes E)))).
  cbn [mbind result_bind py_items].
  rewrite (for_each_map_rows _ _ _
             (fun tc => flat_map (fun oc => flat_map (fun entry =>
                flat_map (fun ct => [result_record L (tc.1, oc.1, ct.1, ct.2)]) entry)
                oc.2) tc.2)).
  2:{ intros [tid cs] rows _. cbn [fst snd contests_json mbind result_bind py_items].
      apply (for_each_map_rows _ _ _
               (fun oc => flat_map (fun entry =>
                  flat_map (fun ct => [result_record L (tid, oc.1, ct.1, ct.2)]) entry) oc.2)).
      intros [oid es] rows1 _. cbn [fst snd mbind result_bind py_iter].
      apply (for_each_map_rows _ _ _
               (fun entry => flat_map (fun ct => [result_record L (tid, oid, ct.1, ct.2)]) entry)).
      intros entry rows2 _.
      change (py_items (records_json entry))
        with (Ok (map (fun kv : string * record => (kv.1, VDict kv.2)) entry)).
      cbn [mbind result_bind].
      apply (for_each_map_rows _ _ _
               (fun ct => [result_record L (tid, oid, ct.1, ct.2)])).
      intros [cid tally] rows3 _. cbn [fst snd py_str].
      rewrite py_get_records. cbn [mbind result_bind].
      change (get_method (records_json (partyIds L))) with (Ok tt).
      cbn [mbind result_bind].
      rewrite !py_get_field. cbn [mbind result_bind].
      rewrite py_get_records.
      cbn [mbind result_bind]. rewrite !py_get_field. cbn [mbind result_bind].
      reflexivity. }
  cbn [mbind result_bind app].
  rewrite (result_rows_flat L E).
  destruct (map (result_record L) (tallies E)) as [|r rows] eqn:Hrows; [reflexivity|].
  rewrite <- Hrows. apply results_table_rows.
  - by rewrite Hrows.
  - apply Forall_forall. intros r' Hin.
    apply list_elem_of_In, in_map_iff in Hin as [[[[tid oid] cid] tally] [<- _]].
    reflexivity.
Qed.

Lemma turnout_table_rows read_float (rows : list record) :
  rows <> [] -> Forall (fun r => map fst r = turnout_labels) rows ->
  (let df := DataFrame_records rows in
   if negb (empty df) then
     for_each ["electors"; "votes_cast"] (fun c df =>
       col ← getitem df c;
       Ok (setitem df c (clean_numeric read_float col))) df
   else Ok df) = Ok (turnout_table read_float rows).
Proof.
  intros Hne Hall. cbv zeta.
  rewrite (DataFrame_records_uniform turnout_labels); [|by apply (bool_decide_unpack _)|done..].
  unfold empty. cbn [index columns map turnout_labels].
  rewrite (nonempty_length _ Hne). cbn [orb negb for_each].
  rewrite (getitem_frame _ _ "electors" (column "electors" rows)) by reflexivity.
  cbn [mbind result_bind].
  rewrite setitem_aligned; cbn [index columns];
    [|repeat constructor; apply column_length
     |by rewrite length_clean_numeric, column_length].
  eval_dict.
  rewrite (getitem_frame _ _ "votes_cast" (column "votes_cast" rows)) by reflexivity.
  cbn [mbind result_bind].
  rewrite setitem_aligned; cbn [index columns];
    [|repeat constructor; cbn [snd];
      rewrite ?length_clean_numeric; apply column_length
     |by rewrite length_clean_numeric, column_length].
  eval_dict.
  unfold turnout_table. by destruct rows.
Qed.

Lemma parse_turnout_table read_float (E : ElectionDocument) :
  parse_turnout read_float (election_json E)
  = Ok (turnout_table read_float (map (turnout_record E) (voterTurnout E))).
Proof.
  unfold parse_turnout.
  change (py_get (election_json E) "voterTurnout" (VDict []))
    with (Ok (records_json (voterTurnout E))).
  change (py_get (election_json E) "townStatus" (VDict []))
    with (Ok (records_json (townStatus E))).
  cbn [mbind result_bind].
  change (py_items (records_json (voterTurnout E)))
    with (Ok (map (fun kv : string * record => (kv.1, VDict kv.2)) (voterTurnout E))).
  cbn [mbind result_bind].
  rewrite (for_each_map_rows _ _ _ (fun td => [turnout_record E td])).
  2:{ intros [tid d] rows _. cbn [fst snd py_str].
      rewrite py_get_records. cbn [mbind result_bind].
      rewrite !py_get_field. cbn [mbind result_bind]. reflexivity. }
  cbn [mbind result_bind app]. rewrite flat_map_singleton.
  destruct (map (turnout_record E) (voterTurnout E)) as [|r rows] eqn:Hrows; [reflexivity|].
  rewrite <- Hrows. apply turnout_table_rows.
  - by rewrite Hrows.
  - apply Forall_forall. intros r' Hin.
    apply list_elem_of_In, in_map_iff in Hin as [[tid d] [<- _]].
    reflexivity.
Qed.

Lemma len_results_table read_float (rows : list record) :
  len (results_table read_float rows) = length rows.
Proof. by destruct rows. Qed.

Lemma len_turnout_table read_float (rows : list record) :
  len (turnout_table read_float rows) = length rows.
Proof. by destruct rows. Qed.

(** ** C1: one results row per candidate-tally entry *)

Lemma tallies_single_entries (E : ElectionDocument) :
  Forall (fun entry => length entry = 1%nat) (tally_entries E) ->
  length (tallies E) = length (tally_entries E).
Proof.
  unfold tallies, tally_entries.
  induction (townVotes E) as [|[tid cs] tv IH]; simpl; [done|].
  rewrite !length_app. intros [Hcs Htv]%Forall_app. rewrite (IH Htv). f_equal.
  clear IH Htv. induction cs as [|[oid es] cs IH]; simpl in *; [done|].
  apply Forall_app in Hcs as [Hes Hcs]. rewrite !length_app, (IH Hcs). f_equal.
  clear IH Hcs. induction Hes as [|entry es He _ IH]; simpl; [done|].
  rewrite length_app, length_map, He, IH. done.
Qed.

(** C1: for documents of the data model, [parse_results] returns the table
    whose rows are, in order, the rows of the candidate-tally entries of
    [townVotes] (every town, every office, every element of the candidate
    sequence, every pair in it), each resolved through [townIds], the merged
    office map, [candidateIds] and [partyIds]; a town, an office, a candidate
    or a party that is not found gives the empty string; that is one row per
    entry when the elements are single-entry mappings; and the worked
    example gives the one row of the spec. *)
Theorem parse_results_one_row_per_tally (read_float : string -> option value) :
  (forall (L : LookupDocument) (E : ElectionDocument),
     parse_results read_float (lookup_json L) (election_json E)
     = Ok (results_table read_float (map (result_record L) (tallies E)))
     /\ build_office_map (VList (map records_json (officeList L))) = Ok (office_map L)
     /\ len (results_table read_float (map (result_record L) (tallies E)))
        = length (tallies E)
     /\ (Forall (fun entry => length entry = 1%nat) (tally_entries E) ->
         length (tallies E) = length (tally_entries E)))
  /\ (forall (L : LookupDocument) (tid oid cid : string) (tally : record),
        let row := result_record L (tid, oid, cid, tally) in
        (dict_get tid (townIds L) = None -> dict_get "town_name" row = Some (VStr ""))
        /\ (office_map L !! oid = None -> dict_get "office_name" row = Some (VStr ""))
        /\ (dict_get cid (candidateIds L) = None ->
            dict_get "candidate_name" row = Some (VStr ""))
        /\ (dict_get (py_str (field "P" (resolve cid (candidateIds L)))) (partyIds L) = None ->
            dict_get "party" row = Some (VStr "")))
  /\ parse_results read_float example_lookup example_election
     = Ok (Frame 1 [("town_name", [VStr "Hartford"]);
                    ("office_name", [VStr "Mayor"]);
                    ("candidate_name", [VStr "Jane Doe"]);
                    ("party", [VStr "Democratic Party"]);
                    ("votes", [VInt 1234]);
                    ("percent", [VStr "55%"]);
                    ("town_id", [VStr "5"]);
                    ("office_id", [VStr "10"]);
                    ("candidate_id", [VStr "100"])]).
Proof.
  split; [|split; [|vm_compute; reflexivity]].
  - intros L E. split; [apply parse_results_table|].
    split; [apply build_office_map_records|]. split.
    + by rewrite len_results_table, length_map.
    + apply tallies_single_entries.
  - intros L tid oid cid tally row. subst row.
    cbn [result_record dict_get String.eqb Ascii.eqb Bool.eqb].
    repeat split.
    + by intros ->.
    + by intros ->.
    + intros Hmiss. unfold resolve. by rewrite Hmiss.
    + intros Hmiss. unfold resolve at 1. by rewrite Hmiss.
Qed.

Lemma parse_results_one_row_per_tally_witness :
  (Forall (fun entry => length entry = 1%nat) (tally_entries hartford_election)
   /\ length (tallies hartford_election) = length (tally_entries hartford_election))
  /\ dict_get "town_name"
       (result_record hartford_lookup ("6", "11", "101", [("V", VStr "n/a")]))
     = Some (VStr "").
Proof.
  destruct (parse_results_one_row_per_tally (fun _ => None)) as (Hrows & Hmiss & _).
  split.
  - assert (Forall (fun entry => length entry = 1%nat) (tally_entries hartford_election)) as H
      by (repeat constructor).
    split; [exact H|].
    exact (proj2 (proj2 (proj2 (Hrows hartford_lookup hartford_election))) H).
  - apply (proj1 (Hmiss hartford_lookup "6" "11" "101" [("V", VStr "n/a")])).
    reflexivity.
Defined.

(** ** C2: one turnout row per town, precincts from the status section *)

Lemma turnout_precincts read_float (rows : list record) :
  rows <> [] ->
  getitem (turnout_table read_float rows) "precincts_reported"
  = Ok (column "precincts_reported" rows).
Proof. by destruct rows. Qed.

(** C2: for every election document, [parse_turnout] returns the table with
    one row per town of [voterTurnout], in order; the precincts-reported cell
    of a town is the ["PR"] field of the record the town has in [townStatus],
    whatever the turnout record holds, and the empty string when the town has
    no record there: the row is present all the same. *)
Theorem parse_turnout_one_row_per_town (read_float : string -> option value)
    (E : ElectionDocument) :
  parse_turnout read_float (election_json E)
  = Ok (turnout_table read_float (map (turnout_record E) (voterTurnout E)))
  /\ len (turnout_table read_float (map (turnout_record E) (voterTurnout E)))
     = length (voterTurnout E)
  /\ (forall (i : nat) (tid : string) (d : record),
        voterTurnout E !! i = Some (tid, d) ->
        exists col,
          getitem (turnout_table read_float (map (turnout_record E) (voterTurnout E)))
                  "precincts_reported" = Ok col
          /\ col !! i = Some (field "PR" (resolve tid (townStatus E)))
          /\ (dict_get tid (townStatus E) = None -> col !! i = Some (VStr ""))).
Proof.
  split; [apply parse_turnout_table|]. split.
  - unfold turnout_table, len.
    destruct (map (turnout_record E) (voterTurnout E)) eqn:Hrows.
    + apply (f_equal length) in Hrows. by rewrite length_map in Hrows.
    + rewrite <- Hrows. simpl. by rewrite length_map.
  - intros i tid d Hi. eexists. split.
    + apply turnout_precincts. intros Hnil.
      apply (f_equal (fun l => l !! i)) in Hnil.
      rewrite list_lookup_fmap, Hi in Hnil. discriminate.
    + assert (column "precincts_reported" (map (turnout_record E) (voterTurnout E)) !! i
              = Some (field "PR" (resolve tid (townStatus E)))) as Hcell.
      { unfold column. rewrite !list_lookup_fmap, Hi. reflexivity. }
      split; [exact Hcell|].
      intros Hmiss. rewrite Hcell. unfold resolve. by rewrite Hmiss.
Qed.

Lemma parse_turnout_one_row_per_town_witness :
  exists col,
    getitem (turnout_table (fun _ => None)
               (map (turnout_record hartford_election) (voterTurnout hartford_election)))
            "precincts_reported" = Ok col
    /\ col !! 1%nat = Some (VStr "").
Proof.
  destruct (proj2 (proj2 (parse_turnout_one_row_per_town (fun _ => None) hartford_election))
              1%nat "6" [("NM", VStr "Avon"); ("EV", VStr "unknown"); ("VV", VStr "10")]
              eq_refl) as (col & Hcol & _ & Hmiss).
  exists col. split; [exact Hcol|]. apply Hmiss. reflexivity.
Defined.

(** ** Numbers written with thousands separators *)









(** ** C3: cleaning and coercion of the numeric columns *)









(** *** A column of integers *)




(** *** A column with floats *)







(** *** The cells of a cleaned column *)










(** ** The Spanish views, run on a store *)

Lemma getitem_ref_last (w : world) (h : list DataFrame) (d : DataFrame) (k : string) :
  heap w = h ++ [d] -> getitem_ref (length h) k w = (getitem d k, w).
Proof.
  intros Hh. unfold getitem_ref, mbind, M_bind, deref, lift.
  by rewrite Hh, list_lookup_middle.
Qed.

Lemma setitem_ref_last (w : world) (h : list DataFrame) (d : DataFrame) (k : string)
    (s : Series) :
  heap w = h ++ [d] ->
  setitem_ref (length h) k s w = (Ok tt, set_heap (h ++ [setitem d k s]) w).
Proof.
  intros Hh. unfold setitem_ref, mbind, M_bind, deref, assign.
  rewrite Hh, list_lookup_middle by done. simpl.
  rewrite insert_app_r_alt by done. by rewrite Nat.sub_diag.
Qed.

Ltac mstep := unfold mbind at 1; unfold M_bind at 1.

Lemma new_last (w : world) (h : list DataFrame) (d out : DataFrame) :
  heap w = h ++ [d] ->
  new out w = (Ok (S (length h)), set_heap (h ++ [d; out]) w).
Proof.
  intros Hh. unfold new. rewrite Hh, length_app, <- app_assoc. simpl.
  by rewrite Nat.add_1_r.
Qed.

(** [to_es_results] in one equation: what it returns and what the store
    holds afterwards, on every path. *)
Lemma to_es_results_run (df : ref) (w : world) :
  to_es_results df w =
  let d := frame_at w df in
  if empty d then
    (Ok (length (heap w)),
     set_heap (heap w ++ [DataFrame_columns ["Ciudad"; "Cargo"; "Candidato"; "Partido";
                                             "Votos"; "Porcentaje"]]) w)
  else
    match translate_party d with
    | Raise e => (Raise e, set_heap (heap w ++ [d]) w)
    | Ok d2 =>
        match es_results_view d2 with
        | Raise e => (Raise e, set_heap (heap w ++ [d2]) w)
        | Ok out => (Ok (S (length (heap w))), set_heap (heap w ++ [d2; out]) w)
        end
    end.
Proof.
  cbv zeta. unfold to_es_results.
  mstep. cbn [deref]. fold (frame_at w df).
  destruct (empty (frame_at w df)) eqn:He; [reflexivity|].
  unfold copy. mstep. mstep. cbn [deref new]. fold (frame_at w df).
  set (d := frame_at w df).
  set (w1 := set_heap (heap w ++ [d]) w).
  assert (heap w1 = heap w ++ [d]) as Hw1 by reflexivity.
  unfold translate_party.
  mstep. rewrite (getitem_ref_last w1 _ _ _ Hw1).
  destruct (getitem d "party") as [party|e]; [|reflexivity].
  cbn [mbind result_bind]. mstep. cbn [lift].
  destruct (series_map party_es party) as [party'|e]; [|reflexivity].
  cbn [mbind result_bind]. mstep. rewrite (setitem_ref_last w1 _ _ _ _ Hw1).
  set (d2 := setitem d "party" party').
  set (w2 := set_heap (heap w ++ [d2]) w1).
  assert (heap w2 = heap w ++ [d2]) as Hw2 by reflexivity.
  unfold es_results_view.
  do 6 (mstep; rewrite (getitem_ref_last w2 _ _ _ Hw2);
        match goal with |- context [getitem d2 ?k] => destruct (getitem d2 k) end;
        [cbn [mbind result_bind]|reflexivity]).
  by rewrite (new_last w2 _ _ _ Hw2).
Qed.

Lemma to_es_turnout_run (df : ref) (w : world) :
  to_es_turnout df w =
  let d := frame_at w df in
  if empty d then
    (Ok (length (heap w)),
     set_heap (heap w ++ [DataFrame_columns ["Ciudad"; "Precintos reportados"; "Habilitados";
                                             "Votantes"; "% Participación"]]) w)
  else
    match localize_precincts d with
    | Raise e => (Raise e, set_heap (heap w ++ [d]) w)
    | Ok d2 =>
        match es_turnout_view d2 with
        | Raise e => (Raise e, set_heap (heap w ++ [d2]) w)
        | Ok out => (Ok (S (length (heap w))), set_heap (heap w ++ [d2; out]) w)
        end
    end.
Proof.
  cbv zeta. unfold to_es_turnout.
  mstep. cbn [deref]. fold (frame_at w df).
  destruct (empty (frame_at w df)) eqn:He; [reflexivity|].
  unfold copy. mstep. mstep. cbn [deref new]. fold (frame_at w df).
  set (d := frame_at w df).
  set (w1 := set_heap (heap w ++ [d]) w).
  assert (heap w1 = heap w ++ [d]) as Hw1 by reflexivity.
  unfold localize_precincts.
  mstep. rewrite (getitem_ref_last w1 _ _ _ Hw1).
  destruct (getitem d "precincts_reported") as [precincts|e]; [|reflexivity].
  cbn [mbind result_bind]. mstep. rewrite (setitem_ref_last w1 _ _ _ _ Hw1).
  unfold series_str_replace, astype_str. rewrite !map_map.
  change (map (fun x => VStr (str_replace " of " " de " (py_str x))) precincts)
    with (map es_precincts precincts).
  set (d2 := setitem d "Precintos reportados" (map es_precincts precincts)).
  set (w2 := set_heap (heap w ++ [d2]) w1).
  assert (heap w2 = heap w ++ [d2]) as Hw2 by reflexivity.
  unfold es_turnout_view.
  do 5 (mstep; rewrite (getitem_ref_last w2 _ _ _ Hw2);
        match goal with |- context [getitem d2 ?k] => destruct (getitem d2 k) end;
        [cbn [mbind result_bind]|reflexivity]).
  by rewrite (new_last w2 _ _ _ Hw2).
Qed.

(** ** English tables *)

Lemma series_map_party (p : Series) :
  forallb hashable p = true -> series_map party_es p = Ok (map party_name_es p).
Proof.
  induction p as [|x p IH]; [done|]. simpl. intros [Hx Hp]%andb_prop.
  rewrite (IH Hp). by destruct x.
Qed.

Lemma aligned_well_formed (d : DataFrame) : aligned d = true -> well_formed d.
Proof.
  unfold aligned, well_formed. intros H. apply Forall_forall. intros c Hc.
  rewrite forallb_forall in H. apply Nat.eqb_eq, H. by apply list_elem_of_In.
Qed.

Lemma has_column_get (k : string) (d : DataFrame) :
  has_column k d = true -> exists c, dict_get k (columns d) = Some c.
Proof. unfold has_column. destruct (dict_get k (columns d)); [eauto|done]. Qed.

Lemma well_formed_column (d : DataFrame) (k : string) (c : Series) :
  well_formed d -> dict_get k (columns d) = Some c -> length c = index d.
Proof.
  unfold well_formed. generalize (index d). intros n Hwf.
  induction Hwf as [|[k' c'] cols Hc _ IH]; simpl; [done|].
  destruct (String.eqb k k'); [by intros [= <-]|done].
Qed.

Lemma dict_get_set_eq {A} (k : string) (v : A) (l : list (string * A)) :
  dict_get k (dict_set k v l) = Some v.
Proof.
  induction l as [|[k' v'] l IH]; simpl.
  - by rewrite String.eqb_refl.
  - destruct (String.eqb k k') eqn:Hk; simpl; [by rewrite String.eqb_refl|].
    by rewrite Hk.
Qed.

Lemma dict_get_set_ne {A} (k k' : string) (v : A) (l : list (string * A)) :
  k <> k' -> dict_get k' (dict_set k v l) = dict_get k' l.
Proof.
  intros Hne. induction l as [|[k2 v2] l IH]; simpl.
  - by rewrite (proj2 (String.eqb_neq k' k)).
  - destruct (String.eqb k k2) eqn:Hk; simpl.
    + apply String.eqb_eq in Hk as <-.
      by rewrite (proj2 (String.eqb_neq k' k)).
    + destruct (String.eqb k' k2); [done|apply IH].
Qed.

Lemma DataFrame_dict_aligned (n : nat) (c : string * Series) (d : list (string * Series)) :
  Forall (fun c => length c.2 = n) (c :: d) -> DataFrame_dict (c :: d) = Frame n (c :: d).
Proof.
  intros Hd. unfold DataFrame_dict.
  assert (foldr Nat.max 0%nat (map (fun c => length c.2) (c :: d)) = n) as ->.
  { apply Forall_cons in Hd as [Hc Hd]. simpl. rewrite Hc. clear Hc.
    induction Hd as [|c' d Hc' _ IH]; simpl; [lia|]. rewrite Hc'. lia. }
  f_equal. by apply map_reindex_id.
Qed.

Lemma getitem_column (d : DataFrame) (k : string) (c : Series) :
  dict_get k (columns d) = Some c -> getitem d k = Ok c.
Proof. intros H. unfold getitem. by rewrite H. Qed.

Lemma nonempty_table (d : DataFrame) (k : string) :
  (index d =? 0)%nat = false -> has_column k d = true -> empty d = false.
Proof.
  unfold empty, has_column. intros -> Hk. simpl.
  destruct (columns d); [done|done].
Qed.

Lemma frame_at_lookup (w : world) (r : ref) (d : DataFrame) :
  heap w !! r = Some d -> frame_at w r = d.
Proof. unfold frame_at. by intros ->. Qed.

(** The Spanish results view of a results table, in closed form. *)
Lemma to_es_results_table (w : world) (df : ref) (d : DataFrame) :
  heap w !! df = Some d -> is_results_table d = true ->
  exists town office candidate party votes percent,
    dict_get "town_name" (columns d) = Some town
    /\ dict_get "office_name" (columns d) = Some office
    /\ dict_get "candidate_name" (columns d) = Some candidate
    /\ dict_get "party" (columns d) = Some party
    /\ dict_get "votes" (columns d) = Some votes
    /\ dict_get "percent" (columns d) = Some percent
    /\ to_es_results df w
       = (Ok (S (length (heap w))),
          set_heap (heap w ++ [Frame (index d)
                                 (dict_set "party" (map party_name_es party) (columns d));
                               Frame (index d)
                                 [("Ciudad", town);
                                  ("Cargo", office);
                                  ("Candidato", candidate);
                                  ("Partido", map party_name_es party);
                                  ("Votos", votes);
                                  ("Porcentaje", percent)]]) w).
Proof.
  intros Hd Ht. unfold is_results_table in Ht.
  apply andb_prop in Ht as [Ht Hhash]. apply andb_prop in Ht as [Ht Hcols].
  apply andb_prop in Ht as [Hidx Hal]. apply negb_true_iff in Hidx.
  apply aligned_well_formed in Hal.
  cbn [forallb] in Hcols.
  apply andb_prop in Hcols as [[town H1]%has_column_get Hcols].
  apply andb_prop in Hcols as [[office H2]%has_column_get Hcols].
  apply andb_prop in Hcols as [[candidate H3]%has_column_get Hcols].
  apply andb_prop in Hcols as [[party H4]%has_column_get Hcols].
  apply andb_prop in Hcols as [[votes H5]%has_column_get Hcols].
  apply andb_prop in Hcols as [[percent H6]%has_column_get _].
  rewrite H4 in Hhash. cbn [default] in Hhash.
  exists town, office, candidate, party, votes, percent.
  repeat (split; [assumption|]).
  rewrite to_es_results_run. cbv zeta. rewrite (frame_at_lookup _ _ _ Hd).
  rewrite (nonempty_table d "party") by (done || (unfold has_column; by rewrite H4)).
  unfold translate_party.
  rewrite (getitem_column _ _ _ H4). cbn [mbind result_bind].
  rewrite series_map_party by done. cbn [mbind result_bind].
  rewrite setitem_aligned
    by (done || (rewrite length_map; by eapply well_formed_column)).
  unfold es_results_view, getitem. cbn [columns].
  rewrite dict_get_set_eq.
  rewrite !dict_get_set_ne by done.
  rewrite H1, H2, H3, H5, H6.
  cbn [mbind result_bind].
  rewrite (DataFrame_dict_aligned (index d)); [reflexivity|].
  repeat constructor; cbn [snd]; rewrite ?length_map; by eapply well_formed_column.
Qed.

(** The Spanish turnout view of a turnout table, in closed form. *)
Lemma to_es_turnout_table (w : world) (df : ref) (d : DataFrame) :
  heap w !! df = Some d -> is_turnout_table d = true ->
  exists town precincts electors votes_cast percent,
    dict_get "town_name" (columns d) = Some town
    /\ dict_get "precincts_reported" (columns d) = Some precincts
    /\ dict_get "electors" (columns d) = Some electors
    /\ dict_get "votes_cast" (columns d) = Some votes_cast
    /\ dict_get "turnout_percent" (columns d) = Some percent
    /\ to_es_turnout df w
       = (Ok (S (length (heap w))),
          set_heap (heap w ++ [Frame (index d)
                                 (dict_set "Precintos reportados"
                                    (map es_precincts precincts) (columns d));
                               Frame (index d)
                                 [("Ciudad", town);
                                  ("Precintos reportados", map es_precincts precincts);
                                  ("Habilitados", electors);
                                  ("Votantes", votes_cast);
                                  ("% Participación", percent)]]) w).
Proof.
  intros Hd Ht. unfold is_turnout_table in Ht.
  apply andb_prop in Ht as [Ht Hcols].
  apply andb_prop in Ht as [Hidx Hal]. apply negb_true_iff in Hidx.
  apply aligned_well_formed in Hal.
  cbn [forallb] in Hcols.
  apply andb_prop in Hcols as [[town H1]%has_column_get Hcols].
  apply andb_prop in Hcols as [[precincts H2]%has_column_get Hcols].
  apply andb_prop in Hcols as [[electors H3]%has_column_get Hcols].
  apply andb_prop in Hcols as [[votes_cast H4]%has_column_get Hcols].
  apply andb_prop in Hcols as [[percent H5]%has_column_get _].
  exists town, precincts, electors, votes_cast, percent.
  repeat (split; [assumption|]).
  rewrite to_es_turnout_run. cbv zeta. rewrite (frame_at_lookup _ _ _ Hd).
  rewrite (nonempty_table d "town_name") by (done || (unfold has_column; by rewrite H1)).
  unfold localize_precincts.
  rewrite (getitem_column _ _ _ H2). cbn [mbind result_bind].
  rewrite setitem_aligned
    by (done || (rewrite length_map; by eapply well_formed_column)).
  unfold es_turnout_view, getitem. cbn [columns].
  rewrite dict_get_set_eq.
  rewrite !dict_get_set_ne by done.
  rewrite H1, H3, H4, H5.
  cbn [mbind result_bind].
  rewrite (DataFrame_dict_aligned (index d)); [reflexivity|].
  repeat constructor; cbn [snd]; rewrite ?length_map; by eapply well_formed_column.
Qed.

Lemma lookup_new_last (h : list DataFrame) (d2 out : DataFrame) :
  (h ++ [d2; out]) !! S (length h) = Some out.
Proof.
  change (h ++ [d2; out]) with (h ++ [d2] ++ [out]). rewrite app_assoc.
  replace (S (length h)) with (length (h ++ [d2])) by (rewrite length_app; simpl; lia).
  apply list_lookup_middle. done.
Qed.

(** ** C4: the Spanish views keep the rows *)

Lemma results_table_input read_float (rows : list record) :
  forallb hashable (column "party" rows) = true ->
  index (results_table read_float rows) = 0%nat
  \/ is_results_table (results_table read_float rows) = true.
Proof.
  intros Hh. destruct rows as [|r rows]; [by left|right].
  unfold is_results_table, aligned, has_column, results_table.
  cbn [index columns forallb snd dict_get String.eqb Ascii.eqb Bool.eqb default].
  unfold id. rewrite Hh, !length_clean_numeric, !column_length, Nat.eqb_refl. reflexivity.
Qed.

Lemma turnout_table_input read_float (rows : list record) :
  index (turnout_table read_float rows) = 0%nat
  \/ is_turnout_table (turnout_table read_float rows) = true.
Proof.
  destruct rows as [|r rows]; [by left|right].
  unfold is_turnout_table, aligned, has_column, turnout_table.
  cbn [index columns forallb snd dict_get String.eqb Ascii.eqb Bool.eqb default].
  rewrite !length_clean_numeric, !column_length, Nat.eqb_refl. reflexivity.
Qed.

Lemma to_es_results_keeps_rows (w : world) (df : ref) (d : DataFrame) :
  heap w !! df = Some d ->
  index d = 0%nat \/ is_results_table d = true ->
  exists out w' d',
    to_es_results df w = (Ok out, w') /\ heap w' !! out = Some d' /\ results_view_of d d'.
Proof.
  intros Hd Hin. unfold results_view_of.
  destruct (is_results_table d) eqn:Ht.
  - destruct (to_es_results_table w df d Hd Ht)
      as (town & office & candidate & party & votes & percent
          & H1 & H2 & H3 & H4 & H5 & H6 & Hrun).
    eexists _, _, _. split; [exact Hrun|]. split; [apply lookup_new_last|].
    split; [reflexivity|]. intros _.
    rewrite (getitem_column _ _ _ H1), (getitem_column _ _ _ H2),
      (getitem_column _ _ _ H3), (getitem_column _ _ _ H4), (getitem_column _ _ _ H5),
      (getitem_column _ _ _ H6).
    repeat (split; [reflexivity|]).
    eexists _, _. split; [reflexivity|]. split; [reflexivity|]. apply length_map.
  - destruct Hin as [Hidx|]; [|done].
    rewrite to_es_results_run. cbv zeta. rewrite (frame_at_lookup _ _ _ Hd).
    unfold empty. rewrite Hidx. cbn [Nat.eqb orb].
    eexists _, _, _. split; [reflexivity|].
    split; [apply list_lookup_middle; reflexivity|].
    split; [by unfold len; rewrite Hidx|done].
Qed.

Lemma to_es_turnout_keeps_rows (w : world) (df : ref) (d : DataFrame) :
  heap w !! df = Some d ->
  index d = 0%nat \/ is_turnout_table d = true ->
  exists out w' d',
    to_es_turnout df w = (Ok out, w') /\ heap w' !! out = Some d' /\ turnout_view_of d d'.
Proof.
  intros Hd Hin. unfold turnout_view_of.
  destruct (is_turnout_table d) eqn:Ht.
  - destruct (to_es_turnout_table w df d Hd Ht)
      as (town & precincts & electors & votes_cast & percent
          & H1 & H2 & H3 & H4 & H5 & Hrun).
    eexists _, _, _. split; [exact Hrun|]. split; [apply lookup_new_last|].
    split; [reflexivity|]. intros _.
    rewrite (getitem_column _ _ _ H1), (getitem_column _ _ _ H2),
      (getitem_column _ _ _ H3), (getitem_column _ _ _ H4), (getitem_column _ _ _ H5).
    repeat (split; [reflexivity|]).
    eexists _, _. split; [reflexivity|]. split; [reflexivity|]. apply length_map.
  - destruct Hin as [Hidx|]; [|done].
    rewrite to_es_turnout_run. cbv zeta. rewrite (frame_at_lookup _ _ _ Hd).
    unfold empty. rewrite Hidx. cbn [Nat.eqb orb].
    eexists _, _, _. split; [reflexivity|].
    split; [apply list_lookup_middle; reflexivity|].
    split; [by unfold len; rewrite Hidx|done].
Qed.

(** C4: for an English results table (no rows, or aligned columns that
    include the six the view reads, with scalar party cells),
    [to_es_results] returns a table with as many rows, whose Ciudad, Cargo,
    Candidato, Votos and Porcentaje columns are the English columns cell
    for cell and whose Partido column has a cell for each party cell; the
    same holds of [to_es_turnout] on an English turnout table.  The tables
    the parsers build are such tables, so their Spanish views have one row
    per candidate-tally entry and one row per town. *)
Theorem localization_keeps_rows :
  (forall (w : world) (df : ref) (d : DataFrame),
     heap w !! df = Some d ->
     index d = 0%nat \/ is_results_table d = true ->
     exists out w' d',
       to_es_results df w = (Ok out, w') /\ heap w' !! out = Some d' /\ results_view_of d d')
  /\ (forall (w : world) (df : ref) (d : DataFrame),
        heap w !! df = Some d ->
        index d = 0%nat \/ is_turnout_table d = true ->
        exists out w' d',
          to_es_turnout df w = (Ok out, w') /\ heap w' !! out = Some d'
          /\ turnout_view_of d d')
  /\ (forall (read_float : string -> option value) (L : LookupDocument)
             (E : ElectionDocument) (w : world) (df : ref),
        forallb hashable (column "party" (map (result_record L) (tallies E))) = true ->
        heap w !! df
        = Some (results_table read_float (map (result_record L) (tallies E))) ->
        exists out w' d',
          to_es_results df w = (Ok out, w')
          /\ heap w' !! out = Some d'
          /\ len d' = length (tallies E))
  /\ (forall (read_float : string -> option value) (E : ElectionDocument)
             (w : world) (df : ref),
        heap w !! df
        = Some (turnout_table read_float (map (turnout_record E) (voterTurnout E))) ->
        exists out w' d',
          to_es_turnout df w = (Ok out, w')
          /\ heap w' !! out = Some d'
          /\ len d' = length (voterTurnout E)).
Proof.
  split; [exact to_es_results_keeps_rows|]. split; [exact to_es_turnout_keeps_rows|]. split.
  - intros read_float L E w df Hhash Hd.
    destruct (to_es_results_keeps_rows w df _ Hd (results_table_input _ _ Hhash))
      as (out & w' & d' & Hrun & Hout & Hlen & _).
    exists out, w', d'. split; [exact Hrun|]. split; [exact Hout|].
    by rewrite Hlen, len_results_table, length_map.
  - intros read_float E w df Hd.
    destruct (to_es_turnout_keeps_rows w df _ Hd (turnout_table_input _ _))
      as (out & w' & d' & Hrun & Hout & Hlen & _).
    exists out, w', d'. split; [exact Hrun|]. split; [exact Hout|].
    by rewrite Hlen, len_turnout_table, length_map.
Qed.

Lemma localization_keeps_rows_witness :
  (exists out w' d',
     to_es_results 0%nat hartford_world = (Ok out, w')
     /\ heap w' !! out = Some d' /\ len d' = 2%nat)
  /\ (exists out w' d',
        to_es_turnout 1%nat hartford_world = (Ok out, w')
        /\ heap w' !! out = Some d' /\ len d' = 2%nat).
Proof.
  destruct localization_keeps_rows as (Hres & Htur & _). split.
  - destruct (Hres hartford_world 0%nat hartford_results eq_refl (or_intror eq_refl))
      as (out & w' & d' & Hrun & Hout & Hlen & _).
    exists out, w', d'. repeat split; assumption.
  - destruct (Htur hartford_world 1%nat hartford_turnout eq_refl (or_intror eq_refl))
      as (out & w' & d' & Hrun & Hout & Hlen & _).
    exists out, w', d'. repeat split; assumption.
Defined.

(** ** C10: the Spanish views change no existing table *)

Lemma to_es_results_extends (df : ref) (w : world) :
  exists fresh, heap (to_es_results df w).2 = heap w ++ fresh.
Proof.
  rewrite to_es_results_run. cbv zeta.
  destruct (empty (frame_at w df)); [by eexists|].
  destruct (translate_party (frame_at w df)) as [d2|e]; [|by eexists].
  destruct (es_results_view d2); by eexists.
Qed.

Lemma to_es_turnout_extends (df : ref) (w : world) :
  exists fresh, heap (to_es_turnout df w).2 = heap w ++ fresh.
Proof.
  rewrite to_es_turnout_run. cbv zeta.
  destruct (empty (frame_at w df)); [by eexists|].
  destruct (localize_precincts (frame_at w df)) as [d2|e]; [|by eexists].
  destruct (es_turnout_view d2); by eexists.
Qed.

(** C10: whatever [to_es_results] and [to_es_turnout] return or raise, the
    store afterwards is the store before followed by new objects: every
    table that existed, the input among them, holds exactly the columns and
    cells it held, the party column of the English results table included;
    the translation and the substitution are written to a copy. *)
Theorem spanish_views_leave_inputs (df : ref) (w : world) :
  (exists fresh, heap (to_es_results df w).2 = heap w ++ fresh)
  /\ (exists fresh, heap (to_es_turnout df w).2 = heap w ++ fresh)
  /\ (forall (r : ref) (d : DataFrame),
        heap w !! r = Some d ->
        heap (to_es_results df w).2 !! r = Some d
        /\ heap (to_es_turnout df w).2 !! r = Some d)
  /\ (forall (d : DataFrame) (party : Series),
        heap w !! df = Some d -> getitem d "party" = Ok party ->
        getitem (frame_at (to_es_results df w).2 df) "party" = Ok party).
Proof.
  assert (forall (r : ref) (d : DataFrame),
            heap w !! r = Some d ->
            heap (to_es_results df w).2 !! r = Some d
            /\ heap (to_es_turnout df w).2 !! r = Some d) as Hsame.
  { intros r d Hr.
    destruct (to_es_results_extends df w) as [f1 ->].
    destruct (to_es_turnout_extends df w) as [f2 ->].
    split; by apply lookup_app_l_Some. }
  split; [apply to_es_results_extends|]. split; [apply to_es_turnout_extends|].
  split; [exact Hsame|].
  intros d party Hd Hp. unfold frame_at.
  by rewrite (proj1 (Hsame df d Hd)).
Qed.

Lemma spanish_views_leave_inputs_witness :
  heap (to_es_results 0%nat hartford_world).2 !! 0%nat = Some hartford_results
  /\ getitem (frame_at (to_es_results 0%nat hartford_world).2 0%nat) "party"
     = Ok [VStr "Democratic Party"; VStr ""].
Proof.
  destruct (spanish_views_leave_inputs 0%nat hartford_world) as (_ & _ & Hsame & Hparty).
  split.
  - apply (Hsame 0%nat hartford_results). reflexivity.
  - apply (Hparty hartford_results); reflexivity.
Defined.

(** ** C5: party names in the Spanish results table *)

(** C5: in the Spanish view of a results table, the Partido cell of a row
    whose party is a key of [PARTY_ES] is the table's value for it, and the
    Partido cell of a row whose party is a string the table lacks is that
    string; the view is returned, nothing is raised.  The party of the
    worked example becomes "Partido Demócrata". *)
Theorem party_names_translated :
  (forall (w : world) (df : ref) (d : DataFrame),
     heap w !! df = Some d -> is_results_table d = true ->
     exists out w' d' party partido,
       to_es_results df w = (Ok out, w')
       /\ heap w' !! out = Some d'
       /\ getitem d "party" = Ok party
       /\ getitem d' "Partido" = Ok partido
       /\ forall (i : nat) (s : string),
            party !! i = Some (VStr s) ->
            (forall es, dict_get s PARTY_ES = Some es -> partido !! i = Some (VStr es))
            /\ (dict_get s PARTY_ES = None -> partido !! i = Some (VStr s)))
  /\ (exists out w' d',
        to_es_results 0%nat hartford_world = (Ok out, w')
        /\ heap w' !! out = Some d'
        /\ getitem d' "Partido" = Ok [VStr "Partido Demócrata"; VStr ""]).
Proof.
  split.
  - intros w df d Hd Ht.
    destruct (to_es_results_table w df d Hd Ht)
      as (town & office & candidate & party & votes & percent
          & H1 & H2 & H3 & H4 & H5 & H6 & Hrun).
    eexists _, _, _, party, _. split; [exact Hrun|]. split; [apply lookup_new_last|].
    split; [by apply getitem_column|]. split; [reflexivity|].
    intros i s Hi. split.
    + intros es Hes. rewrite list_lookup_fmap, Hi.
      cbn [fmap option_fmap option_map party_name_es]. by rewrite Hes.
    + intros Hes. rewrite list_lookup_fmap, Hi.
      cbn [fmap option_fmap option_map party_name_es]. by rewrite Hes.
  - eexists _, _, _. split; [vm_compute; reflexivity|]. split; reflexivity.
Qed.

Lemma party_names_translated_witness :
  exists out w' d' partido,
    to_es_results 0%nat hartford_world = (Ok out, w')
    /\ heap w' !! out = Some d'
    /\ getitem d' "Partido" = Ok partido
    /\ partido !! 0%nat = Some (VStr "Partido Demócrata")
    /\ partido !! 1%nat = Some (VStr "").
Proof.
  destruct (proj1 party_names_translated hartford_world 0%nat hartford_results
              eq_refl eq_refl)
    as (out & w' & d' & party & partido & Hrun & Hout & Hparty & Hpartido & Hcells).
  exists out, w', d', partido.
  split; [exact Hrun|]. split; [exact Hout|]. split; [exact Hpartido|].
  injection Hparty as <-.
  split.
  - apply (proj1 (Hcells 0%nat "Democratic Party" eq_refl)). reflexivity.
  - apply (proj2 (Hcells 1%nat "" eq_refl)). reflexivity.
Defined.

(** ** Substitution in strings *)

Lemma prefix_nil (s : string) : String.prefix "" s = true.
Proof. by destruct s. Qed.

Lemma prefix_split (p s : string) :
  String.prefix p s = true -> exists b, s = p +:+ b.
Proof.
  revert s. induction p as [|a p IH]; intros s H; [by exists s|].
  destruct s as [|c s]; [done|]. simpl in H.
  destruct (ascii_dec a c) as [->|]; [|done].
  destruct (IH s H) as [b ->]. by exists b.
Qed.

Lemma append_cons (c : ascii) (a b : string) : String c a +:+ b = String c (a +:+ b).
Proof. reflexivity. Qed.

Lemma append_nil (b : string) : "" +:+ b = b.
Proof. reflexivity. Qed.

Lemma prefix_app (p b : string) : String.prefix p (p +:+ b) = true.
Proof.
  induction p as [|a p IH]; [apply prefix_nil|].
  rewrite append_cons. simpl. by destruct (ascii_dec a a).
Qed.

Lemma prefix_app_l (p x y : string) :
  (String.length p <= String.length x)%nat ->
  String.prefix p (x +:+ y) = true -> String.prefix p x = true.
Proof.
  revert x. induction p as [|a p IH]; intros x Hlen H; [apply prefix_nil|].
  destruct x as [|c x]; simpl in Hlen; [lia|].
  rewrite append_cons in H. simpl in H |- *.
  destruct (ascii_dec a c); [|done]. apply IH; [lia|done].
Qed.

Lemma length_append (a b : string) :
  String.length (a +:+ b) = (String.length a + String.length b)%nat.
Proof.
  induction a as [|c a IH]; [done|].
  rewrite append_cons. simpl. by rewrite IH.
Qed.

Lemma append_assoc (a b c : string) : (a +:+ b) +:+ c = a +:+ b +:+ c.
Proof.
  induction a as [|x a IH]; [done|].
  rewrite !append_cons. by rewrite IH.
Qed.

Lemma replace_from_skip (old new x b : string) :
  replace_from old new (String.length x) (x +:+ b) = replace_from old new O b.
Proof. induction x as [|c x IH]; [reflexivity|]. rewrite append_cons. simpl. exact IH. Qed.

(** A string in which the pattern does not occur is left as it is. *)
Lemma str_replace_absent (old new s : string) :
  old <> "" -> ~ occurs old s -> str_replace old new s = s.
Proof.
  intros Hold Hs. unfold str_replace. destruct old as [|o old]; [done|].
  induction s as [|c s IH]; [reflexivity|].
  cbn [replace_from].
  destruct (String.prefix (String o old) (String c s)) eqn:Hp.
  - exfalso. apply Hs. apply prefix_split in Hp as [b Hb].
    exists "", b. exact Hb.
  - f_equal. apply IH. intros (a & b & ->). apply Hs.
    by exists (String c a), b.
Qed.

(** The leftmost match is replaced and the scan resumes after it. *)
Lemma str_replace_first (old new a b : string) :
  old <> "" ->
  (forall a1 a2, a +:+ old = a1 +:+ old +:+ a2 -> a2 = "") ->
  str_replace old new (a +:+ old +:+ b) = a +:+ new +:+ str_replace old new b.
Proof.
  intros Hold. unfold str_replace. destruct old as [|o old]; [done|].
  induction a as [|c a IH]; intros Hfirst.
  - rewrite !append_nil, append_cons. cbn [replace_from].
    rewrite <- append_cons, (prefix_app (String o old) b).
    cbn [String.length Nat.pred]. by rewrite replace_from_skip.
  - rewrite !(append_cons c). cbn [replace_from].
    destruct (String.prefix (String o old) (String c (a +:+ String o old +:+ b))) eqn:Hp.
    + exfalso.
      rewrite <- append_cons, <- append_assoc in Hp.
      apply prefix_app_l in Hp; [|rewrite length_append; lia].
      apply prefix_split in Hp as [rest Hrest].
      assert (rest = "") as ->.
      { apply (Hfirst "" rest). exact Hrest. }
      apply (f_equal String.length) in Hrest.
      rewrite !length_append in Hrest. simpl in Hrest. lia.
    + f_equal. apply IH. intros a1 a2 Heq.
      apply (Hfirst (String c a1) a2). rewrite !(append_cons c). by rewrite Heq.
Qed.

(** ** C6: the precincts-reported text in Spanish *)

(** Matches do not overlap: in "3 of of 5" the four characters from index 4
    are " of " again, but their first space belongs to the match that was
    just replaced, and the scan resumes after it, as [str.replace] does. *)
Lemma to_es_turnout_skips_overlap :
  exists out w' d',
    to_es_turnout 0%nat (World [overlapping_turnout] [] None []) = (Ok out, w')
    /\ heap w' !! out = Some d'
    /\ getitem overlapping_turnout "precincts_reported" = Ok [VStr "3 of of 5"]
    /\ getitem d' "Precintos reportados" = Ok [VStr "3 de of 5"]
    /\ substring 4 4 "3 of of 5" = " of "
    /\ substring 4 4 "3 de of 5" <> " de ".
Proof.
  eexists _, _, _. split; [vm_compute; reflexivity|].
  repeat split; [reflexivity..|]. vm_compute. discriminate.
Qed.

(** C6: the Spanish view of a turnout table holds, for a precincts-reported
    string, that string with every " of " replaced by " de " (the matches of
    [str.replace], found from the left) and nothing else changed: a string in
    which " of " does not occur is unchanged, the first occurrence is
    replaced and what follows it is treated the same way; "3 of 5" becomes
    exactly "3 de 5", "12 of 20" becomes "12 de 20", "reported" stays. *)
Theorem precincts_localized :
  (forall (w : world) (df : ref) (d : DataFrame),
     heap w !! df = Some d -> is_turnout_table d = true ->
     exists out w' d' precincts precintos,
       to_es_turnout df w = (Ok out, w')
       /\ heap w' !! out = Some d'
       /\ getitem d "precincts_reported" = Ok precincts
       /\ getitem d' "Precintos reportados" = Ok precintos
       /\ forall (i : nat) (s : string),
            precincts !! i = Some (VStr s) ->
            precintos !! i = Some (VStr (str_replace " of " " de " s)))
  /\ (forall s : string, ~ occurs " of " s -> str_replace " of " " de " s = s)
  /\ (forall a b : string,
        (forall a1 a2, a +:+ " of " = a1 +:+ " of " +:+ a2 -> a2 = "") ->
        str_replace " of " " de " (a +:+ " of " +:+ b)
        = a +:+ " de " +:+ str_replace " of " " de " b)
  /\ str_replace " of " " de " "3 of 5" = "3 de 5"
  /\ str_replace " of " " de " "12 of 20" = "12 de 20"
  /\ str_replace " of " " de " "reported" = "reported".
Proof.
  split; [|split; [|split; [|by vm_compute]]].
  - intros w df d Hd Ht.
    destruct (to_es_turnout_table w df d Hd Ht)
      as (town & precincts & electors & votes_cast & percent
          & H1 & H2 & H3 & H4 & H5 & Hrun).
    eexists _, _, _, precincts, _. split; [exact Hrun|]. split; [apply lookup_new_last|].
    split; [by apply getitem_column|]. split; [reflexivity|].
    intros i s Hi. by rewrite list_lookup_fmap, Hi.
  - intros s Hs. by apply str_replace_absent.
  - intros a b Hfirst. by apply str_replace_first.
Qed.

Lemma precincts_localized_witness :
  (exists out w' d' precintos,
     to_es_turnout 1%nat hartford_world = (Ok out, w')
     /\ heap w' !! out = Some d'
     /\ getitem d' "Precintos reportados" = Ok precintos
     /\ precintos !! 0%nat = Some (VStr "3 de 5"))
  /\ str_replace " of " " de " ("" +:+ " of " +:+ "5 of 7") = "" +:+ " de " +:+ "5 de 7".
Proof.
  destruct precincts_localized as (Hview & _ & Hfirst & _). split.
  - destruct (Hview hartford_world 1%nat hartford_turnout eq_refl eq_refl)
      as (out & w' & d' & precincts & precintos & Hrun & Hout & Hpre & Hes & Hcells).
    exists out, w', d', precintos.
    split; [exact Hrun|]. split; [exact Hout|]. split; [exact Hes|].
    injection Hpre as <-. apply (Hcells 0%nat "3 of 5"). reflexivity.
  - apply (Hfirst "" "5 of 7").
    intros a1 a2 Heq. apply (f_equal String.length) in Heq.
    rewrite !length_append in Heq. simpl in Heq.
    destruct a2; [reflexivity|]. simpl in Heq. lia.
Defined.

(** ** The fetcher, run against a server *)

Section Fetch.

Variable http : nat -> string -> response.

Lemma get_json_run (url : string) (w : world) :
  get_json http url w = (get_json_result http (length (requests w)) url, add_requests [url] w).
Proof. unfold get_json, get_json_result. by destruct (http _ url). Qed.

Lemma get_json_after (url : string) (w : world) (urls : list string) :
  get_json http url (add_requests urls w)
  = (get_json_result http (length (requests w) + length urls) url,
     add_requests (urls ++ [url]) w).
Proof.
  rewrite get_json_run. unfold add_requests. cbn [heap requests workbook stdout].
  by rewrite length_app, app_assoc.
Qed.

(** [fetch_lookup_election] in one equation, on every path. *)
Lemma fetch_lookup_election_run (eid : Z) (w : world) :
  fetch_lookup_election http eid w =
  let n := length (requests w) in
  match get_json_result http n (version_url eid) with
  | Raise e => (Raise (fetch_error eid e), add_requests [version_url eid] w)
  | Ok vdoc =>
      match py_get vdoc "Version" VNone with
      | Raise e => (Raise (fetch_error eid e), add_requests [version_url eid] w)
      | Ok ver =>
          match get_json_result http (n + 1) (lookup_url eid) with
          | Raise e =>
              if is_HTTPError e
              then versioned_retry http eid ver (n + 2) [version_url eid; lookup_url eid] w
              else (Raise (fetch_error eid e),
                    add_requests [version_url eid; lookup_url eid] w)
          | Ok lookup =>
              match get_json_result http (n + 2) (election_url eid) with
              | Raise e =>
                  if is_HTTPError e
                  then versioned_retry http eid ver (n + 3)
                         [version_url eid; lookup_url eid; election_url eid] w
                  else (Raise (fetch_error eid e),
                        add_requests [version_url eid; lookup_url eid; election_url eid] w)
              | Ok election =>
                  (Ok (lookup, election, ver),
                   add_requests [version_url eid; lookup_url eid; election_url eid] w)
              end
          end
      end
  end.
Proof.
  cbv zeta. unfold fetch_lookup_election, try_except, is_Exception.
  fold (version_url eid) (lookup_url eid) (election_url eid).
  mstep. rewrite get_json_run.
  destruct (get_json_result http (length (requests w)) (version_url eid)) as [vdoc|e];
    [|reflexivity].
  mstep. cbn [lift].
  destruct (py_get vdoc "Version" VNone) as [ver|e]; [|reflexivity].
  fold (versioned_lookup_url eid ver) (versioned_election_url eid ver).
  mstep. rewrite (get_json_after _ w [version_url eid]). cbn [length].
  destruct (get_json_result http (length (requests w) + 1) (lookup_url eid)) as [lookup|e].
  - mstep. rewrite (get_json_after _ w [version_url eid; lookup_url eid]). cbn [length app].
    destruct (get_json_result http (length (requests w) + 2) (election_url eid)) as [election|e];
      [reflexivity|].
    destruct (is_HTTPError e); [|reflexivity].
    unfold versioned_retry.
    mstep. rewrite (get_json_after _ w [version_url eid; lookup_url eid; election_url eid]).
    cbn [length app].
    destruct (get_json_result http (length (requests w) + 3) (versioned_lookup_url eid ver));
      [|reflexivity].
    mstep.
    rewrite (get_json_after _ w [version_url eid; lookup_url eid; election_url eid;
                                 versioned_lookup_url eid ver]).
    cbn [length app].
    replace (length (requests w) + 4)%nat with (S (length (requests w) + 3)) by lia.
    by destruct (get_json_result http (S (length (requests w) + 3))
                   (versioned_election_url eid ver)).
  - destruct (is_HTTPError e); [|reflexivity].
    unfold versioned_retry.
    mstep. rewrite (get_json_after _ w [version_url eid; lookup_url eid]).
    cbn [length app].
    destruct (get_json_result http (length (requests w) + 2) (versioned_lookup_url eid ver));
      [|reflexivity].
    mstep.
    rewrite (get_json_after _ w [version_url eid; lookup_url eid;
                                 versioned_lookup_url eid ver]).
    cbn [length app].
    replace (length (requests w) + 3)%nat with (S (length (requests w) + 2)) by lia.
    by destruct (get_json_result http (S (length (requests w) + 2))
                   (versioned_election_url eid ver)).
Qed.

End Fetch.

(** ** C7: the fallback to the version-qualified path *)

Lemma get_json_document http (n : nat) (url : string) (doc : value) :
  document (http n url) = Some doc -> get_json_result http n url = Ok doc.
Proof.
  unfold document, get_json_result, raise_for_status.
  destruct (http n url) as [msg|status reason [msg|d]]; try done.
  destruct ((400 <=? status) && (status <? 600)) eqn:Hs; [done|].
  intros [= ->].
  destruct ((400 <=? status) && (status <? 500)) eqn:H4; [lia|].
  destruct ((500 <=? status) && (status <? 600)) eqn:H5; [lia|]. reflexivity.
Qed.

Lemma get_json_http_failure http (n : nat) (url : string) :
  http_failure (http n url) = true ->
  exists msg, get_json_result http n url = Raise (Exn HTTPError msg).
Proof.
  unfold http_failure, get_json_result, raise_for_status.
  destruct (http n url) as [msg|status reason body]; [done|]. intros Hs.
  destruct ((400 <=? status) && (status <? 500)) eqn:H4; [by eexists|].
  destruct ((500 <=? status) && (status <? 600)) eqn:H5; [by eexists|]. lia.
Qed.

(** C7: when the version marker is fetched and the request for [Lookup.json]
    or, after it, the one for [Election.json] is answered with an HTTP error
    status, [fetch_lookup_election] requests [Lookupdata.json] and
    [Electiondata.json] under the path that embeds the marker's version,
    and returns those two documents with the version when both are valid. *)
Theorem fetch_falls_back_to_versioned_path http (eid : Z) (w : world) (vdoc : record)
    (lookup election : value) :
  let n := length (requests w) in
  let ver := default VNone (dict_get "Version" vdoc) in
  document (http n (version_url eid)) = Some (VDict vdoc) ->
  (http_failure (http (n + 1)%nat (lookup_url eid)) = true ->
   document (http (n + 2)%nat (versioned_lookup_url eid ver)) = Some lookup ->
   document (http (n + 3)%nat (versioned_election_url eid ver)) = Some election ->
   fetch_lookup_election http eid w
   = (Ok (lookup, election, ver),
      add_requests [version_url eid; lookup_url eid;
                    versioned_lookup_url eid ver; versioned_election_url eid ver] w))
  /\ (forall unversioned : value,
        document (http (n + 1)%nat (lookup_url eid)) = Some unversioned ->
        http_failure (http (n + 2)%nat (election_url eid)) = true ->
        document (http (n + 3)%nat (versioned_lookup_url eid ver)) = Some lookup ->
        document (http (n + 4)%nat (versioned_election_url eid ver)) = Some election ->
        fetch_lookup_election http eid w
        = (Ok (lookup, election, ver),
           add_requests [version_url eid; lookup_url eid; election_url eid;
                         versioned_lookup_url eid ver; versioned_election_url eid ver] w)).
Proof.
  intros n ver Hv. subst n. split.
  - intros Hfail Hl He. rewrite fetch_lookup_election_run. cbv zeta.
    rewrite (get_json_document _ _ _ _ Hv). cbn [py_get]. fold ver.
    destruct (get_json_http_failure _ _ _ Hfail) as [msg ->].
    cbn [is_HTTPError exn_kind]. unfold versioned_retry.
    rewrite (get_json_document _ _ _ _ Hl).
    replace (S (length (requests w) + 2)) with (length (requests w) + 3)%nat by lia.
    by rewrite (get_json_document _ _ _ _ He).
  - intros unversioned Hu Hfail Hl He. rewrite fetch_lookup_election_run. cbv zeta.
    rewrite (get_json_document _ _ _ _ Hv). cbn [py_get]. fold ver.
    rewrite (get_json_document _ _ _ _ Hu).
    destruct (get_json_http_failure _ _ _ Hfail) as [msg ->].
    cbn [is_HTTPError exn_kind]. unfold versioned_retry.
    rewrite (get_json_document _ _ _ _ Hl).
    replace (S (length (requests w) + 3)) with (length (requests w) + 4)%nat by lia.
    by rewrite (get_json_document _ _ _ _ He).
Qed.

Lemma fetch_falls_back_to_versioned_path_witness :
  fetch_lookup_election finalized_server 97 new_world
  = (Ok (lookup_json hartford_lookup, election_json hartford_election, VStr "v7"),
     add_requests
       ["https://ctemsmedia.tgstg.net/ng-app/data/election/97/Version.json";
        "https://ctemsmedia.tgstg.net/ng-app/data/election/97/Lookup.json";
        "https://ctemsmedia.tgstg.net/ng-app/data/election/97/v7/Lookupdata.json";
        "https://ctemsmedia.tgstg.net/ng-app/data/election/97/v7/Electiondata.json"]
       new_world).
Proof.
  apply (proj1 (fetch_falls_back_to_versioned_path finalized_server 97 new_world
                  [("Version", VStr "v7")] (lookup_json hartford_lookup)
                  (election_json hartford_election) eq_refl));
    reflexivity.
Defined.

(** ** C8: a failed fetch is fatal *)

Lemma fetch_outcome http (eid : Z) (w : world) :
  (exists docs urls, fetch_lookup_election http eid w = (Ok docs, add_requests urls w))
  \/ (exists cause urls,
        fetch_lookup_election http eid w = (Raise (fetch_error eid cause), add_requests urls w)).
Proof.
  rewrite fetch_lookup_election_run. cbv zeta. unfold versioned_retry.
  repeat match goal with
         | |- context [match ?x with _ => _ end] => destruct x
         end; eauto.
Qed.

Lemma main_aborts read_float http utcnow service_account (w w' : world) (e : exn) :
  fetch_lookup_election http ELECTION_ID w = (Raise e, w') ->
  main read_float http utcnow service_account w = (Raise e, w').
Proof. intros H. unfold main. mstep. by rewrite H. Qed.

(** C8: [fetch_lookup_election] either returns the documents or raises one
    [RuntimeError] whose message is "Could not fetch election", the election
    identifier and the message of the cause.  It raises it at every point
    where a request fails, the fallback case apart: when the request for the
    version marker fails in any way (no response, an error status, a body
    that does not decode) or the marker is no mapping; when the request for
    [Lookup.json] or, after it, the one for [Election.json] fails otherwise
    than with an HTTP error status; and, once one of the two failed with an
    HTTP error status, when the request for the versioned lookup document or
    the one for the versioned election document fails in any way.  When it
    raises, [main] raises the same error at once: no table has been built,
    no worksheet has been written, nothing has been printed. *)
Theorem fetch_failure_is_fatal http (eid : Z) (w : world) :
  let n := length (requests w) in
  ((exists docs urls, fetch_lookup_election http eid w = (Ok docs, add_requests urls w))
   \/ (exists cause urls,
         fetch_lookup_election http eid w
         = (Raise (Exn RuntimeError
                     ("Could not fetch election " +:+ str_of_Z eid +:+ ": "
                        +:+ exn_msg cause)),
            add_requests urls w)))
  /\ (forall msg : string,
        http n (version_url eid) = NoResponse msg ->
        fetch_lookup_election http eid w
        = (Raise (Exn RuntimeError
                    ("Could not fetch election " +:+ str_of_Z eid +:+ ": " +:+ msg)),
           add_requests [version_url eid] w))
  /\ (http_failure (http n (version_url eid)) = true ->
      exists msg,
        fetch_lookup_election http eid w
        = (Raise (Exn RuntimeError
                    ("Could not fetch election " +:+ str_of_Z eid +:+ ": " +:+ msg)),
           add_requests [version_url eid] w))
  /\ (forall (vdoc : record) (status : Z) (reason msg : string),
        document (http n (version_url eid)) = Some (VDict vdoc) ->
        http (n + 1)%nat (lookup_url eid) = Response status reason (inl msg) ->
        http_failure (http (n + 1)%nat (lookup_url eid)) = false ->
        fetch_lookup_election http eid w
        = (Raise (Exn RuntimeError
                    ("Could not fetch election " +:+ str_of_Z eid +:+ ": " +:+ msg)),
           add_requests [version_url eid; lookup_url eid] w))
  /\ (forall (vdoc : record) (cause : exn),
        document (http n (version_url eid)) = Some (VDict vdoc) ->
        http_failure (http (n + 1)%nat (lookup_url eid)) = true ->
        get_json_result http (n + 2)%nat
          (versioned_lookup_url eid (default VNone (dict_get "Version" vdoc)))
        = Raise cause ->
        fetch_lookup_election http eid w
        = (Raise (Exn RuntimeError
                    ("Could not fetch election " +:+ str_of_Z eid +:+ ": "
                       +:+ exn_msg cause)),
           add_requests [version_url eid; lookup_url eid;
                         versioned_lookup_url eid
                           (default VNone (dict_get "Version" vdoc))] w))
  /\ (forall (read_float : string -> option value) (utcnow : string)
             (service_account : bool) (e : exn) (w' : world),
        fetch_lookup_election http ELECTION_ID w = (Raise e, w') ->
        main read_float http utcnow service_account w = (Raise e, w')
        /\ heap w' = heap w /\ workbook w' = workbook w /\ stdout w' = stdout w)
  /\ (forall cause : exn,
        get_json_result http n (version_url eid) = Raise cause ->
        fetch_lookup_election http eid w
        = (Raise (fetch_error eid cause), add_requests [version_url eid] w))
  /\ (forall marker : value,
        get_json_result http n (version_url eid) = Ok marker ->
        isinstance_dict marker = false ->
        exists cause,
          exn_kind cause = AttributeError
          /\ fetch_lookup_election http eid w
             = (Raise (fetch_error eid cause), add_requests [version_url eid] w))
  /\ (forall vdoc : record,
        get_json_result http n (version_url eid) = Ok (VDict vdoc) ->
        let ver := default VNone (dict_get "Version" vdoc) in
        (forall cause : exn,
           get_json_result http (n + 1)%nat (lookup_url eid) = Raise cause ->
           is_HTTPError cause = false ->
           fetch_lookup_election http eid w
           = (Raise (fetch_error eid cause),
              add_requests [version_url eid; lookup_url eid] w))
        /\ (forall (lookup : value) (cause : exn),
              get_json_result http (n + 1)%nat (lookup_url eid) = Ok lookup ->
              get_json_result http (n + 2)%nat (election_url eid) = Raise cause ->
              is_HTTPError cause = false ->
              fetch_lookup_election http eid w
              = (Raise (fetch_error eid cause),
                 add_requests [version_url eid; lookup_url eid; election_url eid] w))
        /\ (forall (k : nat) (done_ : list string),
              ((exists e, get_json_result http (n + 1)%nat (lookup_url eid) = Raise e
                          /\ is_HTTPError e = true)
               /\ k = (n + 2)%nat /\ done_ = [version_url eid; lookup_url eid])
              \/ ((exists lookup e,
                     get_json_result http (n + 1)%nat (lookup_url eid) = Ok lookup
                     /\ get_json_result http (n + 2)%nat (election_url eid) = Raise e
                     /\ is_HTTPError e = true)
                  /\ k = (n + 3)%nat
                  /\ done_ = [version_url eid; lookup_url eid; election_url eid]) ->
              (forall cause : exn,
                 get_json_result http k (versioned_lookup_url eid ver) = Raise cause ->
                 fetch_lookup_election http eid w
                 = (Raise (fetch_error eid cause),
                    add_requests (done_ ++ [versioned_lookup_url eid ver]) w))
              /\ (forall (lookup : value) (cause : exn),
                    get_json_result http k (versioned_lookup_url eid ver) = Ok lookup ->
                    get_json_result http (S k) (versioned_election_url eid ver)
                    = Raise cause ->
                    fetch_lookup_election http eid w
                    = (Raise (fetch_error eid cause),
                       add_requests (done_ ++ [versioned_lookup_url eid ver;
                                               versioned_election_url eid ver]) w)))).
Proof.
  intros n. subst n. split; [apply fetch_outcome|].
  split; [|split; [|split; [|split; [|split; [|split; [|split]]]]]].
  - intros msg Hv. rewrite fetch_lookup_election_run. cbv zeta.
    unfold get_json_result. by rewrite Hv.
  - intros Hfail. destruct (get_json_http_failure _ _ _ Hfail) as [msg Hmsg].
    exists msg. rewrite fetch_lookup_election_run. cbv zeta. by rewrite Hmsg.
  - intros vdoc status reason msg Hv Hl Hok.
    rewrite fetch_lookup_election_run. cbv zeta.
    rewrite (get_json_document _ _ _ _ Hv). cbn [py_get].
    assert (get_json_result http (length (requests w) + 1) (lookup_url eid)
            = Raise (Exn JSONDecodeError msg)) as ->; [|reflexivity].
    unfold get_json_result, raise_for_status. rewrite Hl.
    rewrite Hl in Hok. cbn [http_failure] in Hok.
    destruct ((400 <=? status) && (status <? 500)) eqn:H4; [lia|].
    destruct ((500 <=? status) && (status <? 600)) eqn:H5; [lia|]. reflexivity.
  - intros vdoc cause Hv Hfail Hretry.
    rewrite fetch_lookup_election_run. cbv zeta.
    rewrite (get_json_document _ _ _ _ Hv). cbn [py_get].
    destruct (get_json_http_failure _ _ _ Hfail) as [msg ->].
    cbn [is_HTTPError exn_kind]. unfold versioned_retry. by rewrite Hretry.
  - intros read_float utcnow service_account e w' Hfetch.
    split; [by apply main_aborts|].
    destruct (fetch_outcome http ELECTION_ID w) as [(docs & urls & H)|(cause & urls & H)];
      rewrite H in Hfetch; [discriminate|].
    injection Hfetch as _ <-. done.
  - intros cause Hv. rewrite fetch_lookup_election_run. cbv zeta. by rewrite Hv.
  - intros marker Hv Hm. rewrite fetch_lookup_election_run. cbv zeta. rewrite Hv.
    destruct marker; try discriminate Hm; cbn [py_get no_attribute];
      (eexists; split; [|reflexivity]; reflexivity).
  - intros vdoc Hv ver. split; [|split].
    + intros cause Hl Hk. rewrite fetch_lookup_election_run. cbv zeta.
      rewrite Hv. cbn [py_get]. by rewrite Hl, Hk.
    + intros lookup cause Hl He Hk. rewrite fetch_lookup_election_run. cbv zeta.
      rewrite Hv. cbn [py_get]. by rewrite Hl, He, Hk.
    + intros k done_ Hretry.
      assert (fetch_lookup_election http eid w = versioned_retry http eid ver k done_ w)
        as ->.
      { rewrite fetch_lookup_election_run. cbv zeta. rewrite Hv. cbn [py_get]. fold ver.
        destruct Hretry as [((e & Hl & Hk) & -> & ->)|((lookup & e & Hl & He & Hk) & -> & ->)].
        - by rewrite Hl, Hk.
        - by rewrite Hl, He, Hk. }
      unfold versioned_retry. split.
      * intros cause Hvl. by rewrite Hvl.
      * intros lookup cause Hvl Hve. by rewrite Hvl, Hve.
Qed.

Lemma fetch_failure_is_fatal_witness :
  main (fun _ => None) unreachable_server "2025-11-04T21:00:00+00:00" true new_world
  = (Raise (Exn RuntimeError
              "Could not fetch election 97: HTTPSConnectionPool(host='ctemsmedia.tgstg.net', port=443): Max retries exceeded"),
     add_requests ["https://ctemsmedia.tgstg.net/ng-app/data/election/97/Version.json"]
       new_world)
  /\ main (fun _ => None) truncated_election_server "2025-11-04T21:00:00+00:00" true new_world
     = (Raise (Exn RuntimeError
                 "Could not fetch election 97: Unterminated string starting at: line 1 column 17 (char 16)"),
        add_requests ["https://ctemsmedia.tgstg.net/ng-app/data/election/97/Version.json";
                      "https://ctemsmedia.tgstg.net/ng-app/data/election/97/Lookup.json";
                      "https://ctemsmedia.tgstg.net/ng-app/data/election/97/Election.json"]
          new_world).
Proof.
  split.
  - destruct (fetch_failure_is_fatal unreachable_server ELECTION_ID new_world)
      as (_ & Hnet & _ & _ & _ & Hmain & _).
    apply Hmain. apply Hnet. reflexivity.
  - destruct (fetch_failure_is_fatal truncated_election_server ELECTION_ID new_world)
      as (_ & _ & _ & _ & _ & Hmain & _ & _ & Hpoints).
    apply Hmain.
    destruct (Hpoints [("Version", VStr "v7")] eq_refl) as (_ & Helection & _).
    apply (Helection (lookup_json hartford_lookup)
             (Exn JSONDecodeError
                "Unterminated string starting at: line 1 column 17 (char 16)"));
      reflexivity.
Defined.

(** ** Binds and loops, inverted *)

Lemma bind_Ok {A B} (m : result A) (k : A -> result B) (b : B) :
  m ≫= k = Ok b -> exists a, m = Ok a /\ k a = Ok b.
Proof. destruct m as [a|e]; unfold mbind, result_bind; [intros H; exists a; by split|done]. Qed.

Lemma bind_Raise {A B} (m : result A) (k : A -> result B) (e : exn) :
  m ≫= k = Raise e -> m = Raise e \/ exists a, m = Ok a /\ k a = Raise e.
Proof.
  destruct m as [a|e']; unfold mbind, result_bind; intros H; [right; exists a; by split|left; by injection H as ->].
Qed.

Lemma for_each_inv {A S} (P : S -> Prop) (l : list A) (body : A -> S -> result S) (s s' : S) :
  P s ->
  (forall x t t', P t -> body x t = Ok t' -> P t') ->
  for_each l body s = Ok s' -> P s'.
Proof.
  intros Hs Hbody. revert s Hs. induction l as [|x l IH]; intros s Hs H; simpl in H.
  - by injection H as <-.
  - apply bind_Ok in H as (t & Ht & H). eapply IH; [|exact H]. by eapply Hbody.
Qed.

Lemma for_each_raises {A S} (Q : exn -> Prop) (l : list A) (body : A -> S -> result S)
    (s : S) (e : exn) :
  (forall x t e', body x t = Raise e' -> Q e') ->
  for_each l body s = Raise e -> Q e.
Proof.
  intros Hbody. revert s. induction l as [|x l IH]; intros s H; simpl in H; [done|].
  apply bind_Raise in H as [H|(t & Ht & H)]; [by eapply Hbody|by eapply IH].
Qed.

Lemma py_get_raises (obj : value) (k : string) (dflt : value) (e : exn) :
  py_get obj k dflt = Raise e -> exn_kind e = AttributeError.
Proof. destruct obj; simpl; try done; by intros [= <-]. Qed.

Lemma py_items_raises (obj : value) (e : exn) :
  py_items obj = Raise e -> exn_kind e = AttributeError.
Proof. destruct obj; simpl; try done; by intros [= <-]. Qed.

Lemma py_iter_raises (obj : value) (e : exn) :
  py_iter obj = Raise e -> exn_kind e = TypeError.
Proof. destruct obj; simpl; try done; by intros [= <-]. Qed.

Lemma get_method_raises (obj : value) (e : exn) :
  get_method obj = Raise e -> exn_kind e = AttributeError.
Proof. destruct obj; simpl; try done; by intros [= <-]. Qed.

(** ** The parsers on arbitrary documents *)

Ltac class_of H :=
  first [apply py_get_raises in H | apply py_items_raises in H
        | apply py_iter_raises in H | apply get_method_raises in H];
  unfold raises_one_of; rewrite H; simpl; tauto.

Ltac raise_chain H :=
  repeat (apply bind_Raise in H as [H|(? & _ & H)]; [class_of H|]);
  try discriminate H.

Ltac ok_chain H :=
  repeat (apply bind_Ok in H as (? & _ & H)).

Lemma build_office_map_raises (lst : value) (e : exn) :
  build_office_map lst = Raise e -> raises_one_of [AttributeError; TypeError] e.
Proof.
  unfold build_office_map. intros H.
  apply bind_Raise in H as [H|(items & _ & H)]; [class_of H|].
  eapply for_each_raises; [|exact H]. clear. intros item out e H. cbv beta in H.
  destruct (negb (isinstance_dict item)); [discriminate H|].
  apply bind_Raise in H as [H|(kvs & _ & H)]; [class_of H|].
  eapply for_each_raises; [|exact H]. clear. intros [k v] out e H.
  raise_chain H.
Qed.

(** Either an error of the two classes, or the results table of rows that
    all carry the nine labels. *)
Lemma parse_results_stages read_float (lookup election : value) :
  (exists e, parse_results read_float lookup election = Raise e
             /\ raises_one_of [AttributeError; TypeError] e)
  \/ (exists rows, uniform result_labels rows
                   /\ parse_results read_float lookup election
                      = Ok (results_table read_float rows)).
Proof.
  unfold parse_results.
  destruct (py_get lookup "townIds" (VDict [])) as [towns|e] eqn:H1;
    [|left; eexists; split; [reflexivity|class_of H1]].
  destruct (py_get lookup "partyIds" (VDict [])) as [parties|e] eqn:H2;
    [|left; eexists; split; [reflexivity|class_of H2]].
  destruct (py_get lookup "candidateIds" (VDict [])) as [candidates|e] eqn:H3;
    [|left; eexists; split; [reflexivity|class_of H3]].
  destruct (py_get lookup "officeList" (VList [])) as [office_list|e] eqn:H4;
    [|left; eexists; split; [reflexivity|class_of H4]].
  cbn [mbind result_bind].
  destruct (build_office_map office_list) as [offices|e] eqn:H5;
    [|left; eexists; split; [reflexivity|by eapply build_office_map_raises]].
  destruct (py_get election "townVotes" (VDict [])) as [town_votes|e] eqn:H6;
    [|left; eexists; split; [reflexivity|class_of H6]].
  cbn [mbind result_bind].
  destruct (py_items town_votes) as [tv|e] eqn:H7;
    [|left; eexists; split; [reflexivity|class_of H7]].
  cbn [mbind result_bind].
  match goal with
  | |- context [mbind _ (for_each tv ?body [])] =>
      destruct (for_each tv body []) as [rows|e] eqn:Hloop
  end.
  - right. exists rows. cbn [mbind result_bind].
    assert (uniform result_labels rows) as Hu.
    { eapply (for_each_inv (uniform result_labels)); [constructor| |exact Hloop].
      clear. intros [tid contests] t t' Ht H.
      apply bind_Ok in H as (cs & _ & H).
      eapply (for_each_inv (uniform result_labels)); [exact Ht| |exact H].
      clear. intros [oid cands] t t' Ht H.
      apply bind_Ok in H as (es & _ & H).
      eapply (for_each_inv (uniform result_labels)); [exact Ht| |exact H].
      clear. intros entry t t' Ht H.
      apply bind_Ok in H as (kvs & _ & H).
      eapply (for_each_inv (uniform result_labels)); [exact Ht| |exact H].
      clear. intros [cid vals] t t' Ht H. cbv zeta in H.
      ok_chain H. injection H as <-.
      apply Forall_app. split; [exact Ht|]. by repeat constructor. }
    split; [exact Hu|].
    destruct rows as [|r rows]; [reflexivity|].
    by apply results_table_rows.
  - left. exists e. split; [reflexivity|].
    eapply for_each_raises; [|exact Hloop].
    clear. intros [tid contests] t e H.
    apply bind_Raise in H as [H|(cs & _ & H)]; [class_of H|].
    eapply for_each_raises; [|exact H].
    clear. intros [oid cands] t e H.
    apply bind_Raise in H as [H|(es & _ & H)]; [class_of H|].
    eapply for_each_raises; [|exact H].
    clear. intros entry t e H.
    apply bind_Raise in H as [H|(kvs & _ & H)]; [class_of H|].
    eapply for_each_raises; [|exact H].
    clear. intros [cid vals] t e H. cbv zeta in H.
    raise_chain H.
Qed.

Lemma results_table_shape read_float (rows : list record) :
  parser_table result_labels (results_table read_float rows).
Proof.
  destruct rows as [|r rows]; [split; [by left|constructor]|].
  split; [right; by split|].
  unfold well_formed, results_table. cbn [index columns].
  repeat constructor; cbn [snd]; rewrite ?length_clean_numeric; apply column_length.
Qed.

Lemma turnout_table_shape read_float (rows : list record) :
  parser_table turnout_labels (turnout_table read_float rows).
Proof.
  destruct rows as [|r rows]; [split; [by left|constructor]|].
  split; [right; by split|].
  unfold well_formed, turnout_table. cbn [index columns].
  repeat constructor; cbn [snd]; rewrite ?length_clean_numeric; apply column_length.
Qed.

Lemma parse_turnout_stages read_float (election : value) :
  (exists e, parse_turnout read_float election = Raise e
             /\ raises_one_of [AttributeError] e)
  \/ (exists rows, uniform turnout_labels rows
                   /\ parse_turnout read_float election
                      = Ok (turnout_table read_float rows)).
Proof.
  unfold parse_turnout.
  destruct (py_get election "voterTurnout" (VDict [])) as [vt|e] eqn:H1;
    [|left; eexists; split; [reflexivity|class_of H1]].
  destruct (py_get election "townStatus" (VDict [])) as [town_status|e] eqn:H2;
    [|left; eexists; split; [reflexivity|class_of H2]].
  cbn [mbind result_bind].
  destruct (py_items vt) as [tvs|e] eqn:H3;
    [|left; eexists; split; [reflexivity|class_of H3]].
  cbn [mbind result_bind].
  match goal with
  | |- context [mbind _ (for_each tvs ?body [])] =>
      destruct (for_each tvs body []) as [rows|e] eqn:Hloop
  end.
  - right. exists rows. cbn [mbind result_bind].
    assert (uniform turnout_labels rows) as Hu.
    { eapply (for_each_inv (uniform turnout_labels)); [constructor| |exact Hloop].
      clear. intros [tid d] t t' Ht H.
      ok_chain H. injection H as <-.
      apply Forall_app. split; [exact Ht|]. by repeat constructor. }
    split; [exact Hu|].
    destruct rows as [|r rows]; [reflexivity|].
    by apply turnout_table_rows.
  - left. exists e. split; [reflexivity|].
    eapply for_each_raises; [|exact Hloop].
    clear. intros [tid d] t e H. raise_chain H.
Qed.

(** X1: whatever the two documents hold, [parse_results] either returns a
    table that has no rows and no columns or has exactly the nine result
    columns, in order, over at least one row and with one cell per row, or
    raises an [AttributeError] or a [TypeError] (a value that is not a
    mapping or not iterable where one is expected); it never raises a
    [KeyError]. *)
Theorem parse_results_any_documents (read_float : string -> option value)
    (lookup election : value) :
  (forall df, parse_results read_float lookup election = Ok df ->
              parser_table result_labels df)
  /\ (forall e, parse_results read_float lookup election = Raise e ->
                raises_one_of [AttributeError; TypeError] e).
Proof.
  destruct (parse_results_stages read_float lookup election)
    as [(e & He & Hc)|(rows & _ & Hrows)].
  - split; [intros df H; congruence|]. intros e' H. rewrite He in H. by injection H as <-.
  - split; [|intros e H; congruence].
    intros df H. rewrite Hrows in H. injection H as <-. apply results_table_shape.
Qed.

(** X2: whatever the election document holds, [parse_turnout] either
    returns a table that has no rows and no columns or has exactly the six
    turnout columns, in order, over at least one row and with one cell per
    row, or raises an [AttributeError]. *)
Theorem parse_turnout_any_document (read_float : string -> option value)
    (election : value) :
  (forall df, parse_turnout read_float election = Ok df ->
              parser_table turnout_labels df)
  /\ (forall e, parse_turnout read_float election = Raise e ->
                raises_one_of [AttributeError] e).
Proof.
  destruct (parse_turnout_stages read_float election)
    as [(e & He & Hc)|(rows & _ & Hrows)].
  - split; [intros df H; congruence|]. intros e' H. rewrite He in H. by injection H as <-.
  - split; [|intros e H; congruence].
    intros df H. rewrite Hrows in H. injection H as <-. apply turnout_table_shape.
Qed.

Lemma parse_results_any_documents_witness :
  parser_table result_labels
    (Frame 1 [("town_name", [VStr "Hartford"]);
              ("office_name", [VStr "Mayor"]);
              ("candidate_name", [VStr "Jane Doe"]);
              ("party", [VStr "Democratic Party"]);
              ("votes", [VInt 1234]);
              ("percent", [VStr "55%"]);
              ("town_id", [VStr "5"]);
              ("office_id", [VStr "10"]);
              ("candidate_id", [VStr "100"])])
  /\ raises_one_of [AttributeError; TypeError]
       (Exn AttributeError "'str' object has no attribute 'get'").
Proof.
  split.
  - apply (proj1 (parse_results_any_documents (fun _ => None) example_lookup example_election)).
    vm_compute. reflexivity.
  - apply (proj2 (parse_results_any_documents (fun _ => None) example_lookup
                    tally_not_a_mapping)).
    vm_compute. reflexivity.
Defined.

Lemma parse_turnout_any_document_witness :
  parser_table turnout_labels hartford_turnout
  /\ raises_one_of [AttributeError]
       (Exn AttributeError "'list' object has no attribute 'get'").
Proof.
  split.
  - apply (proj1 (parse_turnout_any_document (fun _ => None)
                    (election_json hartford_election))).
    vm_compute. reflexivity.
  - apply (proj2 (parse_turnout_any_document (fun _ => None) turnout_not_a_mapping)).
    vm_compute. reflexivity.
Defined.

(** ** Empty sections and empty contests *)

(** X3: an election document whose [townVotes] section is absent or empty
    gives a results table with no rows and no columns, whatever the lookup
    document of the data model is; one whose [voterTurnout] section is
    absent or empty gives such a turnout table. *)
Theorem empty_sections_give_empty_tables (read_float : string -> option value)
    (election : record) :
  (default (VDict []) (dict_get "townVotes" election) = VDict [] ->
   forall L : LookupDocument,
     parse_results read_float (lookup_json L) (VDict election) = Ok (Frame 0 []))
  /\ (default (VDict []) (dict_get "voterTurnout" election) = VDict [] ->
      parse_turnout read_float (VDict election) = Ok (Frame 0 [])).
Proof.
  split.
  - intros Hempty L. unfold parse_results.
    change (py_get (lookup_json L) "townIds" (VDict [])) with (Ok (VDict (townIds L))).
    change (py_get (lookup_json L) "partyIds" (VDict []))
      with (Ok (records_json (partyIds L))).
    change (py_get (lookup_json L) "candidateIds" (VDict []))
      with (Ok (records_json (candidateIds L))).
    change (py_get (lookup_json L) "officeList" (VList []))
      with (Ok (VList (map records_json (officeList L)))).
    cbn [mbind result_bind]. rewrite build_office_map_records.
    cbn [mbind result_bind py_get]. rewrite Hempty. reflexivity.
  - intros Hempty. unfold parse_turnout.
    cbn [mbind result_bind py_get]. rewrite Hempty. reflexivity.
Qed.

Lemma empty_sections_give_empty_tables_witness :
  parse_results (fun _ => None) (lookup_json hartford_lookup) (VDict []) = Ok (Frame 0 [])
  /\ parse_turnout (fun _ => None) (VDict [("townVotes", VDict [])]) = Ok (Frame 0 []).
Proof.
  split.
  - apply (proj1 (empty_sections_give_empty_tables (fun _ => None) []) eq_refl).
  - apply (proj2 (empty_sections_give_empty_tables (fun _ => None) [("townVotes", VDict [])])
             eq_refl).
Defined.

Lemma tallies_app (tv1 tv2 : list (string * list (string * list (list (string * record)))))
    (vt ts : list (string * record)) :
  tallies {| townVotes := tv1 ++ tv2; voterTurnout := vt; townStatus := ts |}
  = tallies {| townVotes := tv1; voterTurnout := vt; townStatus := ts |}
    ++ tallies {| townVotes := tv2; voterTurnout := vt; townStatus := ts |}.
Proof. unfold tallies. cbn [townVotes]. apply flat_map_app. Qed.

(** X4: a town with no contests, an office with an empty candidate sequence
    and an empty element of a candidate sequence contribute no row: the
    results table is the one of the document without them. *)
Theorem empty_contests_give_no_rows (read_float : string -> option value)
    (L : LookupDocument)
    (tv1 tv2 : list (string * list (string * list (list (string * record)))))
    (vt ts : list (string * record)) (tid : string) :
  parse_results read_float (lookup_json L)
    (election_json {| townVotes := tv1 ++ (tid, []) :: tv2;
                      voterTurnout := vt; townStatus := ts |})
  = parse_results read_float (lookup_json L)
      (election_json {| townVotes := tv1 ++ tv2; voterTurnout := vt; townStatus := ts |})
  /\ (forall (cs1 cs2 : list (string * list (list (string * record)))) (oid : string),
        parse_results read_float (lookup_json L)
          (election_json {| townVotes := tv1 ++ (tid, cs1 ++ (oid, []) :: cs2) :: tv2;
                            voterTurnout := vt; townStatus := ts |})
        = parse_results read_float (lookup_json L)
            (election_json {| townVotes := tv1 ++ (tid, cs1 ++ cs2) :: tv2;
                              voterTurnout := vt; townStatus := ts |}))
  /\ (forall (cs1 cs2 : list (string * list (list (string * record)))) (oid : string)
             (es1 es2 : list (list (string * record))),
        parse_results read_float (lookup_json L)
          (election_json {| townVotes := tv1 ++ (tid, cs1 ++ (oid, es1 ++ [] :: es2) :: cs2) :: tv2;
                            voterTurnout := vt; townStatus := ts |})
        = parse_results read_float (lookup_json L)
            (election_json {| townVotes := tv1 ++ (tid, cs1 ++ (oid, es1 ++ es2) :: cs2) :: tv2;
                              voterTurnout := vt; townStatus := ts |})).
Proof.
  split; [|split]; intros; rewrite !parse_results_table; do 3 f_equal;
    unfold tallies; cbn [townVotes];
    rewrite !flat_map_app; cbn [flat_map fst snd]; rewrite ?flat_map_app;
    cbn [flat_map fst snd map app]; rewrite ?flat_map_app; cbn [flat_map map app];
    reflexivity.
Qed.

(** ** The office map: skipped items, the first offender, the identifiers *)

Lemma for_each_app {A S} (l1 l2 : list A) (body : A -> S -> result S) (s : S) :
  for_each (l1 ++ l2) body s = (s' ← for_each l1 body s; for_each l2 body s').
Proof.
  revert s. induction l1 as [|x l1 IH]; intros s; [reflexivity|].
  cbn [app for_each]. destruct (body x s) as [s'|e]; [|reflexivity].
  cbn [mbind result_bind]. apply IH.
Qed.

(** The nested loops of [build_office_map] visit the entries of the list one
    after the other. *)
Lemma office_loop_flat (l : list value) (out : gmap string value) :
  for_each l office_body out
  = for_each (office_entries l)
      (fun kv out => nm ← py_get (snd kv) "NM" (VStr ""); Ok (<[py_str (VStr (fst kv)) := nm]> out))
      out.
Proof.
  revert out. induction l as [|item l IH]; intros out; [reflexivity|].
  unfold office_entries. cbn [flat_map for_each]. rewrite for_each_app.
  assert (office_body item out
          = for_each (dict_items item)
              (fun kv out => nm ← py_get (snd kv) "NM" (VStr "");
                             Ok (<[py_str (VStr (fst kv)) := nm]> out)) out) as ->
    by (by destruct item).
  destruct (for_each (dict_items item) _ out) as [out'|e]; [|reflexivity].
  cbn [mbind result_bind]. apply IH.
Qed.

Lemma office_loop_skips (l : list value) (out : gmap string value) :
  for_each l office_body out = for_each (List.filter isinstance_dict l) office_body out.
Proof.
  revert out. induction l as [|item l IH]; intros out; [reflexivity|].
  cbn [List.filter for_each].
  destruct (isinstance_dict item) eqn:Hi.
  - cbn [for_each]. destruct (office_body item out); [apply IH|reflexivity].
  - assert (office_body item out = Ok out) as -> by (unfold office_body; by rewrite Hi).
    cbn [mbind result_bind]. apply IH.
Qed.

Lemma office_loop_no_dict (l : list value) (out : gmap string value) :
  Forall (fun v => isinstance_dict v = false) l -> for_each l office_body out = Ok out.
Proof.
  induction 1 as [|item l Hi _ IH]; [reflexivity|].
  cbn [for_each].
  assert (office_body item out = Ok out) as -> by (unfold office_body; by rewrite Hi).
  exact IH.
Qed.

(** X5: [build_office_map] passes over the items of its argument that are
    not mappings: the result is the one for the list without them.  An
    argument that is itself a mapping or a text is iterated over (keys,
    characters) and gives the empty map; [None], a boolean and a number are
    not iterable, a [TypeError]. *)
Theorem build_office_map_skips_other_items :
  (forall l : list value,
     build_office_map (VList l) = build_office_map (VList (List.filter isinstance_dict l)))
  /\ (forall kvs : list (string * value), build_office_map (VDict kvs) = Ok ∅)
  /\ (forall s : string, build_office_map (VStr s) = Ok ∅)
  /\ (forall v : value,
        match v with
        | VList _ | VDict _ | VStr _ => True
        | _ => build_office_map v
               = Raise (Exn TypeError ("'" +:+ type_name v +:+ "' object is not iterable"))
        end).
Proof.
  split; [|split; [|split]].
  - intros l. apply office_loop_skips.
  - intros kvs. apply (office_loop_no_dict (map (fun kv => VStr kv.1) kvs)).
    apply Forall_forall. intros v (kv & -> & _)%list_elem_of_fmap. reflexivity.
  - intros s. apply (office_loop_no_dict (chars s)).
    induction s as [|c s IH]; constructor; [reflexivity|exact IH].
  - intros v. by destruct v.
Qed.

Lemma office_inner_offender (es1 es2 : list (string * value)) (k : string) (v : value)
    (out : gmap string value) :
  Forall (fun kv => isinstance_dict kv.2 = true) es1 ->
  isinstance_dict v = false ->
  for_each (es1 ++ (k, v) :: es2)
    (fun kv out => nm ← py_get (snd kv) "NM" (VStr ""); Ok (<[py_str (VStr (fst kv)) := nm]> out))
    out
  = no_attribute v "get".
Proof.
  intros H1 Hv. rewrite for_each_app, (office_inner_ok es1 out H1).
  cbn [mbind result_bind for_each snd]. by destruct v.
Qed.

(** X6: when some office record is not a mapping, [build_office_map] raises
    the [AttributeError] of the first such record in list order (records
    before it being mappings), whatever follows it. *)
Theorem build_office_map_first_offender (l : list value)
    (es1 es2 : list (string * value)) (k : string) (v : value) :
  office_entries l = es1 ++ (k, v) :: es2 ->
  Forall (fun kv => isinstance_dict kv.2 = true) es1 ->
  isinstance_dict v = false ->
  build_office_map (VList l)
  = Raise (Exn AttributeError ("'" +:+ type_name v +:+ "' object has no attribute 'get'")).
Proof.
  intros Hl H1 Hv.
  change (build_office_map (VList l)) with (for_each l office_body ∅).
  rewrite office_loop_flat, Hl. by apply office_inner_offender.
Qed.

Lemma build_office_map_first_offender_witness :
  build_office_map (VList [mayor_entry; VDict [("20", VStr "Clerk"); ("30", VNone)]; VInt 7])
  = Raise (Exn AttributeError "'str' object has no attribute 'get'").
Proof.
  apply (build_office_map_first_offender _ [("10", VDict [("NM", VStr "Mayor")])]
           [("30", VNone)] "20" (VStr "Clerk")).
  - reflexivity.
  - repeat constructor.
  - reflexivity.
Defined.

Lemma office_fold_dom (es : list (string * value)) (m : gmap string value) (k : string) :
  is_Some (foldl office_step m es !! k) <-> is_Some (m !! k) \/ k ∈ es.*1.
Proof.
  revert m. induction es as [|[k' v] es IH]; intros m; cbn [foldl fmap list_fmap].
  - rewrite elem_of_nil. tauto.
  - rewrite IH. unfold office_step. cbn [fst snd].
    rewrite lookup_insert_is_Some, elem_of_cons. 
    destruct (decide (k' = k)) as [->|Hne]; [tauto|]. 
    split; [intros [[?|[_ ?]]|?]|intros [?|[?|?]]]; auto; congruence.
Qed.

(** X7: the map [build_office_map] returns has exactly the identifiers of the
    office entries as keys, each bound to the name of one of the entries
    with that identifier (the empty text for an entry without name). *)
Theorem build_office_map_keys (l : list value) (m : gmap string value) :
  build_office_map (VList l) = Ok m ->
  forall k : string,
    (is_Some (m !! k) <-> k ∈ (office_entries l).*1)
    /\ (forall name, m !! k = Some name ->
          exists v, (k, v) ∈ office_entries l /\ name = office_name v).
Proof.
  intros [_ ->]%build_office_map_inv k. split.
  - rewrite office_fold_dom, lookup_empty. split; [intros [[? [=]]|?]; done|by right].
  - generalize (office_entries l). intros es.
    assert (forall name, (∅ : gmap string value) !! k = Some name ->
                         exists v, (k, v) ∈ es /\ name = office_name v) as H0
      by (intros name; by rewrite lookup_empty).
    revert H0. generalize (∅ : gmap string value).
    induction es as [|[k' v'] es IH] using rev_ind; intros m H0 name; cbn [foldl].
    + apply H0.
    + rewrite foldl_app. cbn [foldl]. unfold office_step at 1. cbn [fst snd].
      destruct (decide (k' = k)) as [->|Hne].
      * rewrite lookup_insert_eq. intros [= <-]. exists v'. split; [|done].
        apply elem_of_app. right. left.
      * rewrite lookup_insert_ne by done. intros Hn.
        destruct (IH m) with (name := name) as (v & Hv & ->); [|done|].
        -- intros n Hm. destruct (H0 n Hm) as (v & Hv & ->).
           apply elem_of_app in Hv as [Hv|Hv%list_elem_of_singleton]; [eauto|].
           congruence.
        -- exists v. split; [|done]. apply elem_of_app. by left.
Qed.

Lemma build_office_map_keys_witness :
  (is_Some (foldl office_step ∅ (office_entries [mayor_entry; clerk_entry]) !! "20")
   <-> "20" ∈ (office_entries [mayor_entry; clerk_entry]).*1)
  /\ (forall name,
        foldl office_step ∅ (office_entries [mayor_entry; clerk_entry]) !! "20" = Some name ->
        exists v, ("20", v) ∈ office_entries [mayor_entry; clerk_entry] /\ name = office_name v).
Proof.
  apply (build_office_map_keys [mayor_entry; clerk_entry]).
  apply build_office_map_ok. repeat constructor.
Defined.

(** ** Counts that are numbers already, counts that are missing *)









(** ** The Spanish views: what is returned, when, and what is raised *)

Lemma length_reindex (n : nat) (s : Series) : length (reindex n s) = n.
Proof. unfold reindex. rewrite length_take, length_app, length_replicate. lia. Qed.

Lemma DataFrame_dict_shape (l : list (string * Series)) :
  map fst (columns (DataFrame_dict l)) = map fst l /\ well_formed (DataFrame_dict l).
Proof.
  unfold DataFrame_dict, well_formed. cbn [columns index]. split.
  - rewrite map_map. reflexivity.
  - apply Forall_forall. intros c (c' & -> & _)%list_elem_of_fmap. apply length_reindex.
Qed.

Lemma dict_get_reindexed (n : nat) (k : string) (cols : list (string * Series)) :
  dict_get k (map (fun c => (c.1, reindex n c.2)) cols) = reindex n <$> dict_get k cols.
Proof.
  induction cols as [|[k' c] cols IH]; [reflexivity|].
  cbn [map dict_get fst snd]. by destruct (String.eqb k k').
Qed.

Lemma has_column_setitem (d : DataFrame) (k k' : string) (s : Series) :
  has_column k' (setitem d k s) = String.eqb k' k || has_column k' d.
Proof.
  unfold has_column, setitem. cbn [columns].
  destruct (String.eqb k' k) eqn:Hk.
  - apply String.eqb_eq in Hk as ->. by rewrite dict_get_set_eq.
  - rewrite dict_get_set_ne by (intros ->; by rewrite String.eqb_refl in Hk).
    rewrite dict_get_reindexed. by destruct (dict_get k' (columns d)).
Qed.

Lemma getitem_has_column (d : DataFrame) (k : string) :
  if has_column k d then exists c, getitem d k = Ok c
  else getitem d k = Raise (Exn KeyError (repr_str k)).
Proof. unfold has_column, getitem. destruct (dict_get k (columns d)); eauto. Qed.

Lemma series_map_party_inv (p : Series) :
  if forallb hashable p then series_map party_es p = Ok (map party_name_es p)
  else exists e, series_map party_es p = Raise e /\ exn_kind e = TypeError.
Proof.
  induction p as [|x p IH]; [reflexivity|]. cbn [forallb series_map].
  destruct (hashable x) eqn:Hx; cbn [andb].
  - destruct (forallb hashable p).
    + rewrite IH. by destruct x.
    + destruct IH as (e & -> & He). exists e. by destruct x.
  - destruct x; try discriminate Hx; eexists; split; reflexivity.
Qed.

(** The outcome of the first step of [to_es_results]. *)
Lemma translate_party_outcome (d : DataFrame) :
  match translate_party d with
  | Ok d2 =>
      has_column "party" d = true
      /\ forallb hashable (default [] (dict_get "party" (columns d))) = true
      /\ forall k, has_column k d2 = String.eqb k "party" || has_column k d
  | Raise e =>
      (has_column "party" d = false /\ e = Exn KeyError (repr_str "party"))
      \/ (has_column "party" d = true
          /\ forallb hashable (default [] (dict_get "party" (columns d))) = false
          /\ exn_kind e = TypeError)
  end.
Proof.
  unfold translate_party, getitem, has_column.
  destruct (dict_get "party" (columns d)) as [party|] eqn:Hp; cbn [mbind result_bind default].
  - unfold id. assert (H := series_map_party_inv party).
    destruct (forallb hashable party).
    + rewrite H. cbn [mbind result_bind]. split; [done|]. split; [done|].
      intros k. apply has_column_setitem.
    + destruct H as (e & -> & He). cbn [mbind result_bind]. right. done.
  - left. done.
Qed.

Lemma localize_precincts_outcome (d : DataFrame) :
  match localize_precincts d with
  | Ok d2 =>
      has_column "precincts_reported" d = true
      /\ forall k, has_column k d2 = String.eqb k "Precintos reportados" || has_column k d
  | Raise e =>
      has_column "precincts_reported" d = false
      /\ e = Exn KeyError (repr_str "precincts_reported")
  end.
Proof.
  unfold localize_precincts, getitem, has_column.
  destruct (dict_get "precincts_reported" (columns d)) as [c|] eqn:Hp;
    cbn [mbind result_bind]; [|done].
  split; [done|]. intros k. apply has_column_setitem.
Qed.

(** Reading columns one after the other: the first one missing raises. *)
Lemma find_missing_cons (k : string) (ks : list string) (d : DataFrame) :
  first_missing (k :: ks) d = if has_column k d then first_missing ks d else Some k.
Proof. unfold first_missing. cbn [List.find]. by destruct (has_column k d). Qed.

Lemma es_results_view_outcome (d2 : DataFrame) :
  match es_results_view d2 with
  | Ok out =>
      first_missing ["town_name"; "office_name"; "candidate_name"; "party"; "votes"; "percent"]
        d2 = None
      /\ map fst (columns out) = es_result_labels /\ well_formed out
  | Raise e =>
      exists k,
        first_missing ["town_name"; "office_name"; "candidate_name"; "party"; "votes";
                       "percent"] d2 = Some k
        /\ e = Exn KeyError (repr_str k)
  end.
Proof.
  unfold es_results_view.
  do 6 (rewrite find_missing_cons;
        match goal with
        | |- context [getitem d2 ?k] =>
            let H := fresh in
            assert (H := getitem_has_column d2 k);
            destruct (has_column k d2);
            [destruct H as [? ->]; cbn [mbind result_bind]
            |rewrite H; cbn [mbind result_bind]; by eexists]
        end).
  split; [reflexivity|]. apply DataFrame_dict_shape.
Qed.

Lemma es_turnout_view_outcome (d2 : DataFrame) :
  match es_turnout_view d2 with
  | Ok out =>
      first_missing ["town_name"; "Precintos reportados"; "electors"; "votes_cast";
                     "turnout_percent"] d2 = None
      /\ map fst (columns out) = es_turnout_labels /\ well_formed out
  | Raise e =>
      exists k,
        first_missing ["town_name"; "Precintos reportados"; "electors"; "votes_cast";
                       "turnout_percent"] d2 = Some k
        /\ e = Exn KeyError (repr_str k)
  end.
Proof.
  unfold es_turnout_view.
  do 5 (rewrite find_missing_cons;
        match goal with
        | |- context [getitem d2 ?k] =>
            let H := fresh in
            assert (H := getitem_has_column d2 k);
            destruct (has_column k d2);
            [destruct H as [? ->]; cbn [mbind result_bind]
            |rewrite H; cbn [mbind result_bind]; by eexists]
        end).
  split; [reflexivity|]. apply DataFrame_dict_shape.
Qed.

(** X9: the table [to_es_results] returns is a new object of the store with
    exactly the six Spanish columns, in order, and one cell per row in each;
    the identifier columns of the English table are not carried over, and a
    table without rows or without columns gives the six headers over no
    rows.  The same holds of [to_es_turnout] and its five columns. *)
Theorem spanish_views_columns (w : world) (df r : ref) (w' : world) :
  (to_es_results df w = (Ok r, w') ->
   (length (heap w) <= r)%nat
   /\ exists out,
        heap w' !! r = Some out
        /\ map fst (columns out) = es_result_labels
        /\ well_formed out
        /\ (empty (frame_at w df) = true -> index out = 0%nat))
  /\ (to_es_turnout df w = (Ok r, w') ->
      (length (heap w) <= r)%nat
      /\ exists out,
           heap w' !! r = Some out
           /\ map fst (columns out) = es_turnout_labels
           /\ well_formed out
           /\ (empty (frame_at w df) = true -> index out = 0%nat)).
Proof.
  split.
  - rewrite to_es_results_run. cbv zeta.
    destruct (empty (frame_at w df)).
    + intros [= <- <-]. split; [lia|]. eexists.
      split; [apply list_lookup_middle; reflexivity|].
      split; [reflexivity|]. split; [by repeat constructor|done].
    + destruct (translate_party (frame_at w df)) as [d2|e]; [|discriminate].
      assert (Hv := es_results_view_outcome d2).
      destruct (es_results_view d2) as [out|e]; [|discriminate].
      intros [= <- <-]. split; [lia|]. exists out.
      split; [apply lookup_new_last|]. destruct Hv as (_ & Hl & Hwf). done.
  - rewrite to_es_turnout_run. cbv zeta.
    destruct (empty (frame_at w df)).
    + intros [= <- <-]. split; [lia|]. eexists.
      split; [apply list_lookup_middle; reflexivity|].
      split; [reflexivity|]. split; [by repeat constructor|done].
    + destruct (localize_precincts (frame_at w df)) as [d2|e]; [|discriminate].
      assert (Hv := es_turnout_view_outcome d2).
      destruct (es_turnout_view d2) as [out|e]; [|discriminate].
      intros [= <- <-]. split; [lia|]. exists out.
      split; [apply lookup_new_last|]. destruct Hv as (_ & Hl & Hwf). done.
Qed.

Lemma spanish_views_columns_witness :
  exists out,
    heap (to_es_results 0%nat hartford_world).2 !! 3%nat = Some out
    /\ map fst (columns out) = es_result_labels
    /\ well_formed out.
Proof.
  destruct (proj1 (spanish_views_columns hartford_world 0%nat 3%nat
                     (to_es_results 0%nat hartford_world).2) eq_refl)
    as (_ & out & Hout & Hl & Hwf & _).
  exists out. split; [exact Hout|]. split; [exact Hl|exact Hwf].
Defined.

Ltac by_columns d :=
  repeat match goal with
         | |- context [has_column ?k d] => destruct (has_column k d)
         | H : context [has_column ?k d] |- _ => destruct (has_column k d)
         end.

(** X10: [to_es_results] returns a table exactly when its argument has no
    rows or no columns, or has the six columns it reads and party cells that
    can be looked up in the translation table (no list, no mapping);
    [to_es_turnout] exactly when its argument has no rows or no columns, or
    has the five columns it reads. *)
Theorem spanish_views_succeed_iff (w : world) (df : ref) (d : DataFrame) :
  heap w !! df = Some d ->
  ((exists r w', to_es_results df w = (Ok r, w'))
   <-> (empty d = true \/ results_view_input d = true))
  /\ ((exists r w', to_es_turnout df w = (Ok r, w'))
      <-> (empty d = true \/ turnout_view_input d = true)).
Proof.
  intros Hd. split.
  - rewrite to_es_results_run. cbv zeta. rewrite (frame_at_lookup _ _ _ Hd).
    destruct (empty d); [split; [by left|by eexists _, _]|].
    assert (Ht := translate_party_outcome d).
    unfold results_view_input, results_view_columns. cbn [forallb].
    destruct (translate_party d) as [d2|e].
    + destruct Ht as (Hp & Hh & Hcols). rewrite Hp, Hh.
      assert (Hv := es_results_view_outcome d2).
      destruct (es_results_view d2) as [out|e].
      * destruct Hv as (Hm & _). split; [intros _; right|by eexists _, _].
        unfold first_missing in Hm. cbn [List.find] in Hm. rewrite !Hcols in Hm.
        cbn [String.eqb Ascii.eqb Bool.eqb orb] in Hm. by_columns d; done.
      * destruct Hv as (k & Hm & _). split; [by intros (? & ? & [=])|].
        intros [[=]|H]. exfalso.
        unfold first_missing in Hm. cbn [List.find] in Hm. rewrite !Hcols in Hm.
        cbn [String.eqb Ascii.eqb Bool.eqb orb] in Hm. by_columns d; done.
    + split; [by intros (? & ? & [=])|]. intros [[=]|H]. exfalso.
      destruct Ht as [[Hp _]|(Hp & Hh & _)].
      * rewrite Hp in H. done.
      * rewrite Hh in H. by rewrite andb_false_r in H.
  - rewrite to_es_turnout_run. cbv zeta. rewrite (frame_at_lookup _ _ _ Hd).
    destruct (empty d); [split; [by left|by eexists _, _]|].
    assert (Ht := localize_precincts_outcome d).
    unfold turnout_view_input, turnout_view_columns. cbn [forallb].
    destruct (localize_precincts d) as [d2|e].
    + destruct Ht as (Hp & Hcols). rewrite Hp.
      assert (Hv := es_turnout_view_outcome d2).
      destruct (es_turnout_view d2) as [out|e].
      * destruct Hv as (Hm & _). split; [intros _; right|by eexists _, _].
        unfold first_missing in Hm. cbn [List.find] in Hm. rewrite !Hcols in Hm.
        cbn [String.eqb Ascii.eqb Bool.eqb orb] in Hm. by_columns d; done.
      * destruct Hv as (k & Hm & _). split; [by intros (? & ? & [=])|].
        intros [[=]|H]. exfalso.
        unfold first_missing in Hm. cbn [List.find] in Hm. rewrite !Hcols in Hm.
        cbn [String.eqb Ascii.eqb Bool.eqb orb] in Hm. by_columns d; done.
    + split; [by intros (? & ? & [=])|]. intros [[=]|H]. exfalso.
      destruct Ht as [Hp _]. rewrite Hp in H. done.
Qed.

Lemma spanish_views_succeed_iff_witness :
  (exists r w', to_es_results 0%nat hartford_world = (Ok r, w'))
  /\ ~ (exists r w', to_es_turnout 0%nat hartford_world = (Ok r, w')).
Proof.
  destruct (spanish_views_succeed_iff hartford_world 0%nat hartford_results eq_refl)
    as [Hres Htur].
  split.
  - apply Hres. right. reflexivity.
  - intros H. apply Htur in H as [H|H]; discriminate H.
Defined.

(** X11: on a table with rows and columns, [to_es_results] raises the
    [KeyError] of ["party"] when that column is missing, a [TypeError] when
    a party cell is a list or a mapping, and otherwise the [KeyError] of the
    first column it reads that is missing; [to_es_turnout] raises the
    [KeyError] of the first column it reads that is missing.  The key of
    the error is the [repr] of the label. *)
Theorem spanish_views_errors (w : world) (df : ref) (d : DataFrame) :
  heap w !! df = Some d ->
  empty d = false ->
  (has_column "party" d = false ->
   (to_es_results df w).1 = Raise (Exn KeyError "'party'"))
  /\ (has_column "party" d = true ->
      forallb hashable (default [] (dict_get "party" (columns d))) = false ->
      exists e, (to_es_results df w).1 = Raise e /\ exn_kind e = TypeError)
  /\ (forall k : string,
        forallb hashable (default [] (dict_get "party" (columns d))) = true ->
        first_missing results_view_columns d = Some k ->
        (to_es_results df w).1 = Raise (Exn KeyError (repr_str k)))
  /\ (forall k : string,
        first_missing turnout_view_columns d = Some k ->
        (to_es_turnout df w).1 = Raise (Exn KeyError (repr_str k))).
Proof.
  intros Hd He.
  assert (Ht := translate_party_outcome d).
  assert (Hl := localize_precincts_outcome d).
  rewrite to_es_results_run, to_es_turnout_run. cbv zeta.
  rewrite (frame_at_lookup _ _ _ Hd), He.
  split; [|split; [|split]].
  - intros Hp. destruct (translate_party d) as [d2|e].
    + destruct Ht as (Hp' & _). congruence.
    + destruct Ht as [[_ ->]|(Hp' & _)]; [reflexivity|congruence].
  - intros Hp Hh. destruct (translate_party d) as [d2|e].
    + destruct Ht as (_ & Hh' & _). congruence.
    + destruct Ht as [[Hp' _]|(_ & _ & Hk)]; [congruence|]. by exists e.
  - intros k Hh Hm. unfold first_missing, results_view_columns in Hm.
    destruct (translate_party d) as [d2|e].
    + destruct Ht as (Hp & _ & Hcols).
      assert (Hv := es_results_view_outcome d2).
      cbn [List.find] in Hm. rewrite Hp in Hm. cbn [negb] in Hm.
      destruct (es_results_view d2) as [out|e].
      * exfalso. destruct Hv as (Hm' & _).
        unfold first_missing in Hm'. cbn [List.find] in Hm'. rewrite !Hcols in Hm'.
        cbn [String.eqb Ascii.eqb Bool.eqb orb] in Hm'. by_columns d; done.
      * destruct Hv as (k' & Hm' & ->). cbn [fst]. do 3 f_equal.
        unfold first_missing in Hm'. cbn [List.find] in Hm'. rewrite !Hcols in Hm'.
        cbn [String.eqb Ascii.eqb Bool.eqb orb] in Hm'. by_columns d; cbn in *; congruence.
    + destruct Ht as [[Hp ->]|(_ & Hh' & _)]; [|congruence].
      cbn [List.find] in Hm. rewrite Hp in Hm. cbn [negb] in Hm.
      by injection Hm as <-.
  - intros k Hm. unfold first_missing, turnout_view_columns in Hm.
    destruct (localize_precincts d) as [d2|e].
    + destruct Hl as (Hp & Hcols).
      assert (Hv := es_turnout_view_outcome d2).
      cbn [List.find] in Hm. rewrite Hp in Hm. cbn [negb] in Hm.
      destruct (es_turnout_view d2) as [out|e].
      * exfalso. destruct Hv as (Hm' & _).
        unfold first_missing in Hm'. cbn [List.find] in Hm'. rewrite !Hcols in Hm'.
        cbn [String.eqb Ascii.eqb Bool.eqb orb] in Hm'. by_columns d; done.
      * destruct Hv as (k' & Hm' & ->). cbn [fst]. do 3 f_equal.
        unfold first_missing in Hm'. cbn [List.find] in Hm'. rewrite !Hcols in Hm'.
        cbn [String.eqb Ascii.eqb Bool.eqb orb] in Hm'. by_columns d; cbn in *; congruence.
    + destruct Hl as [Hp ->].
      cbn [List.find] in Hm. rewrite Hp in Hm. cbn [negb] in Hm.
      by injection Hm as <-.
Qed.

Lemma spanish_views_errors_witness :
  (to_es_results 0%nat (World [nameless_results] [] None []) ).1
  = Raise (Exn KeyError "'candidate_name'")
  /\ (to_es_turnout 0%nat hartford_world).1 = Raise (Exn KeyError "'precincts_reported'").
Proof.
  split.
  - apply (proj1 (proj2 (proj2 (spanish_views_errors (World [nameless_results] [] None [])
                                  0%nat nameless_results eq_refl eq_refl)))
             "candidate_name"); reflexivity.
  - apply (proj2 (proj2 (proj2 (spanish_views_errors hartford_world 0%nat hartford_results
                                  eq_refl eq_refl)))
             "precincts_reported"); reflexivity.
Defined.

(** ** The parsers and the Spanish views, composed *)

Lemma series_map_unhashable (p : Series) :
  forallb hashable p = false ->
  exists e, series_map party_es p = Raise e /\ exn_kind e = TypeError.
Proof. intros H. assert (Hs := series_map_party_inv p). by rewrite H in Hs. Qed.

(** X12: on the table [parse_turnout] returns for a decoded document,
    whatever it holds, [to_es_turnout] returns a table with as many rows.
    On the table [parse_results] returns, [to_es_results] returns a table
    with as many rows, unless the name of a party is a list or a mapping in
    the lookup document: then it raises a [TypeError]; a [KeyError] for a
    missing column cannot happen. *)
Theorem parsed_tables_have_spanish_views (read_float : string -> option value)
    (lookup election : value) (w : world) (df : ref) (d : DataFrame) :
  heap w !! df = Some d ->
  (parse_turnout read_float election = Ok d ->
   exists out w' d',
     to_es_turnout df w = (Ok out, w') /\ heap w' !! out = Some d' /\ len d' = len d)
  /\ (parse_results read_float lookup election = Ok d ->
      (exists out w' d',
         to_es_results df w = (Ok out, w') /\ heap w' !! out = Some d' /\ len d' = len d)
      \/ (exists e w', to_es_results df w = (Raise e, w') /\ exn_kind e = TypeError)).
Proof.
  intros Hd. split.
  - intros Hp.
    destruct (parse_turnout_stages read_float election)
      as [(e & He & _)|(rows & _ & Hrows)]; [congruence|].
    assert (d = turnout_table read_float rows) as -> by congruence.
    destruct (to_es_turnout_keeps_rows w df _ Hd (turnout_table_input _ _))
      as (out & w' & d' & Hrun & Hout & Hlen & _).
    by exists out, w', d'.
  - intros Hp.
    destruct (parse_results_stages read_float lookup election)
      as [(e & He & _)|(rows & _ & Hrows)]; [congruence|].
    assert (d = results_table read_float rows) as -> by congruence.
    destruct (forallb hashable (column "party" rows)) eqn:Hh.
    + left.
      destruct (to_es_results_keeps_rows w df _ Hd (results_table_input _ _ Hh))
        as (out & w' & d' & Hrun & Hout & Hlen & _).
      by exists out, w', d'.
    + right. destruct rows as [|r rows]; [discriminate Hh|].
      rewrite to_es_results_run. cbv zeta. rewrite (frame_at_lookup _ _ _ Hd).
      change (empty (results_table read_float (r :: rows))) with false. cbv iota.
      unfold translate_party.
      change (getitem (results_table read_float (r :: rows)) "party")
        with (Ok (column "party" (r :: rows)) : result Series).
      cbn [mbind result_bind].
      destruct (series_map_unhashable _ Hh) as (e & -> & He).
      cbn [mbind result_bind]. by eexists _, _.
Qed.

Lemma parsed_tables_have_spanish_views_witness :
  exists out w' d',
    to_es_turnout 1%nat hartford_world = (Ok out, w')
    /\ heap w' !! out = Some d' /\ len d' = 2%nat.
Proof.
  apply (proj1 (parsed_tables_have_spanish_views (fun _ => None) VNone
                  (election_json hartford_election) hartford_world 1%nat hartford_turnout
                  eq_refl)).
  vm_compute. reflexivity.
Defined.

(** ** The fetcher: the plain path, the requests made, the documents returned *)

Lemma get_json_result_Ok http (n : nat) (url : string) (doc : value) :
  get_json_result http n url = Ok doc <-> document (http n url) = Some doc.
Proof.
  split; [|apply get_json_document].
  unfold document, get_json_result, raise_for_status.
  destruct (http n url) as [msg|status reason body]; [done|].
  destruct ((400 <=? status) && (status <? 500)) eqn:H4; [done|].
  destruct ((500 <=? status) && (status <? 600)) eqn:H5; [done|].
  cbn [mbind result_bind]. destruct body as [msg|d]; [done|]. intros [= ->].
  destruct ((400 <=? status) && (status <? 600)) eqn:Hs; [lia|done].
Qed.

Lemma get_json_result_HTTPError http (n : nat) (url : string) (e : exn) :
  get_json_result http n url = Raise e ->
  is_HTTPError e = http_failure (http n url).
Proof.
  unfold http_failure, get_json_result, raise_for_status.
  destruct (http n url) as [msg|status reason body]; [by intros [= <-]|].
  destruct ((400 <=? status) && (status <? 500)) eqn:H4.
  { intros [= <-]. cbn. symmetry. lia. }
  destruct ((500 <=? status) && (status <? 600)) eqn:H5.
  { intros [= <-]. cbn. symmetry. lia. }
  cbn [mbind result_bind]. destruct body as [msg|d]; [|done]. intros [= <-]. cbn.
  symmetry. lia.
Qed.

(** X13: when the version marker and the two unversioned documents are
    served, [fetch_lookup_election] returns them with the version of the
    marker ([None] when the marker has no ["Version"] field) after exactly
    three requests; no version-qualified path is requested. *)
Theorem fetch_unversioned_documents http (eid : Z) (w : world) (vdoc : record)
    (lookup election : value) :
  let n := length (requests w) in
  document (http n (version_url eid)) = Some (VDict vdoc) ->
  document (http (n + 1)%nat (lookup_url eid)) = Some lookup ->
  document (http (n + 2)%nat (election_url eid)) = Some election ->
  fetch_lookup_election http eid w
  = (Ok (lookup, election, default VNone (dict_get "Version" vdoc)),
     add_requests [version_url eid; lookup_url eid; election_url eid] w).
Proof.
  intros n Hv Hl He. subst n. rewrite fetch_lookup_election_run. cbv zeta.
  rewrite (get_json_document _ _ _ _ Hv). cbn [py_get].
  by rewrite (get_json_document _ _ _ _ Hl), (get_json_document _ _ _ _ He).
Qed.

Lemma fetch_unversioned_documents_witness :
  fetch_lookup_election live_server 97 new_world
  = (Ok (lookup_json hartford_lookup, election_json hartford_election, VStr "v7"),
     add_requests
       ["https://ctemsmedia.tgstg.net/ng-app/data/election/97/Version.json";
        "https://ctemsmedia.tgstg.net/ng-app/data/election/97/Lookup.json";
        "https://ctemsmedia.tgstg.net/ng-app/data/election/97/Election.json"]
       new_world).
Proof.
  apply (fetch_unversioned_documents live_server 97 new_world [("Version", VStr "v7")]
           (lookup_json hartford_lookup) (election_json hartford_election));
    reflexivity.
Defined.

(** X14: whatever the server answers, [fetch_lookup_election] changes
    nothing but the log of requests; it makes between one and five requests,
    the first for the version marker; and unless the request for
    [Lookup.json] or the one for [Election.json] is answered with an HTTP
    error status, it requests nothing beyond the marker and these two: a
    failed connection or a malformed document does not start the retry. *)
Theorem fetch_requests_bounded http (eid : Z) (w : world) :
  let n := length (requests w) in
  exists urls,
    (fetch_lookup_election http eid w).2 = add_requests urls w
    /\ head urls = Some (version_url eid)
    /\ (length urls <= 5)%nat
    /\ (http_failure (http (n + 1)%nat (lookup_url eid)) = false ->
        http_failure (http (n + 2)%nat (election_url eid)) = false ->
        urls `prefix_of` [version_url eid; lookup_url eid; election_url eid]).
Proof.
  intros n. subst n. rewrite fetch_lookup_election_run. cbv zeta.
  destruct (get_json_result http (length (requests w)) (version_url eid)) as [vdoc|e].
  2: { eexists. split; [reflexivity|]. split; [reflexivity|]. split; [simpl; lia|].
       intros _ _. by eexists [_; _]. }
  destruct (py_get vdoc "Version" VNone) as [ver|e].
  2: { eexists. split; [reflexivity|]. split; [reflexivity|]. split; [simpl; lia|].
       intros _ _. by eexists [_; _]. }
  destruct (get_json_result http (length (requests w) + 1) (lookup_url eid))
    as [lookup|e] eqn:Hl.
  - destruct (get_json_result http (length (requests w) + 2) (election_url eid))
      as [election|e] eqn:He.
    + eexists. split; [reflexivity|]. split; [reflexivity|]. split; [simpl; lia|].
      intros _ _. by eexists [].
    + rewrite (get_json_result_HTTPError _ _ _ _ He).
      destruct (http_failure (http (length (requests w) + 2)%nat (election_url eid))).
      * unfold versioned_retry.
        destruct (get_json_result http (length (requests w) + 3)
                    (versioned_lookup_url eid ver));
          [destruct (get_json_result http (S (length (requests w) + 3))
                       (versioned_election_url eid ver))|];
          (eexists; split; [reflexivity|]; split; [reflexivity|]; split; [simpl; lia|];
           by intros _ [=]).
      * eexists. split; [reflexivity|]. split; [reflexivity|]. split; [simpl; lia|].
        intros _ _. by eexists [].
  - rewrite (get_json_result_HTTPError _ _ _ _ Hl).
    destruct (http_failure (http (length (requests w) + 1)%nat (lookup_url eid))).
    + unfold versioned_retry.
      destruct (get_json_result http (length (requests w) + 2)
                  (versioned_lookup_url eid ver));
        [destruct (get_json_result http (S (length (requests w) + 2))
                     (versioned_election_url eid ver))|];
        (eexists; split; [reflexivity|]; split; [reflexivity|]; split; [simpl; lia|];
         by intros [=]).
    + eexists. split; [reflexivity|]. split; [reflexivity|]. split; [simpl; lia|].
      intros _ _. by eexists [_].
Qed.

(** X15: the two documents [fetch_lookup_election] returns are served from
    the same path, by its last two requests: both unversioned, or both under
    the path of the marker's version; a [Lookup.json] that was served before
    [Election.json] failed is not returned.  The version returned is the
    ["Version"] field of the marker. *)
Theorem fetch_returns_a_pair http (eid : Z) (w w' : world) (lookup election ver : value) :
  let n := length (requests w) in
  fetch_lookup_election http eid w = (Ok (lookup, election, ver), w') ->
  (exists vdoc,
     document (http n (version_url eid)) = Some (VDict vdoc)
     /\ ver = default VNone (dict_get "Version" vdoc))
  /\ ((document (http (n + 1)%nat (lookup_url eid)) = Some lookup
       /\ document (http (n + 2)%nat (election_url eid)) = Some election
       /\ w' = add_requests [version_url eid; lookup_url eid; election_url eid] w)
      \/ (exists (k : nat) (done_ : list string),
            document (http k (versioned_lookup_url eid ver)) = Some lookup
            /\ document (http (S k) (versioned_election_url eid ver)) = Some election
            /\ w' = add_requests (done_ ++ [versioned_lookup_url eid ver;
                                            versioned_election_url eid ver]) w
            /\ k = (n + length done_)%nat
            /\ (done_ = [version_url eid; lookup_url eid]
                \/ done_ = [version_url eid; lookup_url eid; election_url eid]))).
Proof.
  intros n. subst n. rewrite fetch_lookup_election_run. cbv zeta.
  destruct (get_json_result http (length (requests w)) (version_url eid))
    as [vdoc|e] eqn:Hv; [|discriminate].
  apply get_json_result_Ok in Hv.
  destruct vdoc as [| | | | | |vdoc]; try discriminate. cbn [py_get].
  destruct (get_json_result http (length (requests w) + 1) (lookup_url eid))
    as [lookup0|e] eqn:Hl.
  - destruct (get_json_result http (length (requests w) + 2) (election_url eid))
      as [election0|e] eqn:He.
    + intros [= <- <- <- <-]. split; [by exists vdoc|]. left.
      apply get_json_result_Ok in Hl, He. done.
    + destruct (is_HTTPError e); [|discriminate]. unfold versioned_retry.
      destruct (get_json_result http (length (requests w) + 3) _) as [l|?] eqn:Hvl;
        [|discriminate].
      destruct (get_json_result http (S (length (requests w) + 3)) _) as [el|?] eqn:Hve;
        [|discriminate].
      intros [= <- <- <- <-]. split; [by exists vdoc|]. right.
      apply get_json_result_Ok in Hvl, Hve.
      exists (length (requests w) + 3)%nat, [version_url eid; lookup_url eid; election_url eid].
      split; [exact Hvl|]. split; [exact Hve|]. split; [reflexivity|].
      split; [reflexivity|by right].
  - destruct (is_HTTPError e); [|discriminate]. unfold versioned_retry.
    destruct (get_json_result http (length (requests w) + 2) _) as [l|?] eqn:Hvl;
      [|discriminate].
    destruct (get_json_result http (S (length (requests w) + 2)) _) as [el|?] eqn:Hve;
      [|discriminate].
    intros [= <- <- <- <-]. split; [by exists vdoc|]. right.
    apply get_json_result_Ok in Hvl, Hve.
    exists (length (requests w) + 2)%nat, [version_url eid; lookup_url eid].
    split; [exact Hvl|]. split; [exact Hve|]. split; [reflexivity|].
    split; [reflexivity|by left].
Qed.

Lemma fetch_returns_a_pair_witness :
  (exists vdoc,
     document (finalized_server 0%nat (version_url 97)) = Some (VDict vdoc)
     /\ VStr "v7" = default VNone (dict_get "Version" vdoc))
  /\ ((document (finalized_server 1%nat (lookup_url 97)) = Some (lookup_json hartford_lookup)
       /\ document (finalized_server 2%nat (election_url 97))
          = Some (election_json hartford_election)
       /\ (fetch_lookup_election finalized_server 97 new_world).2
          = add_requests [version_url 97; lookup_url 97; election_url 97] new_world)
      \/ (exists (k : nat) (done_ : list string),
            document (finalized_server k (versioned_lookup_url 97 (VStr "v7")))
            = Some (lookup_json hartford_lookup)
            /\ document (finalized_server (S k) (versioned_election_url 97 (VStr "v7")))
               = Some (election_json hartford_election)
            /\ (fetch_lookup_election finalized_server 97 new_world).2
               = add_requests (done_ ++ [versioned_lookup_url 97 (VStr "v7");
                                         versioned_election_url 97 (VStr "v7")]) new_world
            /\ k = (0 + length done_)%nat
            /\ (done_ = [version_url 97; lookup_url 97]
                \/ done_ = [version_url 97; lookup_url 97; election_url 97]))).
Proof.
  apply (fetch_returns_a_pair finalized_server 97 new_world
           (fetch_lookup_election finalized_server 97 new_world).2
           (lookup_json hartford_lookup) (election_json hartford_election) (VStr "v7")).
  reflexivity.
Defined.

Lemma fetch_requests_bounded_witness :
  exists urls,
    (fetch_lookup_election unreachable_server 97 new_world).2 = add_requests urls new_world
    /\ urls `prefix_of` [version_url 97; lookup_url 97; election_url 97].
Proof.
  destruct (fetch_requests_bounded unreachable_server 97 new_world)
    as (urls & Hrun & _ & _ & Hplain).
  exists urls. split; [exact Hrun|]. apply Hplain; reflexivity.
Defined.

(** X16: a version marker that decodes to something else than a mapping
    ends the fetch after one request, with the [RuntimeError] that carries
    the [AttributeError] of [.get]; a marker without ["Version"] field gives
    the version [None], and the retry after an HTTP error then asks for the
    documents under the path segment ["None"]. *)
Theorem fetch_odd_version_markers http (eid : Z) (w : world) :
  let n := length (requests w) in
  (forall marker : value,
     document (http n (version_url eid)) = Some marker ->
     isinstance_dict marker = false ->
     fetch_lookup_election http eid w
     = (Raise (Exn RuntimeError
                 ("Could not fetch election " +:+ str_of_Z eid +:+ ": '"
                    +:+ type_name marker +:+ "' object has no attribute 'get'")),
        add_requests [version_url eid] w))
  /\ (forall vdoc : record,
        document (http n (version_url eid)) = Some (VDict vdoc) ->
        dict_get "Version" vdoc = None ->
        http_failure (http (n + 1)%nat (lookup_url eid)) = true ->
        exists rest,
          requests (fetch_lookup_election http eid w).2
          = requests w ++ [version_url eid; lookup_url eid;
                           BASE +:+ "/" +:+ str_of_Z eid +:+ "/None/Lookupdata.json"] ++ rest).
Proof.
  intros n. subst n. split.
  - intros marker Hv Hm. rewrite fetch_lookup_election_run. cbv zeta.
    rewrite (get_json_document _ _ _ _ Hv). by destruct marker.
  - intros vdoc Hv Hver Hfail. rewrite fetch_lookup_election_run. cbv zeta.
    rewrite (get_json_document _ _ _ _ Hv). cbn [py_get]. rewrite Hver.
    destruct (get_json_http_failure _ _ _ Hfail) as [msg ->].
    cbn [is_HTTPError exn_kind default]. unfold versioned_retry.
    change (versioned_lookup_url eid VNone)
      with (BASE +:+ "/" +:+ str_of_Z eid +:+ "/" +:+ "None" +:+ "/Lookupdata.json").
    assert ("/" +:+ "None" +:+ "/Lookupdata.json" = "/None/Lookupdata.json") as E
      by reflexivity.
    destruct (get_json_result http (length (requests w) + 2) _);
      [destruct (get_json_result http (S (length (requests w) + 2)) _)|];
      cbn [snd add_requests requests app]; rewrite ?E; by eexists.
Qed.

Lemma fetch_odd_version_markers_witness :
  fetch_lookup_election array_marker_server 97 new_world
  = (Raise (Exn RuntimeError
              "Could not fetch election 97: 'list' object has no attribute 'get'"),
     add_requests ["https://ctemsmedia.tgstg.net/ng-app/data/election/97/Version.json"]
       new_world)
  /\ exists rest,
       requests (fetch_lookup_election unversioned_marker_server 97 new_world).2
       = ["https://ctemsmedia.tgstg.net/ng-app/data/election/97/Version.json";
          "https://ctemsmedia.tgstg.net/ng-app/data/election/97/Lookup.json";
          "https://ctemsmedia.tgstg.net/ng-app/data/election/97/None/Lookupdata.json"]
         ++ rest.
Proof.
  destruct (fetch_odd_version_markers array_marker_server 97 new_world) as [Hodd _].
  destruct (fetch_odd_version_markers unversioned_marker_server 97 new_world) as [_ Hnone].
  split.
  - apply (Hodd (VList [VStr "v7"])); reflexivity.
  - apply (Hnone [("Released", VStr "2025-11-04")]); reflexivity.
Defined.

(** ** The publisher *)

Lemma dict_set_set {A} (k : string) (v v' : A) (l : list (string * A)) :
  dict_set k v (dict_set k v' l) = dict_set k v l.
Proof.
  induction l as [|[k' x] l IH]; cbn [dict_set].
  - by rewrite String.eqb_refl.
  - destruct (String.eqb k k') eqn:Hk; cbn [dict_set].
    + by rewrite String.eqb_refl.
    + by rewrite Hk, IH.
Qed.

Lemma dict_set_names {A} (k : string) (v : A) (l : list (string * A)) :
  map fst (dict_set k v l)
  = match dict_get k l with Some _ => map fst l | None => map fst l ++ [k] end.
Proof.
  induction l as [|[k' x] l IH]; cbn [dict_set dict_get]; [reflexivity|].
  destruct (String.eqb k k') eqn:Hk.
  - apply String.eqb_eq in Hk as ->. reflexivity.
  - cbn [map fst]. rewrite IH. by destruct (dict_get k l).
Qed.

Lemma dict_get_is_Some {A} (k : string) (l : list (string * A)) :
  is_Some (dict_get k l) <-> k ∈ map fst l.
Proof.
  induction l as [|[k' x] l IH]; cbn [dict_get map fst].
  - rewrite elem_of_nil. split; [by intros [? [=]]|done].
  - rewrite elem_of_cons. destruct (String.eqb k k') eqn:Hk.
    + apply String.eqb_eq in Hk. split; [by left|by eexists].
    + apply String.eqb_neq in Hk. rewrite IH. split; [by right|by intros [?|?]].
Qed.

(** Setting a key keeps the order of the keys; a new key comes last. *)
Lemma dict_set_tabs {A} (k : string) (v : A) (l : list (string * A)) :
  map fst (dict_set k v l)
  = (if bool_decide (k ∈ map fst l) then map fst l else map fst l ++ [k]).
Proof.
  rewrite dict_set_names. assert (Hin := dict_get_is_Some k l).
  destruct (dict_get k l) as [x|].
  - rewrite bool_decide_true; [done|]. apply Hin. by eexists.
  - rewrite bool_decide_false; [done|]. intros H. apply Hin in H as [? [=]].
Qed.

Lemma ensure_ws_run (name : string) (w : world) :
  ensure_ws name w = (Ok name, set_workbook (Some (dict_set name None (sheets w))) w).
Proof.
  unfold ensure_ws, try_except, sheets. mstep. unfold worksheet.
  destruct (dict_get name (default [] (workbook w))); reflexivity.
Qed.

Lemma write_df_run (name : string) (df : ref) (w : world) :
  write_df name df w
  = (Ok tt, set_workbook (Some (dict_set name (Some (frame_at w df)) (sheets w))) w).
Proof.
  unfold write_df. mstep. rewrite ensure_ws_run. mstep. cbn [deref].
  unfold set_sheet, sheets, frame_at. cbn [set_workbook workbook heap requests stdout default].
  unfold id. by rewrite dict_set_set.
Qed.

(** X17: [ensure_ws] never raises: whether the spreadsheet has a worksheet
    of that name or not, afterwards it has one, blank, and the call returns
    it; the other worksheets keep their content, the tabs keep their order
    (a new tab comes last), and nothing else changes. *)
Theorem ensure_ws_gives_blank_sheet (name : string) (w : world)
    (b : list (string * option DataFrame)) :
  workbook w = Some b ->
  exists w',
    ensure_ws name w = (Ok name, w')
    /\ dict_get name (sheets w') = Some None
    /\ (forall other, other <> name -> dict_get other (sheets w') = dict_get other b)
    /\ sheet_names w'
       = (if bool_decide (name ∈ map fst b) then map fst b else map fst b ++ [name])
    /\ heap w' = heap w /\ requests w' = requests w /\ stdout w' = stdout w.
Proof.
  intros Hb. rewrite ensure_ws_run. eexists. split; [reflexivity|].
  unfold sheets, sheet_names, sheets. cbn [set_workbook workbook heap requests stdout default].
  rewrite Hb. cbn [default]. unfold id.
  split; [apply dict_get_set_eq|]. split; [intros other Hne; by apply dict_get_set_ne|].
  split; [apply dict_set_tabs|done].
Qed.

Lemma ensure_ws_gives_blank_sheet_witness :
  exists w',
    ensure_ws "Results_EN" used_world = (Ok "Results_EN", w')
    /\ dict_get "Results_EN" (sheets w') = Some None
    /\ dict_get "Notes" (sheets w') = Some (Some (Frame 1 [("text", [VStr "keep"])]))
    /\ sheet_names w' = ["Notes"; "Results_EN"].
Proof.
  destruct (ensure_ws_gives_blank_sheet "Results_EN" used_world used_workbook eq_refl)
    as (w' & Hrun & Hblank & Hother & Hnames & _).
  exists w'. split; [exact Hrun|]. split; [exact Hblank|]. split.
  - rewrite (Hother "Notes"); [reflexivity|discriminate].
  - rewrite Hnames. reflexivity.
Defined.

(** X18: [write_df] never raises and leaves the worksheet of that name
    holding the table as it is at that moment, in place of what the sheet
    held; the other worksheets keep their content, the table itself is not
    changed, and writing a table again in the same state changes nothing. *)
Theorem write_df_replaces_sheet (name : string) (df : ref) (w : world) (d : DataFrame)
    (b : list (string * option DataFrame)) :
  workbook w = Some b ->
  heap w !! df = Some d ->
  exists w',
    write_df name df w = (Ok tt, w')
    /\ dict_get name (sheets w') = Some (Some d)
    /\ (forall other, other <> name -> dict_get other (sheets w') = dict_get other b)
    /\ sheet_names w'
       = (if bool_decide (name ∈ map fst b) then map fst b else map fst b ++ [name])
    /\ heap w' = heap w /\ requests w' = requests w /\ stdout w' = stdout w
    /\ write_df name df w' = (Ok tt, w').
Proof.
  intros Hb Hd. rewrite write_df_run. eexists. split; [reflexivity|].
  rewrite write_df_run.
  unfold sheets, sheet_names, sheets, frame_at.
  cbn [set_workbook workbook heap requests stdout default].
  rewrite Hb, Hd. cbn [default]. unfold id.
  split; [apply dict_get_set_eq|]. split; [intros other Hne; by apply dict_get_set_ne|].
  split; [apply dict_set_tabs|by rewrite dict_set_set].
Qed.

Lemma write_df_replaces_sheet_witness :
  exists w',
    write_df "Results_EN" 0%nat used_world = (Ok tt, w')
    /\ dict_get "Results_EN" (sheets w') = Some (Some hartford_results)
    /\ sheet_names w' = ["Notes"; "Results_EN"].
Proof.
  destruct (write_df_replaces_sheet "Results_EN" 0%nat used_world hartford_results
              used_workbook eq_refl eq_refl)
    as (w' & Hrun & Hsheet & _ & Hnames & _).
  exists w'. split; [exact Hrun|]. split; [exact Hsheet|]. rewrite Hnames. reflexivity.
Defined.

(** ** The run *)

Lemma to_es_results_spec (df : ref) (w : world) :
  exists fresh,
    to_es_results df w
    = match es_results (frame_at w df) with
      | Ok out => (Ok (length (heap w ++ fresh)), set_heap ((heap w ++ fresh) ++ [out]) w)
      | Raise e => (Raise e, set_heap (heap w ++ fresh) w)
      end.
Proof.
  rewrite to_es_results_run. cbv zeta. unfold es_results.
  destruct (empty (frame_at w df)).
  - exists []. by rewrite app_nil_r.
  - destruct (translate_party (frame_at w df)) as [d2|e]; cbn [mbind result_bind].
    + exists [d2]. destruct (es_results_view d2); [|reflexivity].
      rewrite length_app, Nat.add_1_r, <- app_assoc. reflexivity.
    + by eexists.
Qed.

Lemma to_es_turnout_spec (df : ref) (w : world) :
  exists fresh,
    to_es_turnout df w
    = match es_turnout (frame_at w df) with
      | Ok out => (Ok (length (heap w ++ fresh)), set_heap ((heap w ++ fresh) ++ [out]) w)
      | Raise e => (Raise e, set_heap (heap w ++ fresh) w)
      end.
Proof.
  rewrite to_es_turnout_run. cbv zeta. unfold es_turnout.
  destruct (empty (frame_at w df)).
  - exists []. by rewrite app_nil_r.
  - destruct (localize_precincts (frame_at w df)) as [d2|e]; cbn [mbind result_bind].
    + exists [d2]. destruct (es_turnout_view d2); [|reflexivity].
      rewrite length_app, Nat.add_1_r, <- app_assoc. reflexivity.
    + by eexists.
Qed.

Lemma setitem_scalar_ref_run (r : ref) (k : string) (v : value) (w : world) (d : DataFrame) :
  heap w !! r = Some d ->
  setitem_scalar_ref r k v w = (Ok tt, set_heap (<[r := setitem_scalar d k v]> (heap w)) w).
Proof. intros Hd. unfold setitem_scalar_ref. mstep. cbn [deref assign]. by rewrite Hd. Qed.

(** The inner loop of the metadata: three assignments to one table. *)
Lemma add_meta_run (ver : value) (utcnow : string) (r : ref) (w : world) (d : DataFrame) :
  heap w !! r = Some d ->
  for_M [("election_id", VInt ELECTION_ID); ("version", ver); ("scraped_at", VStr utcnow)]
    (fun kv => setitem_scalar_ref r kv.1 kv.2) w
  = (Ok tt, set_heap (<[r := add_meta ver utcnow d]> (heap w)) w).
Proof.
  intros Hd. assert (r < length (heap w))%nat as Hr by (by eapply lookup_lt_Some).
  cbn [for_M fst snd].
  mstep. rewrite (setitem_scalar_ref_run _ _ _ _ _ Hd).
  mstep. erewrite setitem_scalar_ref_run
    by (cbn [set_heap heap]; by apply list_lookup_insert_eq).
  mstep. erewrite setitem_scalar_ref_run
    by (cbn [set_heap heap]; apply list_lookup_insert_eq; by rewrite length_insert).
  cbn [mret M_ret set_heap heap requests workbook stdout].
  by rewrite !list_insert_insert_eq.
Qed.

(** The outer loop: the four tables, one after the other. *)
Lemma meta_loop_run (ver : value) (utcnow : string) (w : world) (r1 r2 r3 r4 : ref)
    (d1 d2 d3 d4 : DataFrame) :
  heap w !! r1 = Some d1 -> heap w !! r2 = Some d2 ->
  heap w !! r3 = Some d3 -> heap w !! r4 = Some d4 ->
  (r1 < r2 < r3)%nat -> (r3 < r4)%nat ->
  exists h,
    for_M [r1; r2; r3; r4]
      (fun df =>
         for_M [("election_id", VInt ELECTION_ID); ("version", ver);
                ("scraped_at", VStr utcnow)]
           (fun kv => setitem_scalar_ref df kv.1 kv.2)) w
    = (Ok tt, set_heap h w)
    /\ h !! r1 = Some (add_meta ver utcnow d1)
    /\ h !! r2 = Some (add_meta ver utcnow d2)
    /\ h !! r3 = Some (add_meta ver utcnow d3)
    /\ h !! r4 = Some (add_meta ver utcnow d4).
Proof.
  intros H1 H2 H3 H4 Hlt Hlt'.
  assert (r1 < length (heap w))%nat by (by eapply lookup_lt_Some).
  assert (r2 < length (heap w))%nat by (by eapply lookup_lt_Some).
  assert (r3 < length (heap w))%nat by (by eapply lookup_lt_Some).
  assert (r4 < length (heap w))%nat by (by eapply lookup_lt_Some).
  eexists. split.
  - set (body := fun df : ref => for_M _ _).
    cbn [for_M]. subst body. cbv beta.
    mstep. rewrite (add_meta_run _ _ _ _ _ H1).
    mstep. erewrite add_meta_run
      by (cbn [set_heap heap]; rewrite list_lookup_insert_ne by lia; exact H2).
    mstep. erewrite add_meta_run
      by (cbn [set_heap heap]; rewrite !list_lookup_insert_ne by lia; exact H3).
    mstep. erewrite add_meta_run
      by (cbn [set_heap heap]; rewrite !list_lookup_insert_ne by lia; exact H4).
    cbn [mret M_ret set_heap heap requests workbook stdout]. reflexivity.
  - split; [|split; [|split]].
    + rewrite !list_lookup_insert_ne by lia. apply list_lookup_insert_eq. lia.
    + rewrite !list_lookup_insert_ne by lia. apply list_lookup_insert_eq.
      rewrite !length_insert. lia.
    + rewrite !list_lookup_insert_ne by lia. apply list_lookup_insert_eq.
      rewrite !length_insert. lia.
    + apply list_lookup_insert_eq. rewrite !length_insert. lia.
Qed.

Lemma open_or_create_run (w : world) :
  try_except open_sheet is_SpreadsheetNotFound (fun _ => create_sheet) w
  = (Ok tt, set_workbook (Some (default [("Sheet1", None)] (workbook w))) w).
Proof.
  unfold try_except, open_sheet, create_sheet, set_workbook.
  destruct w as [h rq [b|] out]; reflexivity.
Qed.

Lemma len_add_meta (ver : value) (utcnow : string) (d : DataFrame) :
  len (add_meta ver utcnow d) = len d.
Proof. reflexivity. Qed.

Lemma lift_new_run (r : result DataFrame) (w : world) :
  (d ← lift r; new d) w
  = match r with
    | Ok d => (Ok (length (heap w)), set_heap (heap w ++ [d]) w)
    | Raise e => (Raise e, w)
    end.
Proof. mstep. unfold lift. by destruct r. Qed.

Lemma frame_at_World (h : list DataFrame) (rq : list string)
    (wb : option (list (string * option DataFrame))) (out : list string) (r : ref)
    (d : DataFrame) :
  h !! r = Some d -> frame_at (World h rq wb out) r = d.
Proof. intros H. by apply frame_at_lookup. Qed.

Lemma set_heap_World (h h0 : list DataFrame) (rq : list string)
    (wb : option (list (string * option DataFrame))) (out : list string) :
  set_heap h (World h0 rq wb out) = World h rq wb out.
Proof. reflexivity. Qed.

Lemma set_workbook_World (h : list DataFrame) (rq : list string)
    (wb wb0 : option (list (string * option DataFrame))) (out : list string) :
  set_workbook wb (World h rq wb0 out) = World h rq wb out.
Proof. reflexivity. Qed.

Lemma write_df_World (name : string) (r : ref) (d : DataFrame) (h : list DataFrame)
    (rq : list string) (b : list (string * option DataFrame)) (out : list string) :
  h !! r = Some d ->
  write_df name r (World h rq (Some b) out)
  = (Ok tt, World h rq (Some (dict_set name (Some d) b)) out).
Proof. intros Hd. rewrite write_df_run. unfold frame_at, sheets. cbn. by rewrite Hd. Qed.

Ltac mstep_in H := unfold mbind at 1 in H; unfold M_bind at 1 in H.

Lemma main_run read_float http utcnow service_account (w w1 : world)
    (lookup election ver : value) :
  fetch_lookup_election http ELECTION_ID w = (Ok (lookup, election, ver), w1) ->
  match main_outcome read_float utcnow service_account lookup election ver (workbook w1) with
  | Ok (b, lines) =>
      exists h,
        main read_float http utcnow service_account w
        = (Ok tt, World h (requests w1) (Some b) (stdout w1 ++ lines))
  | Raise e =>
      exists h,
        main read_float http utcnow service_account w
        = (Raise e, World h (requests w1) (workbook w1) (stdout w1))
  end.
Proof.
  intros Hfetch.
  remember (main read_float http utcnow service_account w) as m eqn:Hm.
  unfold main in Hm. mstep_in Hm. rewrite Hfetch in Hm.
  mstep_in Hm. rewrite lift_new_run in Hm.
  unfold main_outcome.
  destruct (parse_results read_float lookup election) as [res|e]; cbn [mbind result_bind].
  2: { exists (heap w1). rewrite Hm. by destruct w1. }
  mstep_in Hm. rewrite lift_new_run in Hm.
  destruct (parse_turnout read_float election) as [tur|e]; cbn [mbind result_bind].
  2: { eexists. rewrite Hm. reflexivity. }
  cbn [set_heap heap requests workbook stdout] in Hm.
  change (set_heap ((heap w1 ++ [res]) ++ [tur]) (set_heap (heap w1 ++ [res]) w1))
    with (World ((heap w1 ++ [res]) ++ [tur]) (requests w1) (workbook w1) (stdout w1)) in Hm.
  assert (((heap w1 ++ [res]) ++ [tur]) !! length (heap w1) = Some res) as H1
    by (apply lookup_app_l_Some, list_lookup_middle; reflexivity).
  assert (((heap w1 ++ [res]) ++ [tur]) !! length (heap w1 ++ [res]) = Some tur) as H2
    by (apply list_lookup_middle; reflexivity).
  assert (length (heap w1) < length (heap w1 ++ [res]))%nat as H12
    by (rewrite length_app; simpl; lia).
  assert (length (heap w1 ++ [res]) < length ((heap w1 ++ [res]) ++ [tur]))%nat as H23
    by (rewrite (length_app _ [tur]); simpl; lia).
  revert Hm H1 H2 H12 H23.
  generalize (length (heap w1 ++ [res])) as r2. generalize (length (heap w1)) as r1.
  generalize ((heap w1 ++ [res]) ++ [tur]) as h3.
  intros h3 r1 r2 Hm H1 H2 H12 H23.
  mstep_in Hm.
  destruct (to_es_results_spec r1 (World h3 (requests w1) (workbook w1) (stdout w1)))
    as [f1 Hres].
  rewrite Hres in Hm. clear Hres.
  rewrite (frame_at_World _ _ _ _ _ _ H1) in Hm.
  destruct (es_results res) as [res_es|e]; cbn [mbind result_bind].
  2: { eexists. rewrite Hm. reflexivity. }
  cbn [heap] in Hm. rewrite set_heap_World in Hm.
  assert (((h3 ++ f1) ++ [res_es]) !! r1 = Some res) as H1'
    by (by do 2 apply lookup_app_l_Some).
  assert (((h3 ++ f1) ++ [res_es]) !! r2 = Some tur) as H2'
    by (by do 2 apply lookup_app_l_Some).
  assert (((h3 ++ f1) ++ [res_es]) !! length (h3 ++ f1) = Some res_es) as H3
    by (apply list_lookup_middle; reflexivity).
  assert (r2 < length (h3 ++ f1))%nat as H23' by (rewrite length_app; lia).
  assert (length (h3 ++ f1) < length ((h3 ++ f1) ++ [res_es]))%nat as H34
    by (rewrite (length_app _ [res_es]); simpl; lia).
  clear H1 H2 H23.
  revert Hm H1' H2' H3 H23' H34.
  generalize (length (h3 ++ f1)) as r3. generalize ((h3 ++ f1) ++ [res_es]) as h4.
  intros h4 r3 Hm H1 H2 H3 H23 H34.
  mstep_in Hm.
  destruct (to_es_turnout_spec r2 (World h4 (requests w1) (workbook w1) (stdout w1)))
    as [f2 Htur].
  rewrite Htur in Hm. clear Htur.
  rewrite (frame_at_World _ _ _ _ _ _ H2) in Hm.
  destruct (es_turnout tur) as [tur_es|e]; cbn [mbind result_bind].
  2: { eexists. rewrite Hm. reflexivity. }
  cbn [heap] in Hm. rewrite set_heap_World in Hm.
  assert (((h4 ++ f2) ++ [tur_es]) !! r1 = Some res) as H1'
    by (by do 2 apply lookup_app_l_Some).
  assert (((h4 ++ f2) ++ [tur_es]) !! r2 = Some tur) as H2'
    by (by do 2 apply lookup_app_l_Some).
  assert (((h4 ++ f2) ++ [tur_es]) !! r3 = Some res_es) as H3'
    by (by do 2 apply lookup_app_l_Some).
  assert (((h4 ++ f2) ++ [tur_es]) !! length (h4 ++ f2) = Some tur_es) as H4
    by (apply list_lookup_middle; reflexivity).
  assert (r3 < length (h4 ++ f2))%nat as H34' by (rewrite length_app; lia).
  clear H1 H2 H3 H34.
  revert Hm H1' H2' H3' H4 H34'.
  generalize (length (h4 ++ f2)) as r4. generalize ((h4 ++ f2) ++ [tur_es]) as h5.
  intros h5 r4 Hm H1 H2 H3 H4 H34.
  mstep_in Hm.
  destruct (meta_loop_run ver utcnow (World h5 (requests w1) (workbook w1) (stdout w1))
              r1 r2 r3 r4 _ _ _ _ H1 H2 H3 H4 (conj H12 H23) H34)
    as (h6 & Hmeta & M1 & M2 & M3 & M4).
  rewrite Hmeta in Hm. clear Hmeta.
  rewrite set_heap_World in Hm.
  mstep_in Hm. unfold from_service_account_file, lift at 1 in Hm.
  destruct service_account; cbn [mbind result_bind].
  2: { exists h6. rewrite Hm. reflexivity. }
  mstep_in Hm. rewrite open_or_create_run in Hm.
  rewrite set_workbook_World in Hm. cbn [workbook] in Hm.
  change (tab "Results_EN") with (Ok "Results_EN" : result string) in Hm.
  change (tab "Turnout_EN") with (Ok "Turnout_EN" : result string) in Hm.
  change (tab "Results_ES") with (Ok "Results_ES" : result string) in Hm.
  change (tab "Turnout_ES") with (Ok "Turnout_ES" : result string) in Hm.
  do 4 (mstep_in Hm; unfold lift at 1 in Hm; mstep_in Hm;
        erewrite write_df_World in Hm by eassumption).
  mstep_in Hm. unfold print at 1 in Hm. cbn [heap requests workbook stdout] in Hm.
  mstep_in Hm. unfold deref at 1 in Hm. cbn [heap] in Hm. rewrite M1 in Hm.
  mstep_in Hm. unfold deref at 1 in Hm. cbn [heap] in Hm. rewrite M2 in Hm.
  cbn [default] in Hm. unfold id in Hm.
  mstep_in Hm. unfold print in Hm. cbn [heap requests workbook stdout] in Hm.
  exists h6. rewrite Hm. unfold published, report. rewrite !len_add_meta.
  rewrite <- !app_assoc. reflexivity.
Qed.

Lemma es_results_keeps_rows (d : DataFrame) :
  index d = 0%nat \/ is_results_table d = true ->
  exists d', es_results d = Ok d' /\ results_view_of d d'.
Proof.
  intros Hin.
  destruct (to_es_results_keeps_rows (World [d] [] None []) 0%nat d eq_refl Hin)
    as (out & w' & d' & Hrun & Hout & Hview).
  destruct (to_es_results_spec 0%nat (World [d] [] None [])) as [fresh Hspec].
  rewrite Hrun in Hspec. change (frame_at (World [d] [] None []) 0%nat) with d in Hspec.
  destruct (es_results d) as [o|e]; [|discriminate].
  injection Hspec as -> ->. exists o. split; [done|].
  change ((fresh ++ [o]) !! length fresh = Some d') in Hout.
  rewrite list_lookup_middle in Hout by done. by injection Hout as <-.
Qed.

Lemma es_turnout_keeps_rows (d : DataFrame) :
  index d = 0%nat \/ is_turnout_table d = true ->
  exists d', es_turnout d = Ok d' /\ turnout_view_of d d'.
Proof.
  intros Hin.
  destruct (to_es_turnout_keeps_rows (World [d] [] None []) 0%nat d eq_refl Hin)
    as (out & w' & d' & Hrun & Hout & Hview).
  destruct (to_es_turnout_spec 0%nat (World [d] [] None [])) as [fresh Hspec].
  rewrite Hrun in Hspec. change (frame_at (World [d] [] None []) 0%nat) with d in Hspec.
  destruct (es_turnout d) as [o|e]; [|discriminate].
  injection Hspec as -> ->. exists o. split; [done|].
  change ((fresh ++ [o]) !! length fresh = Some d') in Hout.
  rewrite list_lookup_middle in Hout by done. by injection Hout as <-.
Qed.

Lemma es_results_of_parsed read_float (rows : list record) :
  (exists d', es_results (results_table read_float rows) = Ok d'
              /\ results_view_of (results_table read_float rows) d')
  \/ (exists e, es_results (results_table read_float rows) = Raise e
                /\ exn_kind e = TypeError).
Proof.
  destruct (forallb hashable (column "party" rows)) eqn:Hh.
  - left. apply es_results_keeps_rows. by apply results_table_input.
  - right. destruct rows as [|r rows]; [discriminate Hh|].
    unfold es_results.
    change (empty (results_table read_float (r :: rows))) with false. cbv iota.
    unfold translate_party.
    change (getitem (results_table read_float (r :: rows)) "party")
      with (Ok (column "party" (r :: rows)) : result Series).
    cbn [mbind result_bind].
    destruct (series_map_unhashable _ Hh) as (e & -> & He).
    cbn [mbind result_bind]. by eexists.
Qed.

Lemma es_turnout_of_parsed read_float (rows : list record) :
  exists d', es_turnout (turnout_table read_float rows) = Ok d'
             /\ turnout_view_of (turnout_table read_float rows) d'.
Proof. apply es_turnout_keeps_rows, turnout_table_input. Qed.

Lemma fetch_keeps_workbook http (eid : Z) (w w1 : world) (r : result (value * value * value)) :
  fetch_lookup_election http eid w = (r, w1) ->
  heap w1 = heap w /\ workbook w1 = workbook w /\ stdout w1 = stdout w
  /\ exists urls, requests w1 = requests w ++ urls.
Proof.
  intros H.
  destruct (fetch_outcome http eid w) as [(docs & urls & H')|(cause & urls & H')];
    rewrite H' in H; injection H as _ <-; (split; [done|split; [done|split; [done|]]]);
    by exists urls.
Qed.

Lemma published_tabs (ver : value) (utcnow : string) (res tur res_es tur_es : DataFrame)
    (b : list (string * option DataFrame)) :
  dict_get "Results_EN" (published ver utcnow res tur res_es tur_es b)
  = Some (Some (add_meta ver utcnow res))
  /\ dict_get "Turnout_EN" (published ver utcnow res tur res_es tur_es b)
     = Some (Some (add_meta ver utcnow tur))
  /\ dict_get "Results_ES" (published ver utcnow res tur res_es tur_es b)
     = Some (Some (add_meta ver utcnow res_es))
  /\ dict_get "Turnout_ES" (published ver utcnow res tur res_es tur_es b)
     = Some (Some (add_meta ver utcnow tur_es))
  /\ forall name,
       name ∉ ["Results_EN"; "Turnout_EN"; "Results_ES"; "Turnout_ES"] ->
       dict_get name (published ver utcnow res tur res_es tur_es b) = dict_get name b.
Proof.
  unfold published. repeat split.
  - rewrite !dict_get_set_ne by discriminate. apply dict_get_set_eq.
  - rewrite !dict_get_set_ne by discriminate. apply dict_get_set_eq.
  - rewrite !dict_get_set_ne by discriminate. apply dict_get_set_eq.
  - apply dict_get_set_eq.
  - intros name Hn. rewrite !dict_get_set_ne; [done|..]; intros <-; apply Hn;
      repeat constructor.
Qed.

(** X19: when the fetch returns documents of the data model in which the
    party names are scalars, and the service account file is there, [main]
    returns; the worksheets Results_EN and Turnout_EN then hold the tables of
    the two parsers and Results_ES and Turnout_ES Spanish views of them, each
    with the three metadata columns; and three lines are printed, the second
    with the numbers of tallies and of towns, grouped by thousands. *)
Theorem main_publishes_tables (read_float : string -> option value)
    (http : nat -> string -> response) (utcnow : string) (w w1 : world)
    (L : LookupDocument) (E : ElectionDocument) (ver : value) :
  fetch_lookup_election http ELECTION_ID w = (Ok (lookup_json L, election_json E, ver), w1) ->
  is_scalar ver = true ->
  forallb hashable (column "party" (map (result_record L) (tallies E))) = true ->
  let res := results_table read_float (map (result_record L) (tallies E)) in
  let tur := turnout_table read_float (map (turnout_record E) (voterTurnout E)) in
  exists w' res_es tur_es,
    main read_float http utcnow true w = (Ok tt, w')
    /\ dict_get "Results_EN" (sheets w') = Some (Some (add_meta ver utcnow res))
    /\ dict_get "Turnout_EN" (sheets w') = Some (Some (add_meta ver utcnow tur))
    /\ dict_get "Results_ES" (sheets w') = Some (Some (add_meta ver utcnow res_es))
    /\ dict_get "Turnout_ES" (sheets w') = Some (Some (add_meta ver utcnow tur_es))
    /\ results_view_of res res_es
    /\ turnout_view_of tur tur_es
    /\ stdout w'
       = stdout w
         ++ ["✅ Election 97, version " +:+ py_str ver;
             "Results_EN " +:+ format_thousands (length (tallies E))
               +:+ " rows  Turnout_EN " +:+ format_thousands (length (voterTurnout E))
               +:+ " rows";
             "Wrote to municipal-elections-2025-angela"].
Proof.
  intros Hfetch _ Hhash res tur.
  destruct (fetch_keeps_workbook _ _ _ _ _ Hfetch) as (_ & Hwb & Hout & _).
  assert (Hrun := main_run read_float http utcnow true w w1 _ _ _ Hfetch).
  unfold main_outcome in Hrun.
  rewrite parse_results_table, parse_turnout_table in Hrun. cbn [mbind result_bind] in Hrun.
  fold res tur in Hrun.
  destruct (es_results_keeps_rows res (results_table_input _ _ Hhash))
    as (res_es & Hres & Hview).
  destruct (es_turnout_of_parsed read_float (map (turnout_record E) (voterTurnout E)))
    as (tur_es & Htur & Hview').
  fold tur in Htur, Hview'.
  rewrite Hres, Htur in Hrun. cbn [mbind result_bind] in Hrun.
  destruct Hrun as [h Hrun]. eexists _, res_es, tur_es. split; [exact Hrun|].
  unfold sheets. cbn [workbook default stdout]. unfold id.
  destruct (published_tabs ver utcnow res tur res_es tur_es
              (default [("Sheet1", None)] (workbook w1))) as (T1 & T2 & T3 & T4 & _).
  split; [exact T1|]. split; [exact T2|]. split; [exact T3|]. split; [exact T4|].
  split; [exact Hview|]. split; [exact Hview'|].
  rewrite Hout. unfold report, res, tur.
  by rewrite len_results_table, len_turnout_table, !length_map.
Qed.

Lemma main_publishes_tables_witness :
  exists w' res_es tur_es,
    main (fun _ => None) live_server "2025-11-04T21:00:00+00:00" true new_world = (Ok tt, w')
    /\ dict_get "Results_EN" (sheets w')
       = Some (Some (add_meta (VStr "v7") "2025-11-04T21:00:00+00:00" hartford_results))
    /\ dict_get "Results_ES" (sheets w')
       = Some (Some (add_meta (VStr "v7") "2025-11-04T21:00:00+00:00" res_es))
    /\ dict_get "Turnout_ES" (sheets w')
       = Some (Some (add_meta (VStr "v7") "2025-11-04T21:00:00+00:00" tur_es))
    /\ results_view_of hartford_results res_es
    /\ turnout_view_of hartford_turnout tur_es
    /\ stdout w'
       = ["✅ Election 97, version v7";
          "Results_EN 2 rows  Turnout_EN 2 rows";
          "Wrote to municipal-elections-2025-angela"].
Proof.
  destruct (main_publishes_tables (fun _ => None) live_server "2025-11-04T21:00:00+00:00"
              new_world (fetch_lookup_election live_server 97 new_world).2
              hartford_lookup hartford_election (VStr "v7") eq_refl eq_refl eq_refl)
    as (w' & res_es & tur_es & Hrun & T1 & _ & T3 & T4 & V1 & V2 & Hout).
  exists w', res_es, tur_es.
  split; [exact Hrun|]. split; [exact T1|]. split; [exact T3|]. split; [exact T4|].
  split; [exact V1|]. split; [exact V2|]. exact Hout.
Defined.

(** X20: after a successful fetch, what [main] can still raise is the
    [AttributeError] or [TypeError] of a parser, the [TypeError] of a party
    name that cannot be translated, or the [FileNotFoundError] of a missing
    service account file; never a [KeyError].  Each of them is raised before
    the spreadsheet is opened: the worksheets are as they were and nothing
    has been printed.  Without the service account file [main] never
    returns. *)
Theorem main_fails_before_publishing (read_float : string -> option value)
    (http : nat -> string -> response) (utcnow : string) (service_account : bool)
    (w w1 : world) (lookup election ver : value) :
  fetch_lookup_election http ELECTION_ID w = (Ok (lookup, election, ver), w1) ->
  is_scalar ver = true ->
  (forall (e : exn) (w' : world),
     main read_float http utcnow service_account w = (Raise e, w') ->
     raises_one_of [AttributeError; TypeError; FileNotFoundError] e
     /\ (exn_kind e = FileNotFoundError -> service_account = false)
     /\ workbook w' = workbook w /\ stdout w' = stdout w)
  /\ (service_account = false ->
      exists e w', main read_float http utcnow service_account w = (Raise e, w')).
Proof.
  intros Hfetch _.
  destruct (fetch_keeps_workbook _ _ _ _ _ Hfetch) as (_ & Hwb & Hout & _).
  assert (Hrun := main_run read_float http utcnow service_account w w1 _ _ _ Hfetch).
  unfold main_outcome in Hrun.
  assert (forall (e e' : exn) (h : list DataFrame) (w2 : world),
            main read_float http utcnow service_account w = (Raise e, w2) ->
            main read_float http utcnow service_account w
            = (Raise e', World h (requests w1) (workbook w1) (stdout w1)) ->
            e = e' /\ workbook w2 = workbook w /\ stdout w2 = stdout w) as Hsame.
  { intros e e' h w2 H1 H2. rewrite H2 in H1. injection H1 as -> <-. done. }
  destruct (parse_results_stages read_float lookup election)
    as [(e1 & Hp1 & Hc1)|(rows & _ & Hp1)]; rewrite Hp1 in Hrun;
    cbn [mbind result_bind] in Hrun.
  { destruct Hrun as [h Hrun]. split; [|by eexists _, _].
    intros e w' Hm. destruct (Hsame _ _ _ _ Hm Hrun) as (-> & ? & ?).
    split; [|split; [|done]].
    - unfold raises_one_of in *. simpl in *. tauto.
    - intros Hk. unfold raises_one_of in Hc1. simpl in Hc1. rewrite Hk in Hc1.
      destruct Hc1 as [?|[?|[]]]; discriminate. }
  destruct (parse_turnout_stages read_float election)
    as [(e2 & Hp2 & Hc2)|(rows' & _ & Hp2)]; rewrite Hp2 in Hrun;
    cbn [mbind result_bind] in Hrun.
  { destruct Hrun as [h Hrun]. split; [|by eexists _, _].
    intros e w' Hm. destruct (Hsame _ _ _ _ Hm Hrun) as (-> & ? & ?).
    split; [|split; [|done]].
    - unfold raises_one_of in *. simpl in *. tauto.
    - intros Hk. unfold raises_one_of in Hc2. simpl in Hc2. rewrite Hk in Hc2.
      destruct Hc2 as [?|[]]; discriminate. }
  destruct (es_results_of_parsed read_float rows)
    as [(res_es & Hp3 & _)|(e3 & Hp3 & Hc3)]; rewrite Hp3 in Hrun;
    cbn [mbind result_bind] in Hrun.
  2: { destruct Hrun as [h Hrun]. split; [|by eexists _, _].
       intros e w' Hm. destruct (Hsame _ _ _ _ Hm Hrun) as (-> & ? & ?).
       split; [|split; [|done]].
       - unfold raises_one_of. rewrite Hc3. simpl. tauto.
       - rewrite Hc3. discriminate. }
  destruct (es_turnout_of_parsed read_float rows') as (tur_es & Hp4 & _).
  rewrite Hp4 in Hrun. cbn [mbind result_bind] in Hrun.
  destruct service_account; cbn [mbind result_bind] in Hrun; destruct Hrun as [h Hrun].
  - split; [|discriminate]. intros e w' Hm. rewrite Hrun in Hm. discriminate.
  - split; [|by eexists _, _].
    intros e w' Hm. destruct (Hsame _ _ _ _ Hm Hrun) as (-> & ? & ?).
    split; [|split; [|done]].
    + unfold raises_one_of. simpl. tauto.
    + done.
Qed.

Lemma main_fails_before_publishing_witness :
  exists e w',
    main (fun _ => None) live_server "2025-11-04T21:00:00+00:00" false used_world
    = (Raise e, w')
    /\ exn_kind e = FileNotFoundError
    /\ workbook w' = Some used_workbook /\ stdout w' = [].
Proof.
  destruct (main_fails_before_publishing (fun _ => None) live_server
              "2025-11-04T21:00:00+00:00" false used_world
              (fetch_lookup_election live_server 97 used_world).2
              (lookup_json hartford_lookup) (election_json hartford_election) (VStr "v7")
              eq_refl eq_refl)
    as [Hraise Hnever].
  destruct (Hnever eq_refl) as (e & w' & Hrun).
  destruct (Hraise e w' Hrun) as (Hclass & Hcred & Hwb & Hout).
  exists e, w'. split; [exact Hrun|]. split; [|split; [exact Hwb|exact Hout]].
  assert (main (fun _ => None) live_server "2025-11-04T21:00:00+00:00" false used_world
          = (Raise no_credentials,
             (main (fun _ => None) live_server "2025-11-04T21:00:00+00:00" false
                used_world).2)) as Heq by (vm_compute; reflexivity).
  rewrite Hrun in Heq. by injection Heq as ->.
Defined.

(** X21: whenever [main] returns after a fetch, the service account file was
    there, both parsers returned a table, and the spreadsheet holds under
    Results_EN and Turnout_EN these two tables and under Results_ES and
    Turnout_ES tables with as many rows as they, all four with the metadata
    columns; every other worksheet is as it was (a spreadsheet that had to be
    created has its blank first sheet and then the four tabs, in this
    order); and the three lines printed report the row counts of the English
    tables. *)
Theorem main_returns_after_publishing (read_float : string -> option value)
    (http : nat -> string -> response) (utcnow : string) (service_account : bool)
    (w w1 w' : world) (lookup election ver : value) :
  fetch_lookup_election http ELECTION_ID w = (Ok (lookup, election, ver), w1) ->
  is_scalar ver = true ->
  main read_float http utcnow service_account w = (Ok tt, w') ->
  service_account = true
  /\ exists res tur res_es tur_es,
       parse_results read_float lookup election = Ok res
       /\ parse_turnout read_float election = Ok tur
       /\ dict_get "Results_EN" (sheets w') = Some (Some (add_meta ver utcnow res))
       /\ dict_get "Turnout_EN" (sheets w') = Some (Some (add_meta ver utcnow tur))
       /\ dict_get "Results_ES" (sheets w') = Some (Some (add_meta ver utcnow res_es))
       /\ dict_get "Turnout_ES" (sheets w') = Some (Some (add_meta ver utcnow tur_es))
       /\ len res_es = len res
       /\ len tur_es = len tur
       /\ (forall name,
             name ∉ ["Results_EN"; "Turnout_EN"; "Results_ES"; "Turnout_ES"] ->
             dict_get name (sheets w')
             = dict_get name (default [("Sheet1", None)] (workbook w)))
       /\ (workbook w = None ->
           sheet_names w' = ["Sheet1"; "Results_EN"; "Turnout_EN"; "Results_ES"; "Turnout_ES"])
       /\ stdout w'
          = stdout w
            ++ ["✅ Election 97, version " +:+ py_str ver;
                "Results_EN " +:+ format_thousands (len res) +:+ " rows  Turnout_EN "
                  +:+ format_thousands (len tur) +:+ " rows";
                "Wrote to municipal-elections-2025-angela"].
Proof.
  intros Hfetch _ Hmain.
  destruct (fetch_keeps_workbook _ _ _ _ _ Hfetch) as (_ & Hwb & Hout & _).
  assert (Hrun := main_run read_float http utcnow service_account w w1 _ _ _ Hfetch).
  unfold main_outcome in Hrun.
  destruct (parse_results_stages read_float lookup election)
    as [(e1 & Hp1 & _)|(rows & _ & Hp1)]; rewrite Hp1 in Hrun;
    cbn [mbind result_bind] in Hrun.
  { destruct Hrun as [h Hrun]. rewrite Hrun in Hmain. discriminate. }
  destruct (parse_turnout_stages read_float election)
    as [(e2 & Hp2 & _)|(rows' & _ & Hp2)]; rewrite Hp2 in Hrun;
    cbn [mbind result_bind] in Hrun.
  { destruct Hrun as [h Hrun]. rewrite Hrun in Hmain. discriminate. }
  destruct (es_results_of_parsed read_float rows)
    as [(res_es & Hp3 & Hv3)|(e3 & Hp3 & _)]; rewrite Hp3 in Hrun;
    cbn [mbind result_bind] in Hrun.
  2: { destruct Hrun as [h Hrun]. rewrite Hrun in Hmain. discriminate. }
  destruct (es_turnout_of_parsed read_float rows') as (tur_es & Hp4 & Hv4).
  rewrite Hp4 in Hrun. cbn [mbind result_bind] in Hrun.
  destruct service_account; cbn [mbind result_bind] in Hrun; destruct Hrun as [h Hrun];
    rewrite Hrun in Hmain; [|discriminate].
  split; [reflexivity|]. injection Hmain as <-.
  exists (results_table read_float rows), (turnout_table read_float rows'), res_es, tur_es.
  split; [exact Hp1|]. split; [exact Hp2|].
  unfold sheets, sheet_names, sheets. cbn [workbook default stdout]. unfold id.
  destruct (published_tabs ver utcnow (results_table read_float rows)
              (turnout_table read_float rows') res_es tur_es
              (default [("Sheet1", None)] (workbook w1))) as (T1 & T2 & T3 & T4 & Tother).
  split; [exact T1|]. split; [exact T2|]. split; [exact T3|]. split; [exact T4|].
  split; [exact (proj1 Hv3)|]. split; [exact (proj1 Hv4)|].
  split; [by rewrite <- Hwb|]. split; [|by rewrite Hout].
  rewrite Hwb. intros ->. reflexivity.
Qed.

Lemma main_returns_after_publishing_witness :
  exists res tur,
    parse_results (fun _ => None) (lookup_json hartford_lookup)
      (election_json hartford_election) = Ok res
    /\ parse_turnout (fun _ => None) (election_json hartford_election) = Ok tur
    /\ dict_get "Results_EN"
         (sheets (main (fun _ => None) live_server "2025-11-04T21:00:00+00:00" true
                    used_world).2)
       = Some (Some (add_meta (VStr "v7") "2025-11-04T21:00:00+00:00" res))
    /\ dict_get "Notes"
         (sheets (main (fun _ => None) live_server "2025-11-04T21:00:00+00:00" true
                    used_world).2)
       = Some (Some (Frame 1 [("text", [VStr "keep"])])).
Proof.
  destruct (main_returns_after_publishing (fun _ => None) live_server
              "2025-11-04T21:00:00+00:00" true used_world
              (fetch_lookup_election live_server 97 used_world).2
              (main (fun _ => None) live_server "2025-11-04T21:00:00+00:00" true
                 used_world).2
              (lookup_json hartford_lookup) (election_json hartford_election) (VStr "v7")
              eq_refl eq_refl)
    as (_ & res & tur & res_es & tur_es & Hres & Htur & T1 & _ & _ & _ & _ & _ & Hother & _).
  { vm_compute. reflexivity. }
  exists res, tur. split; [exact Hres|]. split; [exact Htur|]. split; [exact T1|].
  rewrite (Hother "Notes"); [reflexivity|].
  apply (bool_decide_unpack _). vm_compute. reflexivity.
Defined.

(** ** The metadata columns *)

Lemma getitem_setitem_scalar (d : DataFrame) (k k' : string) (v : value) :
  getitem (setitem_scalar d k v) k'
  = if String.eqb k' k then Ok (replicate (index d) v) else getitem d k'.
Proof.
  unfold getitem, setitem_scalar. cbn [columns].
  destruct (String.eqb k' k) eqn:Hk.
  - apply String.eqb_eq in Hk as ->. by rewrite dict_get_set_eq.
  - rewrite dict_get_set_ne; [done|]. intros ->. by rewrite String.eqb_refl in Hk.
Qed.

Lemma well_formed_setitem_scalar (d : DataFrame) (k : string) (v : value) :
  well_formed d -> well_formed (setitem_scalar d k v).
Proof.
  unfold well_formed, setitem_scalar. cbn [columns index].
  generalize (index d). intros n Hwf.
  induction Hwf as [|[k' c] cols Hc Hcols IH]; cbn [dict_set].
  - repeat constructor. apply length_replicate.
  - destruct (String.eqb k k'); constructor; try done. apply length_replicate.
Qed.

Lemma has_column_setitem_scalar (d : DataFrame) (k k' : string) (v : value) :
  has_column k' (setitem_scalar d k v) = String.eqb k' k || has_column k' d.
Proof.
  unfold has_column, setitem_scalar. cbn [columns].
  destruct (String.eqb k' k) eqn:Hk.
  - apply String.eqb_eq in Hk as ->. by rewrite dict_get_set_eq.
  - rewrite dict_get_set_ne; [done|]. intros ->. by rewrite String.eqb_refl in Hk.
Qed.

Lemma has_column_elem (k : string) (d : DataFrame) :
  has_column k d = true <-> k ∈ map fst (columns d).
Proof.
  unfold has_column. rewrite <- dict_get_is_Some.
  destruct (dict_get k (columns d)); split; try done; by intros [? [=]].
Qed.

(** X22: the three assignments of the run metadata to a table add the
    columns [election_id], [version] and [scraped_at], each holding its one
    value on every row (on no row when the table has none); they keep the
    number of rows and every other column, put the new columns after the
    existing ones, and change no other table of the store. *)
Theorem metadata_columns (ver : value) (utcnow : string) (r : ref) (w : world)
    (d : DataFrame) :
  heap w !! r = Some d ->
  well_formed d ->
  is_scalar ver = true ->
  exists w' d',
    for_M [("election_id", VInt ELECTION_ID); ("version", ver); ("scraped_at", VStr utcnow)]
      (fun kv => setitem_scalar_ref r kv.1 kv.2) w = (Ok tt, w')
    /\ heap w' !! r = Some d'
    /\ d' = add_meta ver utcnow d
    /\ len d' = len d
    /\ well_formed d'
    /\ getitem d' "election_id" = Ok (replicate (len d) (VInt 97))
    /\ getitem d' "version" = Ok (replicate (len d) ver)
    /\ getitem d' "scraped_at" = Ok (replicate (len d) (VStr utcnow))
    /\ (forall k, k ∉ meta_labels -> getitem d' k = getitem d k)
    /\ ((forall k, k ∈ meta_labels -> has_column k d = false) ->
        map fst (columns d') = map fst (columns d) ++ meta_labels)
    /\ (forall r', r' <> r -> heap w' !! r' = heap w !! r')
    /\ workbook w' = workbook w /\ stdout w' = stdout w /\ requests w' = requests w.
Proof.
  intros Hd Hwf _. rewrite (add_meta_run _ _ _ _ _ Hd).
  eexists _, _. split; [reflexivity|]. cbn [set_heap heap workbook stdout requests].
  split; [apply list_lookup_insert_eq; by eapply lookup_lt_Some|].
  split; [reflexivity|]. split; [reflexivity|].
  split; [by do 3 apply well_formed_setitem_scalar|].
  unfold add_meta. rewrite !getitem_setitem_scalar. cbn [String.eqb Ascii.eqb Bool.eqb index].
  split; [reflexivity|]. split; [reflexivity|]. split; [reflexivity|].
  split; [|split; [|split; [|done]]].
  - intros k Hk. rewrite !getitem_setitem_scalar.
    destruct (String.eqb k "scraped_at") eqn:H1;
      [apply String.eqb_eq in H1 as ->; exfalso; apply Hk; repeat constructor|].
    destruct (String.eqb k "version") eqn:H2;
      [apply String.eqb_eq in H2 as ->; exfalso; apply Hk; repeat constructor|].
    destruct (String.eqb k "election_id") eqn:H3;
      [apply String.eqb_eq in H3 as ->; exfalso; apply Hk; repeat constructor|].
    reflexivity.
  - intros Hnew. unfold setitem_scalar at 1. cbn [columns]. rewrite dict_set_tabs.
    rewrite bool_decide_false.
    2: { rewrite <- has_column_elem, !has_column_setitem_scalar.
         rewrite (Hnew "scraped_at") by (repeat constructor). done. }
    unfold setitem_scalar at 1. cbn [columns]. rewrite dict_set_tabs.
    rewrite bool_decide_false.
    2: { rewrite <- has_column_elem, !has_column_setitem_scalar.
         rewrite (Hnew "version") by (repeat constructor). done. }
    unfold setitem_scalar at 1. cbn [columns]. rewrite dict_set_tabs.
    rewrite bool_decide_false.
    2: { rewrite <- has_column_elem. rewrite (Hnew "election_id") by (repeat constructor).
         done. }
    by rewrite <- !app_assoc.
  - intros r' Hne. by apply list_lookup_insert_ne.
Qed.

Lemma metadata_columns_witness :
  exists w' d',
    for_M [("election_id", VInt ELECTION_ID); ("version", VStr "v7");
           ("scraped_at", VStr "2025-11-04T21:00:00+00:00")]
      (fun kv => setitem_scalar_ref 1%nat kv.1 kv.2) hartford_world = (Ok tt, w')
    /\ heap w' !! 1%nat = Some d'
    /\ getitem d' "version" = Ok [VStr "v7"; VStr "v7"]
    /\ map fst (columns d') = turnout_labels ++ meta_labels
    /\ heap w' !! 0%nat = Some hartford_results.
Proof.
  destruct (metadata_columns (VStr "v7") "2025-11-04T21:00:00+00:00" 1%nat hartford_world
              hartford_turnout eq_refl)
    as (w' & d' & Hrun & Hd' & _ & _ & _ & _ & Hver & _ & _ & Hcols & Hother & _).
  { repeat constructor. }
  { reflexivity. }
  exists w', d'. split; [exact Hrun|]. split; [exact Hd'|]. split; [exact Hver|].
  split.
  - apply Hcols. intros k Hk.
    repeat (apply elem_of_cons in Hk as [->|Hk]; [reflexivity|]).
    by apply elem_of_nil in Hk.
  - etrans; [apply (Hother 0%nat); discriminate|reflexivity].
Defined.

(** ** The translation table *)

Lemma PARTY_ES_lookup (s : string) :
  dict_get s PARTY_ES
  = if String.eqb s "Democratic Party" then Some "Partido Demócrata"
    else if String.eqb s "Republican Party" then Some "Partido Republicano"
    else if String.eqb s "Working Families Party" then Some "Partido de Familias Trabajadoras"
    else if String.eqb s "Green Party" then Some "Partido Verde"
    else if String.eqb s "Independent Party" then Some "Partido Independiente"
    else if String.eqb s "Write In" then Some "Candidato por escrito"
    else if String.eqb s "Petitioning Candidate" then Some "Candidato por petición"
    else if String.eqb s "Conservative Party" then Some "Partido Conservador"
    else None.
Proof. reflexivity. Qed.

Lemma dict_get_elem {A} (k : string) (v : A) (l : list (string * A)) :
  dict_get k l = Some v -> (k, v) ∈ l.
Proof.
  induction l as [|[k' v'] l IH]; cbn [dict_get]; [done|].
  destruct (String.eqb k k') eqn:Hk.
  - apply String.eqb_eq in Hk as ->. intros [= ->]. left.
  - intros H. right. by apply IH.
Qed.

Lemma NoDup_snd_key {A} (k1 k2 : string) (v : A) (l : list (string * A)) :
  NoDup (map snd l) -> (k1, v) ∈ l -> (k2, v) ∈ l -> k1 = k2.
Proof.
  induction l as [|[k' v'] l IH]; cbn [map snd]; [by intros _ ?%elem_of_nil|].
  intros [Hv' Hnd]%NoDup_cons [H1|H1]%elem_of_cons [H2|H2]%elem_of_cons.
  - congruence.
  - injection H1 as -> ->. exfalso. apply Hv'.
    apply (list_elem_of_fmap_2 snd) in H2. exact H2.
  - injection H2 as -> ->. exfalso. apply Hv'.
    apply (list_elem_of_fmap_2 snd) in H1. exact H1.
  - by apply IH.
Qed.

Lemma party_es_text (s : string) :
  party_es (VStr s) = Ok (VStr (default s (dict_get s PARTY_ES))).
Proof. reflexivity. Qed.

Lemma PARTY_ES_fresh (s es : string) :
  dict_get s PARTY_ES = Some es -> dict_get es PARTY_ES = None.
Proof.
  rewrite (PARTY_ES_lookup s).
  destruct (String.eqb s "Democratic Party"); [intros [= <-]; vm_compute; reflexivity|].
  destruct (String.eqb s "Republican Party"); [intros [= <-]; vm_compute; reflexivity|].
  destruct (String.eqb s "Working Families Party"); [intros [= <-]; vm_compute; reflexivity|].
  destruct (String.eqb s "Green Party"); [intros [= <-]; vm_compute; reflexivity|].
  destruct (String.eqb s "Independent Party"); [intros [= <-]; vm_compute; reflexivity|].
  destruct (String.eqb s "Write In"); [intros [= <-]; vm_compute; reflexivity|].
  destruct (String.eqb s "Petitioning Candidate"); [intros [= <-]; vm_compute; reflexivity|].
  destruct (String.eqb s "Conservative Party"); [intros [= <-]; vm_compute; reflexivity|].
  discriminate.
Qed.

(** X24: the translation of party names maps the eight names of [PARTY_ES]
    to eight different Spanish names, none of which is itself a name of the
    table, so that translating a translated cell changes nothing; a cell
    that is no text ([None], a number, a missing value) is passed through
    as it is. *)
Theorem party_translation_table :
  (forall (s1 s2 es : string),
     dict_get s1 PARTY_ES = Some es -> dict_get s2 PARTY_ES = Some es -> s1 = s2)
  /\ (forall s es : string, dict_get s PARTY_ES = Some es -> dict_get es PARTY_ES = None)
  /\ (forall x y : value, party_es x = Ok y -> party_es y = Ok y)
  /\ (forall x : value,
        match x with
        | VStr _ | VList _ | VDict _ => True
        | _ => party_es x = Ok x
        end).
Proof.
  split; [|split; [exact PARTY_ES_fresh|split]].
  - intros s1 s2 es H1%dict_get_elem H2%dict_get_elem.
    apply (NoDup_snd_key s1 s2 es PARTY_ES); [|exact H1|exact H2].
    apply (bool_decide_unpack _). vm_compute. reflexivity.
  - intros x y. destruct x as [| | | |s| |]; try (by intros [= <-]).
    rewrite party_es_text. intros H.
    destruct (dict_get s PARTY_ES) as [es|] eqn:Hs.
    + change (default s (Some es)) with es in H.
      assert (y = VStr es) as -> by congruence.
      by rewrite party_es_text, (PARTY_ES_fresh _ _ Hs).
    + change (default s None) with s in H.
      assert (y = VStr s) as -> by congruence.
      by rewrite party_es_text, Hs.
  - intros x. by destruct x.
Qed.

Lemma party_translation_table_witness :
  dict_get "Partido Verde" PARTY_ES = None
  /\ party_es (VStr "Partido Verde") = Ok (VStr "Partido Verde").
Proof.
  destruct party_translation_table as (_ & Hfresh & Hidem & _). split.
  - apply (Hfresh "Green Party"). reflexivity.
  - apply (Hidem (VStr "Green Party")). reflexivity.
Defined.
